(** * Expense tracker: the ledger, the budget evaluator, the monthly reports
      and the month rollover of [app.py], embedded and verified.

    Conventions of the embedding.
    - Python [float] values (the [Total] column, budgets, amounts) are IEEE
      binary64 numbers: the kernel's primitive [float] with its own
      arithmetic and comparisons.
    - Text ([str], file contents) is a [string] of UTF-8 bytes.
    - The three data folders are finite maps from path to content; a ledger
      file holds the table that [pandas.read_csv] parses out of it.
    - Code that touches files runs in a state-and-exception monad over the
      folders: what was written before an exception stays written. *)

From Stdlib Require Import ZArith NArith Floats Ascii String Lia.
From stdpp Require Import base option list gmap strings pretty.

Local Open Scope string_scope.

(* ===================================================================== *)
(** ** Text: the [str] methods and format specifications the script uses *)
(* ===================================================================== *)

Module Text.

(** The characters [str.strip()] removes, for text in the ASCII range:
    space, [\t \n \v \f \r] and the separators [\x1c]..[\x1f]. *)
Definition is_whitespace (c : ascii) : bool :=
  let n := nat_of_ascii c in
  (n =? 32)%nat || ((9 <=? n)%nat && (n <=? 13)%nat)
                || ((28 <=? n)%nat && (n <=? 31)%nat).

Fixpoint lstrip (s : string) : string :=
  match s with
  | EmptyString => EmptyString
  | String c s' => if is_whitespace c then lstrip s' else s
  end.

Fixpoint rstrip (s : string) : string :=
  match s with
  | EmptyString => EmptyString
  | String c s' =>
      match rstrip s' with
      | EmptyString => if is_whitespace c then EmptyString else String c EmptyString
      | r => String c r
      end
  end.

(** [s.strip()] *)
Definition strip (s : string) : string := rstrip (lstrip s).

Definition prepend_to_first (c : ascii) (ls : list string) : list string :=
  match ls with
  | [] => [String c EmptyString]
  | l :: ls' => String c l :: ls'
  end.

(** [s.splitlines(True)]: the lines of [s], line ends kept.  Line
    boundaries are [\n], [\r\n], [\r], [\v], [\f], [\x1c], [\x1d], [\x1e],
    and, in their UTF-8 encodings, U+0085, U+2028 and U+2029. *)
Fixpoint splitlines (s : string) : list string :=
  match s with
  | EmptyString => []
  | String c s' =>
      match nat_of_ascii c, s' with
      | 13, String c2 s'' =>
          if (nat_of_ascii c2 =? 10)%nat
          then String c (String c2 EmptyString) :: splitlines s''
          else String c EmptyString :: splitlines s'
      | 194, String c2 s'' =>
          if (nat_of_ascii c2 =? 133)%nat
          then String c (String c2 EmptyString) :: splitlines s''
          else prepend_to_first c (splitlines s')
      | 226, String c2 (String c3 s''') =>
          if (nat_of_ascii c2 =? 128)%nat
             && ((nat_of_ascii c3 =? 168)%nat || (nat_of_ascii c3 =? 169)%nat)
          then String c (String c2 (String c3 EmptyString)) :: splitlines s'''
          else prepend_to_first c (splitlines s')
      | n, _ =>
          if (n =? 10)%nat || (n =? 11)%nat || (n =? 12)%nat || (n =? 13)%nat
             || (n =? 28)%nat || (n =? 29)%nat || (n =? 30)%nat
          then String c EmptyString :: splitlines s'
          else prepend_to_first c (splitlines s')
      end
  end.

(** Decimal digits of a natural number, as [str(n)] prints them. *)
Definition dec (n : N) : string := pretty n.

(** [n] copies of ["0"]. *)
Fixpoint zeros (n : nat) : string :=
  match n with
  | O => ""
  | S n' => String "0" (zeros n')
  end.

(** Zero-padded to width [w], as [%02d] and [%04d] print. *)
Definition zpad (w : nat) (n : N) : string :=
  let d := dec n in zeros (w - String.length d) +:+ d.

(** Text without any of the characters [strip] removes. *)
Fixpoint solid (s : string) : bool :=
  match s with
  | EmptyString => true
  | String c s' => negb (is_whitespace c) && solid s'
  end.

End Text.

(* ===================================================================== *)
(** ** Floats: how Python prints a [float]                                *)
(* ===================================================================== *)

Module PyFloat.

Definition sign_str (s : bool) : string := if s then "-" else "".

(** [num / den] rounded to the nearest integer, ties to even. *)
Definition round_half_even (num den : N) : N :=
  let q := (num / den)%N in
  match (2 * (num mod den) ?= den)%N with
  | Lt => q
  | Gt => (q + 1)%N
  | Eq => if N.even q then q else (q + 1)%N
  end.

(** [m * 2^e * 100], correctly rounded to an integer. *)
Definition hundredths (m : positive) (e : Z) : N :=
  match e with
  | Zneg p => round_half_even (Npos m * 100) (2 ^ Npos p)
  | _ => (Npos m * 2 ^ Z.to_N e * 100)%N
  end.

(** [f"{x:.2f}"]: fixed notation with two decimals, correctly rounded
    from the exact binary value. *)
Definition format_2f (x : float) : string :=
  match Prim2SF x with
  | S754_nan => "nan"
  | S754_infinity s => sign_str s +:+ "inf"
  | S754_zero s => sign_str s +:+ "0.00"
  | S754_finite s m e =>
      let n := hundredths m e in
      sign_str s +:+ Text.dec (n / 100) +:+ "." +:+ Text.zpad 2 (n mod 100)
  end.

(** *** [repr]: the shortest decimal that reads back as the same float *)

Definition pos_part (z : Z) : N := Z.to_N z.
Definition neg_part (z : Z) : N := Z.to_N (- z).

(** Compares [a * 2^ea] with [d * 10^k]. *)
Definition cmp_bin_dec (a : N) (ea : Z) (d : N) (k : Z) : comparison :=
  (a * 2 ^ pos_part ea * 10 ^ neg_part k
     ?= d * 10 ^ pos_part k * 2 ^ neg_part ea)%N.

(** [floor (a * 2^ea / 10^k)] *)
Definition floor_bin_dec (a : N) (ea : Z) (k : Z) : N :=
  ((a * 2 ^ pos_part ea * 10 ^ neg_part k)
     / (10 ^ pos_part k * 2 ^ neg_part ea))%N.

(** A finite positive float and the interval of reals that round to it,
    all three as integers scaled by [2^iv_exp]. *)
Record interval := {
  iv_lo : N; iv_val : N; iv_hi : N; iv_exp : Z;
  iv_closed : bool   (* even mantissa: the end points round to it too *)
}.

Definition scaled (m : positive) (e e0 : Z) : N :=
  (Npos m * 2 ^ Z.to_N (e - e0))%N.

Definition rounding_interval (x : float) (m : positive) (e : Z) : interval :=
  let below := Prim2SF (next_down x) in
  let above := Prim2SF (next_up x) in
  let e1 := match below with S754_finite _ _ eb => Z.min e eb | _ => e end in
  let e0 := (e1 - 1)%Z in
  let v := scaled m e e0 in
  let p := match below with S754_finite _ mb eb => scaled mb eb e0 | _ => 0%N end in
  let s := match above with
           | S754_finite _ ma ea => scaled ma ea e0
           | _ => (v + (v - p))%N
           end in
  {| iv_lo := ((p + v) / 2)%N; iv_val := v; iv_hi := ((v + s) / 2)%N;
     iv_exp := e0; iv_closed := N.even (Npos m) |}.

Definition inside (iv : interval) (d : N) (k : Z) : bool :=
  match cmp_bin_dec (iv_lo iv) (iv_exp iv) d k,
        cmp_bin_dec (iv_hi iv) (iv_exp iv) d k with
  | Lt, Gt => true
  | Eq, _ | _, Eq => iv_closed iv
  | _, _ => false
  end.

(** Is [d1 * 10^k], below the value, at least as near to it as
    [(d1+1) * 10^k], above it? (compares [2 v] with [(2 d1 + 1) 10^k]) *)
Definition lower_is_nearer (iv : interval) (d1 : N) (k : Z) : bool :=
  match cmp_bin_dec (2 * iv_val iv) (iv_exp iv) (2 * d1 + 1) k with
  | Lt => true
  | Eq => N.even d1
  | Gt => false
  end.

(** Coarsest power of ten first: the first [k] with a multiple of [10^k]
    inside the interval gives the shortest digits. *)
Fixpoint shortest_from (fuel : nat) (iv : interval) (k : Z) : N * Z :=
  let d1 := floor_bin_dec (iv_val iv) (iv_exp iv) k in
  let d2 := (d1 + 1)%N in
  match inside iv d1 k, inside iv d2 k with
  | true, true => (if lower_is_nearer iv d1 k then d1 else d2, k)
  | true, false => (d1, k)
  | false, true => (d2, k)
  | false, false =>
      match fuel with
      | O => (d1, k)
      | S fuel' => shortest_from fuel' iv (k - 1)
      end
  end.

(** An exponent [k] with [10^k] above the value [m * 2^e]. *)
Definition start_exp (m : positive) (e : Z) : Z :=
  ((e + Z.of_N (N.size (Npos m))) * 30103 / 100000 + 2)%Z.

Definition shortest_digits (x : float) (m : positive) (e : Z) : N * Z :=
  shortest_from 40 (rounding_interval x m e) (start_exp m e).

Definition substr_from (n : nat) (s : string) : string :=
  String.substring n (String.length s - n) s.

(** The layout [repr] gives to digits [ds] with the decimal point after
    [decpt] of them: scientific when [decpt <= -4] or [decpt > 16]. *)
Definition layout (ds : string) (decpt : Z) : string :=
  let nd := Z.of_nat (String.length ds) in
  if ((decpt <=? -4) || (16 <? decpt))%Z then
    let ex := (decpt - 1)%Z in
    String.substring 0 1 ds
      +:+ (if (1 <? nd)%Z then "." +:+ substr_from 1 ds else "")
      +:+ "e" +:+ (if (ex <? 0)%Z then "-" else "+")
      +:+ Text.zpad 2 (Z.to_N (Z.abs ex))
  else if (decpt <=? 0)%Z then
    "0." +:+ Text.zeros (Z.to_nat (- decpt)) +:+ ds
  else if (nd <=? decpt)%Z then
    ds +:+ Text.zeros (Z.to_nat (decpt - nd)) +:+ ".0"
  else
    String.substring 0 (Z.to_nat decpt) ds +:+ "." +:+ substr_from (Z.to_nat decpt) ds.

(** [repr(x)], which is also [str(x)] and [f"{x}"]. *)
Definition repr (x : float) : string :=
  match Prim2SF x with
  | S754_nan => "nan"
  | S754_infinity s => sign_str s +:+ "inf"
  | S754_zero s => sign_str s +:+ "0.0"
  | S754_finite s m e =>
      let '(d, k) := shortest_digits (abs x) m e in
      let ds := Text.dec d in
      sign_str s +:+ layout ds (Z.of_nat (String.length ds) + k)
  end.

End PyFloat.

(* ===================================================================== *)
(** ** Exceptions                                                         *)
(* ===================================================================== *)

(** The exceptions the modelled code can raise.  [RerunException] is how
    [st.experimental_rerun()] stops the running script; [EmptyDataError]
    is what [pandas.read_csv] raises on a file without a byte in it. *)
Inductive exn :=
| IndexError | OverflowError | ZeroDivisionError | RerunException | EmptyDataError.

Inductive result (A : Type) : Type :=
| Ok (a : A)
| Raise (e : exn).
Arguments Ok {A} a.
Arguments Raise {A} e.

Definition result_bind {A B : Type} (r : result A) (k : A -> result B) : result B :=
  match r with
  | Ok a => k a
  | Raise e => Raise e
  end.

Notation "'let?' x ':=' r 'in' k" := (result_bind r (fun x => k))
  (at level 10, x name, r at level 100, k at level 200).

(* ===================================================================== *)
(** ** Dates: the [datetime] operations the script uses                   *)
(* ===================================================================== *)

Module Date.

(** An aware [datetime] in the Asia/Kolkata zone, to the minute. *)
Record datetime := {
  year : nat; month : nat; day : nat; hour : nat; minute : nat
}.

Definition month_name (m : nat) : string :=
  match m with
  | 1 => "January" | 2 => "February" | 3 => "March" | 4 => "April"
  | 5 => "May" | 6 => "June" | 7 => "July" | 8 => "August"
  | 9 => "September" | 10 => "October" | 11 => "November" | 12 => "December"
  | _ => ""
  end.

Definition is_leap (y : nat) : bool :=
  (y mod 4 =? 0)%nat && (negb (y mod 100 =? 0)%nat || (y mod 400 =? 0)%nat).

Definition days_in_month (y m : nat) : nat :=
  match m with
  | 2 => if is_leap y then 29 else 28
  | 4 | 6 | 9 | 11 => 30
  | _ => 31
  end.

(** [dt.replace(day=d)] *)
Definition replace_day (dt : datetime) (d : nat) : datetime :=
  {| year := year dt; month := month dt; day := d;
     hour := hour dt; minute := minute dt |}.

(** [dt - timedelta(days=1)]; there is no day before 0001-01-01. *)
Definition minus_one_day (dt : datetime) : result datetime :=
  if (1 <? day dt)%nat then Ok (replace_day dt (day dt - 1))
  else if (1 <? month dt)%nat then
    Ok {| year := year dt; month := month dt - 1;
          day := days_in_month (year dt) (month dt - 1);
          hour := hour dt; minute := minute dt |}
  else if (1 <? year dt)%nat then
    Ok {| year := year dt - 1; month := 12; day := 31;
          hour := hour dt; minute := minute dt |}
  else Raise OverflowError.

Definition directive (d : ascii) (dt : datetime) : string :=
  match d with
  | "Y"%char => Text.zpad 4 (N.of_nat (year dt))
  | "m"%char => Text.zpad 2 (N.of_nat (month dt))
  | "d"%char => Text.zpad 2 (N.of_nat (day dt))
  | "H"%char => Text.zpad 2 (N.of_nat (hour dt))
  | "M"%char => Text.zpad 2 (N.of_nat (minute dt))
  | "B"%char => month_name (month dt)
  | _ => String "%" (String d "")
  end.

(** [dt.strftime(fmt)] for the directives the script uses; [%Y] is the
    year in four digits (years from 1000 on print the same on every
    platform). *)
Fixpoint strftime (fmt : string) (dt : datetime) : string :=
  match fmt with
  | EmptyString => EmptyString
  | String c rest =>
      match c, rest with
      | "%"%char, String d rest' => directive d dt +:+ strftime rest' dt
      | _, _ => String c (strftime rest dt)
      end
  end.

End Date.

Abbreviation datetime := Date.datetime.

(* ===================================================================== *)
(** ** The ledger: a two-column [DataFrame]                               *)
(* ===================================================================== *)

(** One row of the frame: columns [Categories] and [Total]. *)
Record Row := { Categories : string; Total : float }.

Abbreviation DataFrame := (list Row).

Module Frame.

(** The row masks [df["Categories"] == c] and [df["Categories"] != c]. *)
Definition cat_eq (c : string) (r : Row) : bool := String.eqb (Categories r) c.
Definition cat_ne (c : string) (r : Row) : bool := negb (String.eqb (Categories r) c).

(** [df[mask]] *)
Definition select (mask : Row -> bool) (df : DataFrame) : DataFrame :=
  List.filter mask df.

(** [df["Total"].sum()]: pandas counts NaN as 0.0 and hands the column to
    numpy's [add.reduce], which starts from 0.0.  A column of fewer than
    eight numbers (such as the six expense rows of a ledger) is added up in
    row order.  A longer one goes through numpy's pairwise summation: up to
    128 numbers are added into eight running sums, one for each position
    modulo 8, the eight sums are combined as a balanced tree and what is
    left of the column is added in row order; a longer column is cut in
    two, at a multiple of eight, and the sums of the halves are added. *)
Definition nan_to_zero (x : float) : float := if is_nan x then 0%float else x.

Definition add_in_order (start : float) (a : list float) : float :=
  fold_left (fun res x => (res + x)%float) a start.

Fixpoint add_by_eights (rounds : nat) (r a : list float)
  : list float * list float :=
  match rounds with
  | O => (r, a)
  | S rounds' =>
      add_by_eights rounds'
        (zip_with (fun x y => (x + y)%float) r (firstn 8 a)) (skipn 8 a)
  end.

Definition combine_eight (r : list float) : float :=
  match r with
  | [r0; r1; r2; r3; r4; r5; r6; r7] =>
      (((r0 + r1) + (r2 + r3)) + ((r4 + r5) + (r6 + r7)))%float
  | _ => 0%float
  end.

(** one block, of 8 to 128 numbers *)
Definition block_sum (a : list float) : float :=
  let n := length a in
  let '(r, rest) := add_by_eights (n / 8 - 1) (firstn 8 a) (skipn 8 a) in
  add_in_order (combine_eight r) rest.

(** [depth] bounds the number of times the column is cut in two; the length
    of the column is enough *)
Fixpoint pairwise_sum (depth : nat) (a : list float) : float :=
  let n := length a in
  if (n <? 8)%nat then add_in_order 0%float a
  else if (n <=? 128)%nat then block_sum a
  else
    match depth with
    | O => block_sum a
    | S depth' =>
        let n2 := (n / 2 - (n / 2) mod 8)%nat in
        (pairwise_sum depth' (firstn n2 a) + pairwise_sum depth' (skipn n2 a))%float
    end.

Definition sum_total (df : DataFrame) : float :=
  if (length df <? 8)%nat
  then fold_left (fun acc r => (acc + nan_to_zero (Total r))%float) df 0%float
  else
    (0 + pairwise_sum (length df)
           (List.map (fun r => nan_to_zero (Total r)) df))%float.

(** [df.loc[mask, "Total"].values] *)
Definition loc_values (mask : Row -> bool) (df : DataFrame) : list float :=
  List.map Total (List.filter mask df).

(** [float(values[0])] *)
Definition first_value (vs : list float) : result float :=
  match vs with
  | [] => Raise IndexError
  | v :: _ => Ok v
  end.

(** [df.loc[mask, "Total"] = v] *)
Definition loc_set (mask : Row -> bool) (v : float) (df : DataFrame) : DataFrame :=
  List.map (fun r => if mask r then {| Categories := Categories r; Total := v |} else r) df.

(** [df.loc[mask, "Total"] += v] *)
Definition loc_add (mask : Row -> bool) (v : float) (df : DataFrame) : DataFrame :=
  List.map (fun r => if mask r
                     then {| Categories := Categories r; Total := (Total r + v)%float |}
                     else r) df.

(** [float(df.loc[df["Categories"] == "Budget", "Total"].values[0])] *)
Definition budget_value (df : DataFrame) : result float :=
  first_value (loc_values (cat_eq "Budget") df).

End Frame.

(* ===================================================================== *)
(** ** The world the script runs in                                       *)
(* ===================================================================== *)

(** A field of the [Total] column as [pandas.read_csv] finds it in a ledger
    file: a number, text that is not a number, or nothing. *)
Inductive cell :=
| Number (x : float)
| NotNumber (s : string)
| Missing.

(** A ledger file, as [pandas.read_csv] finds it: the table with the columns
    [Categories] and [Total], which is what every file the script writes
    holds, or a file without a byte in it, which [read_csv] refuses.  Files
    with other columns, or that [read_csv] refuses for another reason, are
    not modelled. *)
Inductive csv_file :=
| Csv (table : list (string * cell))
| Empty_file.

(** What a run shows through [st.write], [st.info], [st.success],
    [st.warning] and [st.error]; titles, widgets and tables are not
    recorded. *)
Inductive Msg :=
| st_write (s : string)
| st_info (s : string)
| st_success (s : string)
| st_warning (s : string)
| st_error (s : string).

(** The folders [user_data], [monthly_reports] and [last_reset], each a map
    from path to content, the [users] table of the database, and the page
    the current run has rendered so far.  Chart images are write-only
    output of the script and are not part of the world. *)
Record World := {
  user_data : gmap string csv_file;
  monthly_reports : gmap string string;
  last_reset : gmap string string;
  users : gset string;
  screen : list Msg
}.

Definition empty_world : World :=
  {| user_data := ∅; monthly_reports := ∅; last_reset := ∅; users := ∅; screen := [] |}.

(** Computations that read and write the world and may raise. *)
Definition M (A : Type) : Type := World -> result A * World.

Definition ret {A : Type} (a : A) : M A := fun w => (Ok a, w).

Definition bind {A B : Type} (c : M A) (k : A -> M B) : M B :=
  fun w => match c w with
           | (Ok a, w') => k a w'
           | (Raise e, w') => (Raise e, w')
           end.

Definition lift {A : Type} (r : result A) : M A := fun w => (r, w).

Definition raise {A : Type} (e : exn) : M A := lift (Raise e).

Definition get : M World := fun w => (Ok w, w).

Definition modify (f : World -> World) : M unit := fun w => (Ok tt, f w).

Notation "'let!' x ':=' c 'in' k" := (bind c (fun x => k))
  (at level 10, x name, c at level 100, k at level 200).

(** The world a computation leaves, and what it returns or raises. *)
Definition exec {A : Type} (c : M A) (w : World) : World := snd (c w).
Definition outcome {A : Type} (c : M A) (w : World) : result A := fst (c w).

Module Fs.

Definition set_user_data (f : gmap string csv_file -> gmap string csv_file)
    (w : World) : World :=
  {| user_data := f (user_data w); monthly_reports := monthly_reports w;
     last_reset := last_reset w; users := users w; screen := screen w |}.

Definition set_monthly_reports (f : gmap string string -> gmap string string)
    (w : World) : World :=
  {| user_data := user_data w; monthly_reports := f (monthly_reports w);
     last_reset := last_reset w; users := users w; screen := screen w |}.

Definition set_last_reset (f : gmap string string -> gmap string string)
    (w : World) : World :=
  {| user_data := user_data w; monthly_reports := monthly_reports w;
     last_reset := f (last_reset w); users := users w; screen := screen w |}.

Definition set_users (f : gset string -> gset string) (w : World) : World :=
  {| user_data := user_data w; monthly_reports := monthly_reports w;
     last_reset := last_reset w; users := f (users w); screen := screen w |}.

Definition set_screen (f : list Msg -> list Msg) (w : World) : World :=
  {| user_data := user_data w; monthly_reports := monthly_reports w;
     last_reset := last_reset w; users := users w; screen := f (screen w) |}.

(** [os.path.join(folder, file)] *)
Definition path_join (folder file : string) : string :=
  if String.prefix "/" file then file else folder +:+ "/" +:+ file.

(** [os.path.exists(rpt)] for a path of a report. *)
Definition report_exists (path : string) : M bool :=
  let! w := get in
  ret (match monthly_reports w !! path with Some _ => true | None => false end).

(** [with open(path, "w") as f: f.write(text)] *)
Definition report_write (path text : string) : M unit :=
  modify (set_monthly_reports (insert path text)).

(** [with open(path, "a") as f: f.write(text)]: append mode creates the
    file when it is not there. *)
Definition report_append (path text : string) : M unit :=
  modify (set_monthly_reports
            (fun fs => <[path := default "" (fs !! path) +:+ text]> fs)).

(** [with open(path, "r") as f: f.read()], for a path that exists. *)
Definition report_read (path : string) : M string :=
  let! w := get in ret (default "" (monthly_reports w !! path)).

(** The content of the marker file, when the file exists. *)
Definition marker_read (path : string) : M (option string) :=
  let! w := get in ret (last_reset w !! path).

Definition marker_write (path text : string) : M unit :=
  modify (set_last_reset (insert path text)).

Definition emit (m : Msg) : M unit :=
  modify (set_screen (fun s => (s ++ [m])%list)).

End Fs.

(* ===================================================================== *)
(** ** The program                                                        *)
(* ===================================================================== *)

Definition DATA_FOLDER : string := "user_data".
Definition REPORTS_FOLDER : string := "monthly_reports".
Definition RESET_FOLDER : string := "last_reset".

(** *** The users table *)

Definition get_all_users : M (gset string) :=
  let! w := get in ret (users w).

(** [INSERT OR IGNORE INTO users (name) VALUES (?)] *)
Definition add_user (name : string) : M unit :=
  modify (Fs.set_users (fun us => {[ name ]} ∪ us)).

(** *** Creating and saving each user's csv file *)

Definition user_csv_path (name : string) : string :=
  Fs.path_join DATA_FOLDER (name +:+ ".csv").

Definition fresh_ledger : DataFrame :=
  List.map (fun c => {| Categories := c; Total := 0%float |})
    ["Food"; "Travel"; "Loans"; "Entertainment"; "Shopping"; "Others"; "Budget"].

(** [pd.to_numeric(column, errors="coerce")] on one field *)
Definition to_numeric_coerce (c : cell) : float :=
  match c with
  | Number x => x
  | NotNumber _ | Missing => nan
  end.

(** [column.fillna(v)] on one field *)
Definition fillna (v x : float) : float := if is_nan x then v else x.

(** [pd.read_csv(file_path)] *)
Definition read_csv (file : csv_file) : result (list (string * cell)) :=
  match file with
  | Csv table => Ok table
  | Empty_file => Raise EmptyDataError
  end.

(** A table that [read_csv] returns holds the two columns [Categories] and
    [Total], so the test ["Total" in df.columns] holds and the column is
    normalized. *)
Definition load_user_data (name : string) : M DataFrame :=
  let file_path := user_csv_path name in
  let! w := get in
  match user_data w !! file_path with
  | Some file =>
      let! table := lift (read_csv file) in
      ret (List.map (fun '(c, t) =>
                       {| Categories := c; Total := fillna 0%float (to_numeric_coerce t) |})
                    table)
  | None => ret fresh_ledger
  end.

(** The rows [df.to_csv] writes: NaN as an empty field and any other
    number so that it reads back as the same number. *)
Definition csv_rows (df : DataFrame) : list (string * cell) :=
  List.map (fun r => (Categories r, if is_nan (Total r) then Missing else Number (Total r))) df.

(** [df.to_csv(file_path, index=False)] *)
Definition to_csv (df : DataFrame) : csv_file := Csv (csv_rows df).

Definition save_user_data (name : string) (df : DataFrame) : M unit :=
  let file_path := user_csv_path name in
  modify (Fs.set_user_data (insert file_path (to_csv df))).

(** *** Reports and charts for each user *)

Definition month_key (dt : datetime) : string := Date.strftime "%Y-%m" dt.

Definition month_label (dt : datetime) : string := Date.strftime "%B_%Y" dt.

Definition report_file_path (name : string) (dt : datetime) : string :=
  Fs.path_join REPORTS_FOLDER (name +:+ "_" +:+ month_label dt +:+ ".txt").

Definition reset_file_path (name : string) : string :=
  Fs.path_join RESET_FOLDER (name +:+ ".txt").

(** *** Computing budget and alerts *)

(** [x / y] on Python floats raises when the divisor is zero.  (The sum
    that is divided is a numpy scalar, whose division would only warn; the
    stricter behaviour is the one modelled.) *)
Definition truediv (x y : float) : result float :=
  if (y =? 0)%float then Raise ZeroDivisionError else Ok (x / y)%float.

Definition compute_budget_status (df : DataFrame)
  : result (float * float * float * float) :=
  let exp_df := Frame.select (Frame.cat_ne "Budget") df in
  let total_expenses := Frame.sum_total exp_df in
  let? budget_val := Frame.budget_value df in
  let remaining := (budget_val - total_expenses)%float in
  let? percent_used :=
    (if (0 <? budget_val)%float
     then let? q := truediv total_expenses budget_val in Ok (q * 100)%float
     else Ok 0%float) in
  Ok (budget_val, total_expenses, remaining, percent_used).

Definition show_budget_summary (df : DataFrame) : M unit :=
  let! st := lift (compute_budget_status df) in
  let '(budget_val, total_expenses, remaining, percent_used) := st in
  let! _ := Fs.emit (st_write ("💵 Budget: ₹" +:+ PyFloat.format_2f budget_val)) in
  let! _ := Fs.emit (st_write ("💸 Spent: ₹" +:+ PyFloat.format_2f total_expenses)) in
  let! _ := Fs.emit (st_write ("✅ Remaining: ₹" +:+ PyFloat.format_2f remaining)) in
  let! _ := Fs.emit (st_write ("📊 Used: " +:+ PyFloat.format_2f percent_used +:+ "%")) in
  if (budget_val <=? 0)%float then
    Fs.emit (st_info "No budget set. Please set a budget (new users).")
  else if (100 <=? percent_used)%float then
    Fs.emit (st_error "🚨 Budget exceeded!")
  else if (80 <=? percent_used)%float then
    Fs.emit (st_warning "⚠️ Budget usage >= 80%")
  else
    Fs.emit (st_success "😊 You're within your budget").

(** Chart images go to the [charts] folder, which is outside the world:
    nothing the script reads back changes. *)
Definition create_and_save_charts (name : string) (df : DataFrame) (dt : datetime)
  : M unit := ret tt.

(** *** Monthly reports *)

Definition report_title (name : string) (dt : datetime) : string :=
  "Expense Report for " +:+ name +:+ " - " +:+ Date.strftime "%B %Y" dt +:+ "
".

Definition report_budget_line (budget_val : float) : string :=
  "Budget: ₹" +:+ PyFloat.format_2f budget_val +:+ "
".

Definition report_columns : string := "Timestamp | Category | Amount
".

Definition ensure_monthly_report_exists (name : string) (dt : datetime) : M string :=
  let rpt := report_file_path name dt in
  let! present := Fs.report_exists rpt in
  let! _ :=
    (if negb present then
       let! df := load_user_data name in
       let! budget_val := lift (Frame.budget_value df) in
       if (0 <? budget_val)%float then
         Fs.report_write rpt
           (report_title name dt +:+ report_budget_line budget_val +:+ report_columns)
       else ret tt
     else ret tt) in
  ret rpt.

Definition expense_line (category : string) (amount : float) (dt : datetime) : string :=
  let timestamp := Date.strftime "%d-%m-%Y %H:%M" dt in
  timestamp +:+ " | " +:+ category +:+ " | ₹" +:+ PyFloat.repr amount +:+ "
".

Definition append_expense_to_report (name category : string) (amount : float)
    (dt : datetime) : M unit :=
  let rpt := report_file_path name dt in
  let! _ := ensure_monthly_report_exists name dt in
  Fs.report_append rpt (expense_line category amount dt).

Definition status_line (percent_used : float) : string :=
  if (100 <=? percent_used)%float then "Status: Budget Exceeded
"
  else if (80 <=? percent_used)%float then "Status: Close to Budget
"
  else "Status: Within Budget
".

Definition month_end_summary (total_expenses remaining percent_used : float)
    (dt : datetime) : string :=
  "
---- Month End Summary ----
" +:+ "Total Expenses: ₹" +:+ PyFloat.format_2f total_expenses +:+ "
" +:+ "Remaining: ₹" +:+ PyFloat.format_2f remaining +:+ "
" +:+ "Percent Used: " +:+ PyFloat.format_2f percent_used +:+ "%
" +:+ status_line percent_used
  +:+ "Closed on: " +:+ Date.strftime "%d-%m-%Y" dt +:+ "
".

Definition finalize_month_report (name : string) (df : DataFrame) (dt : datetime)
  : M unit :=
  let rpt := report_file_path name dt in
  let! st := lift (compute_budget_status df) in
  let '(budget_val, total_expenses, remaining, percent_used) := st in
  Fs.report_append rpt (month_end_summary total_expenses remaining percent_used dt).

(** *** Main Streamlit user interface *)

Inductive Menu :=
| View_Summary | Add_Expense | Modify_Budget | View_Reports | View_Charts.

Inductive Button :=
| Save_Budget | Add_Expense_Button | Update_Budget
| Open_Report | Download_Report | Show_Current_Data | Save_Data_Now.

(** What one run of the script receives: the clock, the widget values and
    the button, if any, whose click started the run. *)
Record Input := {
  in_name : string;          (* the name typed in, stripped and lowercased *)
  in_now : datetime;         (* [current_india_dt()] *)
  in_clicked : option Button;
  in_set_budget : float;     (* "Set monthly budget (₹)" *)
  in_menu : Menu;            (* "Choose action" *)
  in_category : nat;         (* position chosen in "Category" *)
  in_amount : float;         (* "Amount (₹)" *)
  in_new_budget : float      (* "New budget (₹)" *)
}.

Definition pressed (i : Input) (b : Button) : bool :=
  match in_clicked i, b with
  | Some Save_Budget, Save_Budget
  | Some Add_Expense_Button, Add_Expense_Button
  | Some Update_Budget, Update_Budget
  | Some Open_Report, Open_Report
  | Some Download_Report, Download_Report
  | Some Show_Current_Data, Show_Current_Data
  | Some Save_Data_Now, Save_Data_Now => true
  | _, _ => false
  end.

(** [st.selectbox(label, options)]: one of the options, [None] when there
    are none. *)
Definition selectbox (options : list string) (choice : nat) : option string :=
  match options !! choice with
  | Some c => Some c
  | None => head options
  end.

Definition new_month_message : string :=
  "📆 New month started: previous month's report finalized and expenses reset.".

(** The test that starts the month rollover. *)
Definition rollover_due (last_saved_month : option string) (current_mkey : string)
    (india_dt : datetime) : bool :=
  negb (bool_decide (last_saved_month = Some current_mkey))
  && (Date.day india_dt =? 1)%nat.

(** The month rollover block. *)
Definition month_rollover (name : string) (df : DataFrame) (india_dt : datetime)
    (last_saved_month : option string) : M DataFrame :=
  let current_mkey := month_key india_dt in
  let reset_file := reset_file_path name in
  if rollover_due last_saved_month current_mkey india_dt then
    let prev_month_dt := Date.replace_day india_dt 1 in
    let! prev_last_day := lift (Date.minus_one_day prev_month_dt) in
    let! _ := finalize_month_report name df prev_last_day in
    let df := Frame.loc_set (Frame.cat_ne "Budget") 0%float df in
    let! _ := save_user_data name df in
    let! _ := Fs.marker_write reset_file current_mkey in
    let! _ := Fs.emit (st_warning new_month_message) in
    ret df
  else ret df.

(** Month handling: from loading the ledger to the end of the rollover
    block.  Returns the ledger and the budget read before the rollover. *)
Definition month_handling (name : string) (india_dt : datetime) : M (DataFrame * float) :=
  let! df := load_user_data name in
  let reset_file := reset_file_path name in
  let! stored := Fs.marker_read reset_file in
  let last_saved_month := option_map Text.strip stored in
  let! budget_val := lift (Frame.budget_value df) in
  let! _ := (if (0 <? budget_val)%float
             then let! _ := ensure_monthly_report_exists name india_dt in ret tt
             else ret tt) in
  let! df := month_rollover name df india_dt last_saved_month in
  ret (df, budget_val).

(** The screen for a new user without a budget. *)
Definition new_user_screen (i : Input) (df : DataFrame) : M DataFrame :=
  let name := in_name i in
  let india_dt := in_now i in
  if pressed i Save_Budget then
    let df := Frame.loc_set (Frame.cat_eq "Budget") (in_set_budget i) df in
    let! _ := save_user_data name df in
    let! _ := Fs.emit (st_success "✅ Budget saved. You can now add expenses.") in
    let! _ := ensure_monthly_report_exists name india_dt in
    let! _ := create_and_save_charts name df india_dt in
    raise RerunException
  else ret df.

Definition add_expense (i : Input) (df : DataFrame) : M DataFrame :=
  let name := in_name i in
  let india_dt := in_now i in
  let! _ := Fs.emit (st_write "Add an expense to a category:") in
  let category :=
    selectbox (List.map Categories (Frame.select (Frame.cat_ne "Budget") df))
              (in_category i) in
  let amount := in_amount i in
  if pressed i Add_Expense_Button then
    let mask := match category with
                | Some c => Frame.cat_eq c
                | None => fun _ => false
                end in
    let shown := default "None" category in
    let df := Frame.loc_add mask amount df in
    let! _ := save_user_data name df in
    let! _ := ensure_monthly_report_exists name india_dt in
    let! _ := append_expense_to_report name shown amount india_dt in
    let! _ := create_and_save_charts name df india_dt in
    let! st := lift (compute_budget_status df) in
    let '(budget_val, total_exp, remaining, perc) := st in
    let! _ :=
      (if (100 <=? perc)%float then Fs.emit (st_error "🚨 ALERT: Budget exceeded!")
       else if (80 <=? perc)%float then
         Fs.emit (st_warning ("⚠️ WARNING: Budget used " +:+ PyFloat.format_2f perc +:+ "%"))
       else ret tt) in
    let! _ := Fs.emit (st_success ("✅ Added ₹" +:+ PyFloat.repr amount +:+ " to " +:+ shown)) in
    ret df
  else ret df.

Definition modify_budget (i : Input) (df : DataFrame) : M DataFrame :=
  let name := in_name i in
  let india_dt := in_now i in
  let! current_budget := lift (Frame.budget_value df) in
  let new_budget_val := in_new_budget i in
  if pressed i Update_Budget then
    let df := Frame.loc_set (Frame.cat_eq "Budget") new_budget_val df in
    let! _ := save_user_data name df in
    let rpt := report_file_path name india_dt in
    let! present := Fs.report_exists rpt in
    let! _ :=
      (if present then
         let! old := Fs.report_read rpt in
         Fs.report_write rpt
           (report_title name india_dt +:+ report_budget_line new_budget_val
              +:+ (if (2 <? length (Text.splitlines old))%nat
                   then default "" (Text.splitlines old !! 2)
                   else ""))
       else ret tt) in
    let! _ := Fs.emit (st_success "✅ Budget updated") in
    let! _ := create_and_save_charts name df india_dt in
    ret df
  else ret df.

(** The screen for existing users; the report and chart viewers only read. *)
Definition existing_user_screen (i : Input) (df : DataFrame) : M DataFrame :=
  let name := in_name i in
  let india_dt := in_now i in
  match in_menu i with
  | View_Summary => let! _ := show_budget_summary df in ret df
  | Add_Expense => add_expense i df
  | Modify_Budget => modify_budget i df
  | View_Reports => let! _ := ensure_monthly_report_exists name india_dt in ret df
  | View_Charts => let! _ := create_and_save_charts name df india_dt in ret df
  end.

(** One run of the script. *)
Definition main (i : Input) : M unit :=
  let name := in_name i in
  if String.eqb name "" then ret tt else
  let! all_users := get_all_users in
  let! is_new_user :=
    (if bool_decide (name ∈ all_users) then ret false
     else let! _ := add_user name in ret true) in
  let! handled := month_handling name (in_now i) in
  let '(df, budget_val) := handled in
  let! df :=
    (if is_new_user && (budget_val =? 0)%float
     then new_user_screen i df
     else existing_user_screen i df) in
  if pressed i Save_Data_Now then
    let! _ := save_user_data name df in
    Fs.emit (st_success "Data saved.")
  else ret tt.

(* ===================================================================== *)
(** ** The vocabulary of the specification                                *)
(* ===================================================================== *)

(** The sum of the totals of all entries whose category is not "Budget",
    entry after entry. *)
Fixpoint expenses_sum_from (acc : float) (ledger : DataFrame) : float :=
  match ledger with
  | [] => acc
  | r :: rest =>
      if String.eqb (Categories r) "Budget"
      then expenses_sum_from acc rest
      else expenses_sum_from (acc + Total r)%float rest
  end.

Definition expenses_sum (ledger : DataFrame) : float :=
  expenses_sum_from 0%float ledger.

(** A ledger whose totals are all numbers. *)
Definition numeric (ledger : DataFrame) : Prop :=
  Forall (fun r => is_nan (Total r) = false) ledger.

(** The status tiers. *)
Inductive Tier := Exceeded | Near_limit | Within_budget.

(** [percentUsed >= 100] is Exceeded; [80 <= percentUsed < 100] is Near
    limit; anything else is Within budget. *)
Definition tier_of (percent_used : float) : Tier :=
  if (100 <=? percent_used)%float then Exceeded
  else if (80 <=? percent_used)%float && (percent_used <? 100)%float then Near_limit
  else Within_budget.

(** How the finalization block words a tier. *)
Definition tier_status_line (t : Tier) : string :=
  match t with
  | Exceeded => "Status: Budget Exceeded
"
  | Near_limit => "Status: Close to Budget
"
  | Within_budget => "Status: Within Budget
"
  end.

(** How the summary on screen words a tier. *)
Definition tier_message (t : Tier) : Msg :=
  match t with
  | Exceeded => st_error "🚨 Budget exceeded!"
  | Near_limit => st_warning "⚠️ Budget usage >= 80%"
  | Within_budget => st_success "😊 You're within your budget"
  end.

Definition no_budget_message : Msg :=
  st_info "No budget set. Please set a budget (new users).".

(** The number of "Budget" entries of a ledger, in memory and in a file. *)
Definition budget_rows (ledger : DataFrame) : nat :=
  length (List.filter (Frame.cat_eq "Budget") ledger).

Definition budget_rows_stored (table : list (string * cell)) : nat :=
  length (List.filter (fun e => String.eqb (fst e) "Budget") table).

(** Every ledger file holds exactly one "Budget" entry. *)
Definition one_budget_each (w : World) : Prop :=
  forall path file, user_data w !! path = Some file ->
    exists table, file = Csv table /\ budget_rows_stored table = 1.

(** The worlds the script can bring about, run after run, from nothing;
    a run that raises leaves what it had written. *)
Inductive reachable : World -> Prop :=
| reachable_start : reachable empty_world
| reachable_run (w : World) (i : Input) :
    reachable w -> reachable (exec (main i) (Fs.set_screen (fun _ => []) w)).

(** Run after run of the script, each on a fresh page. *)
Definition run_all (inputs : list Input) (w : World) : World :=
  fold_left (fun w i => exec (main i) (Fs.set_screen (fun _ => []) w)) inputs w.

(** New content that keeps the old content in front. *)
Definition extends (old new : string) : Prop :=
  exists suffix, new = old +:+ suffix.

(** Every report there was, but those of [skip], is still there, with its
    content in front. *)
Definition reports_kept_but (skip : string -> Prop) (w w' : World) : Prop :=
  forall path old, ~ skip path -> monthly_reports w !! path = Some old ->
    exists new, monthly_reports w' !! path = Some new /\ extends old new.

Definition reports_kept (w w' : World) : Prop := reports_kept_but (fun _ => False) w w'.

(** [preserves I post allowed c]: from a world in [I], [c] leaves a world
    in [I], whether it returns or raises; what it returns satisfies [post]
    and what it raises is [allowed]. *)
Definition preserves {A : Type} (I : World -> Prop) (post : A -> Prop)
    (allowed : exn -> Prop) (c : M A) : Prop :=
  forall w, I w ->
    I (exec c w)
    /\ match outcome c w with
       | Ok a => post a
       | Raise e => allowed e
       end.

Definition anything (e : exn) : Prop := True.

Definition not_index_error (e : exn) : Prop := e <> IndexError.

(** The value a ledger field is normalized to when it is loaded. *)
Definition normalized (t : cell) : float :=
  match t with
  | Number x => if is_nan x then 0%float else x
  | NotNumber _ | Missing => 0%float
  end.

(** The marker as the script reads it. *)
Definition stored_month_key (w : World) (name : string) : option string :=
  option_map Text.strip (last_reset w !! reset_file_path name).

(** The ledger the script finds for a user. *)
Definition ledger_of (w : World) (name : string) : DataFrame :=
  match outcome (load_user_data name) w with
  | Ok df => df
  | Raise _ => []
  end.

(** The user's ledger file is not one that [read_csv] refuses. *)
Definition readable (name : string) (w : World) : Prop :=
  user_data w !! user_csv_path name <> Some Empty_file.

(** What a step that loads the ledger and then looks up the budget raises:
    the error of the load when the file cannot be read, the error of the
    lookup otherwise. *)
Definition load_error (name : string) (w : World) (e : exn) : exn :=
  match user_data w !! user_csv_path name with
  | Some Empty_file => EmptyDataError
  | _ => e
  end.

(** The world the rollover block starts from: the report of the month is
    there when the budget is above 0. *)
Definition before_rollover (name : string) (dt : datetime) (b : float) (w : World) : World :=
  if (0 <? b)%float then exec (ensure_monthly_report_exists name dt) w else w.

(* ===================================================================== *)
(** ** Scenarios                                                          *)
(* ===================================================================== *)

Definition row (c : string) (t : float) : Row := {| Categories := c; Total := t |}.

(** The ledger [{Food:200, Travel:100, Budget:1000}]. *)
Definition ledger_within : DataFrame :=
  [row "Food" 200; row "Travel" 100; row "Budget" 1000].

(** The ledger [{Food:1050, Travel:100, Budget:1000}]. *)
Definition ledger_exceeded : DataFrame :=
  [row "Food" 1050; row "Travel" 100; row "Budget" 1000].

Definition nov_30 : datetime :=
  {| Date.year := 2025; Date.month := 11; Date.day := 30; Date.hour := 18; Date.minute := 45 |}.

Definition dec_1 : datetime :=
  {| Date.year := 2025; Date.month := 12; Date.day := 1; Date.hour := 9; Date.minute := 5 |}.

(** User "asha" with a saved ledger and nothing else on disk. *)
Definition world_with_ledger (ledger : DataFrame) : World :=
  {| user_data := {[ user_csv_path "asha" := to_csv ledger ]};
     monthly_reports := ∅; last_reset := ∅; users := {[ "asha" ]}; screen := [] |}.

(** A ledger file with a Total that is text and one that is missing. *)
Definition world_with_damaged_totals : World :=
  {| user_data :=
       {[ user_csv_path "asha" :=
            Csv [("Food", Number 12.5); ("Travel", NotNumber "n/a"); ("Loans", Missing);
                 ("Budget", Number 1000)] ]};
     monthly_reports := ∅; last_reset := ∅; users := {[ "asha" ]}; screen := [] |}.

(** A ledger file without a byte in it. *)
Definition world_with_empty_file : World :=
  {| user_data := {[ user_csv_path "asha" := Empty_file ]};
     monthly_reports := ∅; last_reset := ∅; users := {[ "asha" ]}; screen := [] |}.

(** The rollover scenario: the ledger [{Food:1050, Travel:100, Budget:1000}]
    on disk and the marker "2025-11". *)
Definition world_end_of_november : World :=
  {| user_data := {[ user_csv_path "asha" := to_csv ledger_exceeded ]};
     monthly_reports := ∅;
     last_reset := {[ reset_file_path "asha" := "2025-11" ]};
     users := {[ "asha" ]}; screen := [] |}.

(** A run that only looks at the summary. *)
Definition look_at_summary (name : string) (now : datetime) : Input :=
  {| in_name := name; in_now := now; in_clicked := None; in_set_budget := 0;
     in_menu := View_Summary; in_category := 0; in_amount := 0; in_new_budget := 0 |}.

(** The day before [dec_1], at the same time of day. *)
Definition nov_30_morning : datetime :=
  {| Date.year := 2025; Date.month := 11; Date.day := 30; Date.hour := 9; Date.minute := 5 |}.

(** Adding 850 to Food, and raising the budget to 1500, on 30 November. *)
Definition add_food_850 : Input :=
  {| in_name := "asha"; in_now := nov_30; in_clicked := Some Add_Expense_Button;
     in_set_budget := 0; in_menu := Add_Expense; in_category := 0; in_amount := 850;
     in_new_budget := 0 |}.

Definition raise_budget_1500 : Input :=
  {| in_name := "asha"; in_now := nov_30; in_clicked := Some Update_Budget;
     in_set_budget := 0; in_menu := Modify_Budget; in_category := 0; in_amount := 0;
     in_new_budget := 1500 |}.

(** *** The two halves of a run *)

(** The start of a run: is the name a new one?  A new name is registered. *)
Definition register (name : string) : M bool :=
  let! all_users := get_all_users in
  if bool_decide (name ∈ all_users) then ret false
  else let! _ := add_user name in ret true.

(** The rest of a run, from the loading of the ledger on. *)
Definition run_registered (i : Input) (is_new_user : bool) : M unit :=
  let name := in_name i in
  let! handled := month_handling name (in_now i) in
  let '(df, budget_val) := handled in
  let! df :=
    (if is_new_user && (budget_val =? 0)%float
     then new_user_screen i df
     else existing_user_screen i df) in
  if pressed i Save_Data_Now then
    let! _ := save_user_data name df in
    Fs.emit (st_success "Data saved.")
  else ret tt.

(** *** Further vocabulary *)

(** The world after the registration of a name. *)
Definition registered (name : string) (w : World) : World :=
  if bool_decide (name ∈ users w) then w
  else Fs.set_users (fun us => {[ name ]} ∪ us) w.

(** What a run for a user with a Budget row may raise: the rerun signal,
    or an overflow of the date when the clock stands in year 1. *)
Definition rerun_or_overflow (now : datetime) (e : exn) : Prop :=
  e = RerunException \/ (e = OverflowError /\ Date.year now <= 1).

(** The categories of a ledger, in order. *)
Definition CATEGORIES : list string :=
  ["Food"; "Travel"; "Loans"; "Entertainment"; "Shopping"; "Others"; "Budget"].

(** Every ledger file has exactly the rows of the fresh ledger. *)
Definition fresh_rows_each (w : World) : Prop :=
  forall path file, user_data w !! path = Some file ->
    exists table, file = Csv table /\ List.map fst table = CATEGORIES.

(** Every marker file holds a month key. *)
Definition month_key_each (w : World) : Prop :=
  forall path content, last_reset w !! path = Some content ->
    exists dt, content = month_key dt.

(** The same run with another button clicked, or none. *)
Definition click (b : option Button) (i : Input) : Input :=
  {| in_name := in_name i; in_now := in_now i; in_clicked := b;
     in_set_budget := in_set_budget i; in_menu := in_menu i;
     in_category := in_category i; in_amount := in_amount i;
     in_new_budget := in_new_budget i |}.

(** Two worlds with the same files and the same users table; the pages
    may differ. *)
Definition same_disk (w1 w2 : World) : Prop :=
  user_data w1 = user_data w2 /\ monthly_reports w1 = monthly_reports w2
  /\ last_reset w1 = last_reset w2 /\ users w1 = users w2.

(** [ensure_monthly_report_exists] has nothing to write: the report of the
    month is there, or the budget is not above 0. *)
Definition settled (name : string) (dt : datetime) (w : World) : Prop :=
  is_Some (monthly_reports w !! report_file_path name dt)
  \/ exists b, Frame.budget_value (ledger_of w name) = Ok b /\ (0 <? b)%float = false.

(** A byte that is no line boundary for [splitlines] and starts none. *)
Definition line_byte (c : ascii) : bool :=
  let n := nat_of_ascii c in
  negb ((n =? 10)%nat || (n =? 11)%nat || (n =? 12)%nat || (n =? 13)%nat
        || (n =? 28)%nat || (n =? 29)%nat || (n =? 30)%nat
        || (n =? 194)%nat || (n =? 226)%nat).

(** Text that [splitlines] leaves in one piece, byte by byte. *)
Fixpoint unbroken (s : string) : bool :=
  match s with
  | EmptyString => true
  | String c s' => line_byte c && unbroken s'
  end.

(** The November report after one expense line. *)
Definition world_with_report : World :=
  Fs.set_monthly_reports
    (insert "monthly_reports/asha_November_2025.txt"
       "Expense Report for asha - November 2025
Budget: ₹1000.00
Timestamp | Category | Amount
30-11-2025 18:45 | Food | ₹850.0
") (world_with_ledger ledger_within).

(** A name without "/": with the extension added it is the name of one
    file, directly inside the folder.  (With a "/" two names can lead to
    one file, as ["asha"] and ["./asha"] do.) *)
Fixpoint plain_name (name : string) : bool :=
  match name with
  | EmptyString => true
  | String c name' => negb (Ascii.eqb c "/") && plain_name name'
  end.

(** Two users, each with a ledger file and a marker file. *)
Definition world_of_two_users : World :=
  {| user_data := {[ user_csv_path "asha" := to_csv ledger_within;
                     user_csv_path "ravi" := to_csv ledger_exceeded ]};
     monthly_reports := ∅;
     last_reset := {[ reset_file_path "asha" := "2025-11";
                      reset_file_path "ravi" := "2025-11" ]};
     users := {[ "asha"; "ravi" ]}; screen := [] |}.

(** The world after a first run, for "asha", on the first of December. *)
Definition world_after_first_run : World :=
  exec (main (look_at_summary "asha" dec_1)) (Fs.set_screen (fun _ => []) empty_world).

(** The ledger files and marker files a run for [name] leaves alone: all
    but the user's own. *)
Definition others_untouched (name : string) (w w' : World) : Prop :=
  (forall path, path <> user_csv_path name -> user_data w' !! path = user_data w !! path)
  /\ (forall path, path <> reset_file_path name ->
        last_reset w' !! path = last_reset w !! path).

(** Every ledger file and every marker file is the file of a registered
    user, and the empty name is not registered. *)
Definition no_orphans (w : World) : Prop :=
  (forall path, is_Some (user_data w !! path) ->
     exists name, name ∈ users w /\ path = user_csv_path name)
  /\ (forall path, is_Some (last_reset w !! path) ->
        exists name, name ∈ users w /\ path = reset_file_path name)
  /\ ("" ∉ users w).

(* ===================================================================== *)
(** ** Facts about float comparisons                                      *)
(* ===================================================================== *)

Module FloatFacts.

Lemma SFcompare_swap (x y : spec_float) :
  SFcompare y x = option_map CompOpp (SFcompare x y).
Proof.
  destruct x as [sx | sx | | sx mx ex], y as [sy | sy | | sy my ey]; simpl;
    try reflexivity; try (destruct sx; reflexivity);
    try (destruct sy; reflexivity);
    try (destruct sx, sy; reflexivity).
  destruct sx, sy; simpl; try reflexivity; f_equal;
    rewrite (Z.compare_antisym ex ey);
    destruct (ex ?= ey)%Z; simpl; try reflexivity;
    change PosDef.Pos.compare_cont with Pos.compare_cont;
    rewrite (Pos.compare_cont_antisym mx my Eq); reflexivity.
Qed.

Lemma SFcompare_None_nan (x y : spec_float) :
  SFcompare x y = None -> x = S754_nan \/ y = S754_nan.
Proof.
  destruct x, y; simpl; intros H; try discriminate H; auto.
Qed.

(** [0 < b] excludes [b == 0]. *)
Lemma ltb_0_not_zero (b : float) :
  (0 <? b)%float = true -> (b =? 0)%float = false.
Proof.
  rewrite FloatAxioms.ltb_spec, FloatAxioms.eqb_spec. unfold SFltb, SFeqb.
  rewrite (SFcompare_swap (Prim2SF 0%float) (Prim2SF b)).
  destruct (SFcompare (Prim2SF 0%float) (Prim2SF b)) as [[ | | ] | ];
    simpl; intros H; try discriminate H; reflexivity.
Qed.

(** [b <= 0] excludes [0 < b]. *)
Lemma leb_0_not_pos (b : float) :
  (b <=? 0)%float = true -> (0 <? b)%float = false.
Proof.
  rewrite FloatAxioms.ltb_spec, FloatAxioms.leb_spec. unfold SFltb, SFleb.
  rewrite (SFcompare_swap (Prim2SF 0%float) (Prim2SF b)).
  destruct (SFcompare (Prim2SF 0%float) (Prim2SF b)) as [[ | | ] | ];
    simpl; intros H; try discriminate H; reflexivity.
Qed.

(** Between the two thresholds: at least [lo] and not at least [hi]
    means below [hi]. *)
Lemma below_upper (lo hi p : float) :
  (lo <=? p)%float = true -> (hi <=? p)%float = false ->
  Prim2SF hi <> S754_nan -> (p <? hi)%float = true.
Proof.
  rewrite FloatAxioms.ltb_spec, !FloatAxioms.leb_spec. unfold SFltb, SFleb. intros Hlo Hhi Hnan.
  rewrite (SFcompare_swap (Prim2SF hi) (Prim2SF p)).
  destruct (SFcompare (Prim2SF hi) (Prim2SF p)) as [[ | | ] | ] eqn:E;
    simpl; try discriminate Hhi; try reflexivity.
  destruct (SFcompare_None_nan _ _ E) as [H | H]; [contradiction | ].
  rewrite H in Hlo. destruct (Prim2SF lo); discriminate Hlo.
Qed.

End FloatFacts.

(* ===================================================================== *)
(** ** Facts about text                                                   *)
(* ===================================================================== *)

Module TextFacts.

Lemma append_assoc (a b c : string) : (a +:+ b) +:+ c = a +:+ (b +:+ c).
Proof.
  induction a as [ | x a IH]; [reflexivity | ].
  change (String x ((a +:+ b) +:+ c) = String x (a +:+ (b +:+ c))).
  rewrite IH. reflexivity.
Qed.

Lemma append_nil_r (a : string) : a +:+ "" = a.
Proof.
  induction a as [ | x a IH]; [reflexivity | ].
  change (String x (a +:+ "") = String x a). rewrite IH. reflexivity.
Qed.

Lemma length_append (a b : string) :
  String.length (a +:+ b) = String.length a + String.length b.
Proof.
  induction a as [ | x a IH]; [reflexivity | ].
  change (S (String.length (a +:+ b)) = S (String.length a + String.length b)).
  rewrite IH. reflexivity.
Qed.

Lemma solid_append (a b : string) : Text.solid (a +:+ b) = Text.solid a && Text.solid b.
Proof.
  induction a as [ | x a IH]; [reflexivity | ].
  change (negb (Text.is_whitespace x) && Text.solid (a +:+ b)
          = negb (Text.is_whitespace x) && Text.solid a && Text.solid b).
  rewrite IH. apply andb_assoc.
Qed.

Lemma lstrip_solid (s : string) : Text.solid s = true -> Text.lstrip s = s.
Proof.
  destruct s as [ | c s]; [reflexivity | ]. simpl.
  destruct (Text.is_whitespace c); [discriminate | reflexivity].
Qed.

Lemma rstrip_solid (s : string) : Text.solid s = true -> Text.rstrip s = s.
Proof.
  induction s as [ | c s IH]; [reflexivity | ]. simpl.
  destruct (Text.is_whitespace c); [discriminate | ]. simpl.
  intros H. rewrite (IH H). destruct s; reflexivity.
Qed.

(** [strip] leaves text without whitespace alone. *)
Lemma strip_solid (s : string) : Text.solid s = true -> Text.strip s = s.
Proof.
  intros H. unfold Text.strip. rewrite (lstrip_solid s H). apply rstrip_solid, H.
Qed.

Lemma solid_digit (x : N) : Text.is_whitespace (pretty_N_char x) = false.
Proof. unfold pretty_N_char. repeat case_match; reflexivity. Qed.

Lemma solid_pretty_go (x : N) :
  forall s, Text.solid s = true -> Text.solid (pretty_N_go x s) = true.
Proof.
  induction (N.lt_wf_0 x) as [x _ IH]. intros s Hs.
  destruct (decide (0 < x)%N) as [Hpos | Hzero].
  - rewrite pretty_N_go_step by exact Hpos. apply IH.
    + apply N.div_lt; [exact Hpos | reflexivity].
    + simpl. rewrite solid_digit. exact Hs.
  - assert (x = 0%N) as -> by lia. exact Hs.
Qed.

Lemma solid_dec (n : N) : Text.solid (Text.dec n) = true.
Proof.
  unfold Text.dec, pretty, pretty_N.
  destruct (decide (n = 0%N)); [reflexivity | ]. apply solid_pretty_go. reflexivity.
Qed.

Lemma solid_zeros (n : nat) : Text.solid (Text.zeros n) = true.
Proof. induction n as [ | n IH]; [reflexivity | exact IH]. Qed.

Lemma solid_zpad (w : nat) (n : N) : Text.solid (Text.zpad w n) = true.
Proof.
  unfold Text.zpad. rewrite solid_append, solid_zeros, solid_dec. reflexivity.
Qed.

End TextFacts.

(* ===================================================================== *)
(** ** The budget evaluator                                               *)
(* ===================================================================== *)

Lemma nan_to_zero_numeric (x : float) : is_nan x = false -> Frame.nan_to_zero x = x.
Proof. unfold Frame.nan_to_zero. intros ->. reflexivity. Qed.

(** The column sum over the selected expense rows is the entry-by-entry
    sum of the specification, from any starting value. *)
Lemma sum_select_expenses (df : DataFrame) :
  numeric df ->
  forall acc,
    fold_left (fun a r => (a + Frame.nan_to_zero (Total r))%float)
              (Frame.select (Frame.cat_ne "Budget") df) acc
    = expenses_sum_from acc df.
Proof.
  unfold numeric, Frame.select, Frame.cat_ne.
  induction 1 as [ | r rest Hr _ IH]; intros acc; simpl; [reflexivity | ].
  destruct (String.eqb (Categories r) "Budget"); simpl.
  - apply IH.
  - rewrite (nan_to_zero_numeric _ Hr). apply IH.
Qed.

(** From eight rows on the column sum is no longer the sum in row order:
    of 2^53 followed by seven times 1 the row order loses every 1, the
    pairwise order of numpy only one of them. *)
Lemma sum_total_of_eight_rows :
  let totals := [9007199254740992; 1; 1; 1; 1; 1; 1; 1]%float in
  Frame.sum_total (List.map (row "Food") totals) = 9007199254740998%float
  /\ Frame.add_in_order 0 totals = 9007199254740992%float.
Proof. split; vm_compute; reflexivity. Qed.

(** With a Budget row the evaluator returns, and what it returns. *)
Lemma compute_budget_status_ok (df : DataFrame) (b : float) :
  Frame.budget_value df = Ok b ->
  let t := Frame.sum_total (Frame.select (Frame.cat_ne "Budget") df) in
  compute_budget_status df
  = Ok (b, t, (b - t)%float, if (0 <? b)%float then (t / b * 100)%float else 0%float).
Proof.
  intros Hb t. unfold compute_budget_status. rewrite Hb. simpl.
  destruct (0 <? b)%float eqn:Hpos; [ | reflexivity].
  unfold truediv. rewrite (FloatFacts.ltb_0_not_zero b Hpos). reflexivity.
Qed.

(** C4. For every ledger with a Budget row, numbers for totals and fewer
    than eight expense rows (a ledger of the program has six; numpy adds a
    longer column up in another order) the evaluator returns the budget,
    totalExpenses equal to the sum of the totals of the entries whose
    category is not "Budget", and remaining equal to
    budget - totalExpenses exactly; the ledger
    [{Food:200, Travel:100, Budget:1000}] evaluates to (1000, 300, 700, 30.0). *)
Theorem C4_evaluator_totals (ledger : DataFrame) (budget : float) :
  Frame.budget_value ledger = Ok budget ->
  numeric ledger ->
  length (Frame.select (Frame.cat_ne "Budget") ledger) < 8 ->
  (exists percent_used,
      compute_budget_status ledger
      = Ok (budget, expenses_sum ledger, (budget - expenses_sum ledger)%float, percent_used))
  /\ compute_budget_status ledger_within = Ok (1000, 300, 700, 30)%float.
Proof.
  intros Hb Hnum Hrows. split; [ | reflexivity].
  eexists. rewrite (compute_budget_status_ok ledger budget Hb).
  unfold Frame.sum_total.
  rewrite (proj2 (Nat.ltb_lt _ _) Hrows), (sum_select_expenses ledger Hnum).
  reflexivity.
Qed.

Lemma C4_evaluator_totals_witness :
  Frame.budget_value ledger_exceeded = Ok 1000%float
  /\ length (Frame.select (Frame.cat_ne "Budget") ledger_exceeded) < 8
  /\ (exists percent_used,
         compute_budget_status ledger_exceeded
         = Ok (1000, expenses_sum ledger_exceeded,
               1000 - expenses_sum ledger_exceeded, percent_used)%float).
Proof.
  split; [reflexivity | ].
  split; [vm_compute; lia | ].
  apply (C4_evaluator_totals ledger_exceeded 1000%float);
    [reflexivity | repeat constructor | vm_compute; lia].
Defined.

(** C5. When the budget is 0 or negative (whenever it is not above 0) the
    evaluator returns percentUsed = 0.0 whatever the expenses; when the
    budget is above 0 it returns totalExpenses / budget * 100, and the
    divisor is then not zero: the evaluation returns and does not raise
    [ZeroDivisionError]. *)
Theorem C5_percent_used_guarded (ledger : DataFrame) (budget : float) :
  Frame.budget_value ledger = Ok budget ->
  let total := Frame.sum_total (Frame.select (Frame.cat_ne "Budget") ledger) in
  exists percent_used,
    compute_budget_status ledger
    = Ok (budget, total, (budget - total)%float, percent_used)
    /\ ((budget <=? 0)%float = true -> percent_used = 0%float)
    /\ ((0 <? budget)%float = false -> percent_used = 0%float)
    /\ ((0 <? budget)%float = true ->
        percent_used = (total / budget * 100)%float
        /\ truediv total budget = Ok (total / budget)%float).
Proof.
  intros Hb total. eexists. split; [apply (compute_budget_status_ok ledger budget Hb) | ].
  fold total. repeat split.
  - intros Hle. rewrite (FloatFacts.leb_0_not_pos budget Hle). reflexivity.
  - intros ->. reflexivity.
  - rewrite H. reflexivity.
  - unfold truediv. rewrite (FloatFacts.ltb_0_not_zero budget H). reflexivity.
Qed.

Lemma C5_percent_used_guarded_witness :
  Frame.budget_value fresh_ledger = Ok 0%float
  /\ exists percent_used,
       compute_budget_status fresh_ledger = Ok (0, 0, 0 - 0, percent_used)%float
       /\ percent_used = 0%float.
Proof.
  split; [reflexivity | ].
  destruct (C5_percent_used_guarded fresh_ledger 0%float eq_refl)
    as (p & Hrun & Hzero & _).
  exists p. split; [exact Hrun | apply Hzero; reflexivity].
Defined.

(* ===================================================================== *)
(** ** Status tiers                                                       *)
(* ===================================================================== *)

(** The two-test cascade of the code picks the tier of the specification. *)
Lemma status_line_tier (p : float) : status_line p = tier_status_line (tier_of p).
Proof.
  unfold status_line, tier_of.
  destruct (100 <=? p)%float eqn:H100; [reflexivity | ].
  destruct (80 <=? p)%float eqn:H80; [ | reflexivity].
  rewrite (FloatFacts.below_upper 80 100 p H80 H100); [reflexivity | ].
  discriminate.
Qed.

Lemma summary_message_tier (p : float) :
  (if (100 <=? p)%float then st_error "🚨 Budget exceeded!"
   else if (80 <=? p)%float then st_warning "⚠️ Budget usage >= 80%"
   else st_success "😊 You're within your budget")
  = tier_message (tier_of p).
Proof.
  unfold tier_of.
  destruct (100 <=? p)%float eqn:H100; [reflexivity | ].
  destruct (80 <=? p)%float eqn:H80; [ | reflexivity].
  rewrite (FloatFacts.below_upper 80 100 p H80 H100); [reflexivity | ].
  discriminate.
Qed.

(** What the summary puts on the page. *)
Lemma show_budget_summary_run (df : DataFrame) (b t r p : float) (w : World) :
  compute_budget_status df = Ok (b, t, r, p) ->
  show_budget_summary df w
  = (Ok tt,
     Fs.set_screen
       (fun s => s ++ [st_write ("💵 Budget: ₹" +:+ PyFloat.format_2f b);
                       st_write ("💸 Spent: ₹" +:+ PyFloat.format_2f t);
                       st_write ("✅ Remaining: ₹" +:+ PyFloat.format_2f r);
                       st_write ("📊 Used: " +:+ PyFloat.format_2f p +:+ "%");
                       if (b <=? 0)%float then no_budget_message
                       else tier_message (tier_of p)])%list
       w).
Proof.
  intros H. unfold show_budget_summary, bind, lift. rewrite H.
  rewrite <- summary_message_tier.
  unfold Fs.emit, modify, Fs.set_screen; simpl.
  destruct (b <=? 0)%float; [ | destruct (100 <=? p)%float; [ | destruct (80 <=? p)%float]];
    simpl; rewrite <- !app_assoc; reflexivity.
Qed.

(** What finalization appends. *)
Lemma finalize_month_report_run (name : string) (df : DataFrame) (dt : datetime)
    (b t r p : float) (w : World) :
  compute_budget_status df = Ok (b, t, r, p) ->
  finalize_month_report name df dt w
  = (Ok tt,
     Fs.set_monthly_reports
       (fun fs => <[report_file_path name dt :=
                      default "" (fs !! report_file_path name dt)
                      +:+ month_end_summary t r p dt]> fs) w).
Proof.
  intros H. unfold finalize_month_report, bind, lift. rewrite H. reflexivity.
Qed.

(** C6, as amended. For every percentUsed value the status written in the
    finalization block is "Exceeded" when percentUsed >= 100, "Near limit"
    when 80 <= percentUsed < 100 and "Within budget" otherwise, exactly 100
    being Exceeded and exactly 80 Near limit; the summary on screen shows
    the same tier when the budget is above 0, and shows "No budget set"
    instead of a tier when the budget is 0 or less. *)
Theorem C6_status_tiers (name : string) (dt : datetime) (w : World)
    (ledger : DataFrame) (budget total remaining percent_used : float) :
  compute_budget_status ledger = Ok (budget, total, remaining, percent_used) ->
  monthly_reports (exec (finalize_month_report name ledger dt) w)
    !! report_file_path name dt
  = Some (default "" (monthly_reports w !! report_file_path name dt)
          +:+ "
---- Month End Summary ----
" +:+ "Total Expenses: ₹" +:+ PyFloat.format_2f total +:+ "
" +:+ "Remaining: ₹" +:+ PyFloat.format_2f remaining +:+ "
" +:+ "Percent Used: " +:+ PyFloat.format_2f percent_used +:+ "%
" +:+ tier_status_line (tier_of percent_used)
          +:+ "Closed on: " +:+ Date.strftime "%d-%m-%Y" dt +:+ "
")
  /\ last (screen (exec (show_budget_summary ledger) w))
     = Some (if (budget <=? 0)%float then no_budget_message
             else tier_message (tier_of percent_used))
  /\ tier_of 100 = Exceeded
  /\ tier_of 80 = Near_limit.
Proof.
  intros H. repeat split.
  - unfold exec. rewrite (finalize_month_report_run name ledger dt _ _ _ _ w H).
    simpl. rewrite lookup_insert_eq. unfold month_end_summary.
    rewrite status_line_tier. reflexivity.
  - unfold exec. rewrite (show_budget_summary_run ledger _ _ _ _ w H).
    simpl.
    match goal with
    | |- last (?s ++ [?m1; ?m2; ?m3; ?m4; ?m5])%list = _ =>
        change (s ++ [m1; m2; m3; m4; m5])%list
          with (s ++ ([m1; m2; m3; m4] ++ [m5]))%list
    end.
    rewrite app_assoc. apply last_snoc.
Qed.

Lemma C6_status_tiers_witness :
  last (screen (exec (show_budget_summary ledger_exceeded) empty_world))
  = Some (tier_message Exceeded).
Proof.
  exact (proj1 (proj2 (C6_status_tiers "asha"
                         {| Date.year := 2025; Date.month := 11; Date.day := 30;
                            Date.hour := 18; Date.minute := 45 |}
                         empty_world ledger_exceeded
                         1000 1150 (-150) (1150 / 1000 * 100) eq_refl))).
Defined.

(** C6, as stated, fails where no budget is set: percentUsed is 0.0, whose
    tier is Within budget, and the summary shows no tier. *)
Lemma C6_counterexample_no_budget :
  compute_budget_status fresh_ledger = Ok (0, 0, 0, 0)%float
  /\ tier_of 0 = Within_budget
  /\ last (screen (exec (show_budget_summary fresh_ledger) empty_world))
     = Some no_budget_message
  /\ ~ In (tier_message Within_budget)
         (screen (exec (show_budget_summary fresh_ledger) empty_world)).
Proof.
  repeat split; try reflexivity.
  vm_compute. intros H. repeat (destruct H as [H | H]; [discriminate H | ]). exact H.
Qed.

(* ===================================================================== *)
(** ** Loading the ledger                                                 *)
(* ===================================================================== *)

Lemma fillna_normalized (t : cell) : fillna 0%float (to_numeric_coerce t) = normalized t.
Proof. destruct t; reflexivity. Qed.

(** Loading reads and leaves the world as it is; it raises on a file that
    [read_csv] refuses, and only then. *)
Lemma load_user_data_run (name : string) (w : World) :
  load_user_data name w
  = (match user_data w !! user_csv_path name with
     | Some Empty_file => Raise EmptyDataError
     | _ => Ok (ledger_of w name)
     end, w).
Proof.
  unfold ledger_of, outcome, load_user_data, bind, get, ret.
  destruct (user_data w !! user_csv_path name) as [[table | ] | ]; reflexivity.
Qed.

Lemma load_user_data_readable (name : string) (w : World) :
  readable name w -> load_user_data name w = (Ok (ledger_of w name), w).
Proof.
  intros H. rewrite load_user_data_run. unfold readable in H.
  destruct (user_data w !! user_csv_path name) as [[table | ] | ];
    [reflexivity | destruct (H eq_refl) | reflexivity].
Qed.

Lemma ledger_of_stored (name : string) (w : World) (table : list (string * cell)) :
  user_data w !! user_csv_path name = Some (Csv table) ->
  ledger_of w name = List.map (fun e => row (fst e) (normalized (snd e))) table.
Proof.
  intros H. unfold ledger_of, outcome, load_user_data, bind, get, ret. rewrite H. simpl.
  apply map_ext. intros [c t]. simpl. rewrite fillna_normalized. reflexivity.
Qed.

Lemma ledger_of_empty_file (name : string) (w : World) :
  user_data w !! user_csv_path name = Some Empty_file -> ledger_of w name = [].
Proof.
  intros H. unfold ledger_of, outcome, load_user_data, bind, get, ret. rewrite H.
  reflexivity.
Qed.

(** A ledger with a Budget row comes from a file that can be read. *)
Lemma budget_readable (name : string) (w : World) (b : float) :
  Frame.budget_value (ledger_of w name) = Ok b -> readable name w.
Proof.
  intros Hb E. rewrite (ledger_of_empty_file name w E) in Hb. discriminate Hb.
Qed.

Lemma load_user_data_budget (name : string) (w : World) (b : float) :
  Frame.budget_value (ledger_of w name) = Ok b ->
  load_user_data name w = (Ok (ledger_of w name), w).
Proof. intros Hb. apply load_user_data_readable, (budget_readable name w b Hb). Qed.

Lemma ledger_of_missing (name : string) (w : World) :
  user_data w !! user_csv_path name = None -> ledger_of w name = fresh_ledger.
Proof.
  intros H. unfold ledger_of, outcome, load_user_data, bind, get, ret. rewrite H.
  reflexivity.
Qed.

Lemma normalized_numeric (t : cell) : is_nan (normalized t) = false.
Proof.
  destruct t as [x | s | ]; simpl; try reflexivity.
  destruct (is_nan x) eqn:E; [reflexivity | exact E].
Qed.

(** A loaded ledger holds numbers only. *)
Lemma ledger_of_numeric (name : string) (w : World) : numeric (ledger_of w name).
Proof.
  unfold numeric.
  destruct (user_data w !! user_csv_path name) as [[table | ] | ] eqn:E.
  - rewrite (ledger_of_stored name w table E). apply List.Forall_forall.
    intros r Hr. apply in_map_iff in Hr as (e & <- & _). apply normalized_numeric.
  - rewrite (ledger_of_empty_file name w E). constructor.
  - rewrite (ledger_of_missing name w E). repeat constructor.
Qed.

(** C8, as amended.  Loading never fails on what the Total column holds:
    without a ledger file it returns the fresh ledger with exactly the
    categories Food, Travel, Loans, Entertainment, Shopping, Others and
    Budget, each at 0.0; with a file that holds a table of Categories and
    Total, it returns the file's rows with every Total that is not a
    number, or is missing, replaced by 0.0 and every number kept, so that
    no total of a loaded ledger is NaN; and it never writes.  It does fail
    on a file that [read_csv] itself refuses: on a file without a byte in
    it the load raises [EmptyDataError]. *)
Theorem C8_load_normalizes (w : World) (name : string) :
  readable name w ->
  load_user_data name w
  = (Ok (match user_data w !! user_csv_path name with
         | Some (Csv table) => List.map (fun e => row (fst e) (normalized (snd e))) table
         | _ =>
             [row "Food" 0; row "Travel" 0; row "Loans" 0; row "Entertainment" 0;
              row "Shopping" 0; row "Others" 0; row "Budget" 0]
         end),
     w)
  /\ (forall s, normalized (NotNumber s) = 0%float)
  /\ normalized Missing = 0%float
  /\ (forall x, is_nan x = false -> normalized (Number x) = x)
  /\ numeric (ledger_of w name)
  /\ (forall w' name',
        user_data w' !! user_csv_path name' = Some Empty_file ->
        load_user_data name' w' = (Raise EmptyDataError, w')).
Proof.
  intros Hr. repeat split.
  - rewrite (load_user_data_readable name w Hr). unfold readable in Hr.
    destruct (user_data w !! user_csv_path name) as [[table | ] | ] eqn:E.
    + rewrite (ledger_of_stored name w table E). reflexivity.
    + destruct (Hr eq_refl).
    + rewrite (ledger_of_missing name w E). reflexivity.
  - intros x Hx. simpl. rewrite Hx. reflexivity.
  - apply ledger_of_numeric.
  - intros w' name' Hfile. rewrite load_user_data_run, Hfile. reflexivity.
Qed.

Lemma C8_load_normalizes_witness :
  load_user_data "asha" world_with_damaged_totals
  = (Ok [row "Food" 12.5; row "Travel" 0; row "Loans" 0; row "Budget" 1000],
     world_with_damaged_totals).
Proof.
  assert (Hr : readable "asha" world_with_damaged_totals) by (vm_compute; discriminate).
  rewrite (proj1 (C8_load_normalizes world_with_damaged_totals "asha" Hr)).
  reflexivity.
Defined.

(** C8, as stated, fails on a ledger file without a byte in it: the load
    raises what [read_csv] raises. *)
Lemma C8_counterexample_empty_file :
  load_user_data "asha" world_with_empty_file
  = (Raise EmptyDataError, world_with_empty_file).
Proof. reflexivity. Qed.

(* ===================================================================== *)
(** ** The report writer                                                  *)
(* ===================================================================== *)

(** What [ensure_monthly_report_exists] does, case by case. *)
Lemma ensure_monthly_report_exists_run (name : string) (dt : datetime) (w : World) :
  ensure_monthly_report_exists name dt w
  = match monthly_reports w !! report_file_path name dt with
    | Some _ => (Ok (report_file_path name dt), w)
    | None =>
        match Frame.budget_value (ledger_of w name) with
        | Ok b =>
            if (0 <? b)%float
            then (Ok (report_file_path name dt),
                  Fs.set_monthly_reports
                    (insert (report_file_path name dt)
                       (report_title name dt +:+ report_budget_line b +:+ report_columns))
                    w)
            else (Ok (report_file_path name dt), w)
        | Raise e => (Raise (load_error name w e), w)
        end
    end.
Proof.
  unfold ensure_monthly_report_exists, Fs.report_exists, bind at 1 2 3, get, ret.
  destruct (monthly_reports w !! report_file_path name dt); simpl; [reflexivity | ].
  unfold bind at 1. rewrite load_user_data_run. unfold load_error.
  destruct (user_data w !! user_csv_path name) as [[table | ] | ] eqn:E.
  - unfold bind, lift.
    destruct (Frame.budget_value (ledger_of w name)) as [b | e]; [ | reflexivity].
    destruct (0 <? b)%float; reflexivity.
  - rewrite (ledger_of_empty_file name w E). reflexivity.
  - unfold bind, lift.
    destruct (Frame.budget_value (ledger_of w name)) as [b | e]; [ | reflexivity].
    destruct (0 <? b)%float; reflexivity.
Qed.

Lemma append_expense_to_report_run (name category : string) (amount : float)
    (dt : datetime) (w : World) :
  append_expense_to_report name category amount dt w
  = match ensure_monthly_report_exists name dt w with
    | (Ok _, w') =>
        (Ok tt,
         Fs.set_monthly_reports
           (fun fs => <[report_file_path name dt :=
                          default "" (fs !! report_file_path name dt)
                          +:+ expense_line category amount dt]> fs) w')
    | (Raise e, w') => (Raise e, w')
    end.
Proof.
  unfold append_expense_to_report, bind.
  destruct (ensure_monthly_report_exists name dt w) as [[rpt | e] w']; reflexivity.
Qed.

(** C7. [ensure_monthly_report_exists] creates the month's report, holding
    a title line, a budget line and the column-header line, if and only if
    the file is not there and the user's budget is above 0; with a budget
    of 0 (or any budget not above 0) no file is created; and when the file
    is already there nothing changes, so that calling it again never
    changes anything. *)
Theorem C7_ensure_exists (w : World) (name : string) (dt : datetime) :
  let rpt := report_file_path name dt in
  let ensure := ensure_monthly_report_exists name dt in
  (forall content, monthly_reports w !! rpt = Some content -> ensure w = (Ok rpt, w))
  /\ (forall budget,
        monthly_reports w !! rpt = None ->
        Frame.budget_value (ledger_of w name) = Ok budget ->
        (0 <? budget)%float = true ->
        ensure w
        = (Ok rpt,
           Fs.set_monthly_reports
             (insert rpt ("Expense Report for " +:+ name +:+ " - "
                            +:+ Date.strftime "%B %Y" dt +:+ "
" +:+ "Budget: ₹" +:+ PyFloat.format_2f budget +:+ "
" +:+ "Timestamp | Category | Amount
")) w))
  /\ (forall budget,
        monthly_reports w !! rpt = None ->
        Frame.budget_value (ledger_of w name) = Ok budget ->
        (0 <? budget)%float = false ->
        ensure w = (Ok rpt, w))
  /\ (monthly_reports w !! rpt = None ->
      Frame.budget_value (ledger_of w name) = Ok 0%float ->
      monthly_reports (exec ensure w) !! rpt = None)
  /\ (is_Some (monthly_reports (exec ensure w) !! rpt)
      <-> is_Some (monthly_reports w !! rpt)
          \/ exists budget, Frame.budget_value (ledger_of w name) = Ok budget
                            /\ (0 <? budget)%float = true)
  /\ exec ensure (exec ensure w) = exec ensure w.
Proof.
  intros rpt ensure. subst rpt ensure.
  assert (Hrun := ensure_monthly_report_exists_run name dt w).
  repeat split.
  - intros content H. rewrite Hrun, H. reflexivity.
  - intros b H Hb Hpos. rewrite Hrun, H, Hb, Hpos.
    unfold report_title, report_budget_line, report_columns.
    rewrite !TextFacts.append_assoc. reflexivity.
  - intros b H Hb Hpos. rewrite Hrun, H, Hb, Hpos. reflexivity.
  - intros H Hb. unfold exec. rewrite Hrun, H, Hb. simpl. exact H.
  - unfold exec. rewrite Hrun.
    destruct (monthly_reports w !! report_file_path name dt) as [c | ] eqn:E;
      [intros _; left; eauto | ].
    destruct (Frame.budget_value (ledger_of w name)) as [b | e];
      [destruct (0 <? b)%float eqn:Hpos | ]; simpl.
    + intros _. right. eauto.
    + rewrite E. intros [x Hx]. discriminate Hx.
    + rewrite E. intros [x Hx]. discriminate Hx.
  - unfold exec. rewrite Hrun.
    destruct (monthly_reports w !! report_file_path name dt) as [c | ] eqn:E;
      [simpl; rewrite E; eauto | ].
    intros [[x Hx] | (b & Hb & Hpos)]; [discriminate Hx | ].
    rewrite Hb, Hpos. simpl. rewrite lookup_insert_eq. eauto.
  - unfold exec. rewrite Hrun.
    destruct (monthly_reports w !! report_file_path name dt) as [c | ] eqn:E;
      [simpl; rewrite Hrun; reflexivity | ].
    destruct (Frame.budget_value (ledger_of w name)) as [b | e] eqn:Hb;
      [destruct (0 <? b)%float eqn:Hpos | ]; simpl.
    + rewrite ensure_monthly_report_exists_run. simpl.
      rewrite lookup_insert_eq. reflexivity.
    + rewrite Hrun. reflexivity.
    + rewrite Hrun. reflexivity.
Qed.

Lemma C7_ensure_exists_witness :
  ensure_monthly_report_exists "asha" nov_30 (world_with_ledger ledger_within)
  = (Ok "monthly_reports/asha_November_2025.txt",
     Fs.set_monthly_reports
       (insert "monthly_reports/asha_November_2025.txt"
          "Expense Report for asha - November 2025
Budget: ₹1000.00
Timestamp | Category | Amount
") (world_with_ledger ledger_within)).
Proof.
  exact (proj1 (proj2 (C7_ensure_exists (world_with_ledger ledger_within) "asha" nov_30))
           1000%float eq_refl eq_refl eq_refl).
Defined.

(** C10. For a user whose budget is 0 (or otherwise not above 0) and who
    has no report for the month yet, [append_expense_to_report] still
    creates the report: the file then holds the one expense line and no
    header. *)
Theorem C10_append_without_budget (w : World) (name category : string)
    (amount budget : float) (dt : datetime) :
  monthly_reports w !! report_file_path name dt = None ->
  Frame.budget_value (ledger_of w name) = Ok budget ->
  (0 <? budget)%float = false ->
  append_expense_to_report name category amount dt w
  = (Ok tt,
     Fs.set_monthly_reports
       (insert (report_file_path name dt)
          (Date.strftime "%d-%m-%Y %H:%M" dt +:+ " | " +:+ category +:+ " | ₹"
             +:+ PyFloat.repr amount +:+ "
")) w).
Proof.
  intros H Hb Hpos.
  rewrite append_expense_to_report_run, ensure_monthly_report_exists_run.
  rewrite H, Hb, Hpos. unfold Fs.set_monthly_reports. simpl. rewrite H. reflexivity.
Qed.

Lemma C10_append_without_budget_witness :
  monthly_reports
    (exec (append_expense_to_report "asha" "Food" 850 nov_30) empty_world)
    !! "monthly_reports/asha_November_2025.txt"
  = Some "30-11-2025 18:45 | Food | ₹850.0
".
Proof.
  unfold exec.
  rewrite (C10_append_without_budget empty_world "asha" "Food" 850 0 nov_30
             eq_refl eq_refl eq_refl).
  reflexivity.
Defined.

(* ===================================================================== *)
(** ** Ledger updates                                                     *)
(* ===================================================================== *)

Lemma row_eta (r : Row) : {| Categories := Categories r; Total := Total r |} = r.
Proof. destruct r; reflexivity. Qed.

Lemma loc_set_categories (mask : Row -> bool) (v : float) (df : DataFrame) :
  List.map Categories (Frame.loc_set mask v df) = List.map Categories df.
Proof.
  unfold Frame.loc_set. rewrite List.map_map. apply map_ext.
  intros r. destruct (mask r); reflexivity.
Qed.

Lemma loc_add_categories (mask : Row -> bool) (v : float) (df : DataFrame) :
  List.map Categories (Frame.loc_add mask v df) = List.map Categories df.
Proof.
  unfold Frame.loc_add. rewrite List.map_map. apply map_ext.
  intros r. destruct (mask r); reflexivity.
Qed.

(** The number of Budget rows is read off the [Categories] column. *)
Lemma budget_rows_categories (df : DataFrame) :
  budget_rows df
  = length (List.filter (fun c => String.eqb c "Budget") (List.map Categories df)).
Proof.
  unfold budget_rows, Frame.cat_eq.
  induction df as [ | r df IH]; [reflexivity | ]. simpl.
  destruct (String.eqb (Categories r) "Budget"); simpl; rewrite IH; reflexivity.
Qed.

Lemma budget_rows_stored_to_csv (df : DataFrame) :
  budget_rows_stored (csv_rows df) = budget_rows df.
Proof.
  unfold budget_rows_stored, budget_rows, csv_rows, Frame.cat_eq.
  induction df as [ | r df IH]; [reflexivity | ]. simpl.
  destruct (String.eqb (Categories r) "Budget"); simpl; rewrite IH; reflexivity.
Qed.

(** Resetting the expenses leaves the Budget rows as they are. *)
Lemma reset_keeps_budget_rows (df : DataFrame) :
  List.filter (Frame.cat_eq "Budget") (Frame.loc_set (Frame.cat_ne "Budget") 0%float df)
  = List.filter (Frame.cat_eq "Budget") df.
Proof.
  unfold Frame.loc_set, Frame.cat_eq, Frame.cat_ne.
  induction df as [ | r df IH]; [reflexivity | ]. simpl.
  destruct (String.eqb (Categories r) "Budget") eqn:E; simpl; rewrite E, IH; reflexivity.
Qed.

Lemma reset_keeps_budget_value (df : DataFrame) :
  Frame.budget_value (Frame.loc_set (Frame.cat_ne "Budget") 0%float df)
  = Frame.budget_value df.
Proof.
  unfold Frame.budget_value, Frame.loc_values. rewrite reset_keeps_budget_rows.
  reflexivity.
Qed.

(** After the reset every row that is not a Budget row holds 0.0. *)
Lemma reset_zeroes_expenses (df : DataFrame) (r : Row) :
  In r (Frame.loc_set (Frame.cat_ne "Budget") 0%float df) ->
  Categories r <> "Budget" -> Total r = 0%float.
Proof.
  unfold Frame.loc_set, Frame.cat_ne. intros Hin Hne.
  apply in_map_iff in Hin as (r0 & Hr & _).
  destruct (String.eqb (Categories r0) "Budget") eqn:E; simpl in Hr; subst r.
  - apply String.eqb_eq in E. contradiction.
  - reflexivity.
Qed.

Lemma numeric_loc_set (mask : Row -> bool) (v : float) (df : DataFrame) :
  is_nan v = false -> numeric df -> numeric (Frame.loc_set mask v df).
Proof.
  unfold numeric, Frame.loc_set. intros Hv H.
  induction H as [ | r df Hr _ IH]; simpl; constructor; try exact IH.
  destruct (mask r); [exact Hv | exact Hr].
Qed.

(** A ledger of numbers reads back from its file as it was saved. *)
Lemma to_csv_reads_back (df : DataFrame) :
  numeric df ->
  List.map (fun e => row (fst e) (normalized (snd e))) (csv_rows df) = df.
Proof.
  unfold numeric, csv_rows. induction 1 as [ | r df Hr _ IH]; [reflexivity | ].
  simpl. rewrite Hr, IH. simpl. rewrite Hr. unfold row. rewrite row_eta. reflexivity.
Qed.

(* ===================================================================== *)
(** ** Month keys and the day before the first                            *)
(* ===================================================================== *)

Lemma month_key_solid (dt : datetime) : Text.solid (month_key dt) = true.
Proof.
  unfold month_key. simpl.
  rewrite TextFacts.solid_append, TextFacts.solid_zpad. simpl.
  rewrite TextFacts.solid_append, TextFacts.solid_zpad. reflexivity.
Qed.

(** The marker the rollover writes reads back as the month key. *)
Lemma strip_month_key (dt : datetime) : Text.strip (month_key dt) = month_key dt.
Proof. apply TextFacts.strip_solid, month_key_solid. Qed.

(** The first of the month minus one day is the last day of the month
    before. *)
Lemma day_before_first (dt prev : datetime) :
  Date.minus_one_day (Date.replace_day dt 1) = Ok prev ->
  Date.day prev = Date.days_in_month (Date.year prev) (Date.month prev)
  /\ Date.hour prev = Date.hour dt /\ Date.minute prev = Date.minute dt
  /\ ((Date.month dt <= 1 /\ Date.month prev = 12 /\ Date.year prev = Date.year dt - 1)
      \/ (1 < Date.month dt /\ Date.month prev = Date.month dt - 1
          /\ Date.year prev = Date.year dt)).
Proof.
  unfold Date.minus_one_day. simpl.
  destruct (1 <? Date.month dt)%nat eqn:Hm.
  - intros [= <-]. simpl. apply Nat.ltb_lt in Hm. auto 10.
  - destruct (1 <? Date.year dt)%nat; [ | discriminate].
    intros [= <-]. simpl. apply Nat.ltb_ge in Hm. auto 10.
Qed.

Lemma day_before_first_exists (dt : datetime) :
  1 < Date.year dt -> exists prev, Date.minus_one_day (Date.replace_day dt 1) = Ok prev.
Proof.
  intros Hy. unfold Date.minus_one_day. simpl.
  destruct (1 <? Date.month dt)%nat; [eauto | ].
  apply Nat.ltb_lt in Hy. rewrite Hy. eauto.
Qed.

(* ===================================================================== *)
(** ** The month rollover                                                 *)
(* ===================================================================== *)

Lemma rollover_due_iff (marker : option string) (dt : datetime) :
  rollover_due marker (month_key dt) dt = true
  <-> marker <> Some (month_key dt) /\ Date.day dt = 1.
Proof.
  unfold rollover_due. rewrite andb_true_iff, negb_true_iff, Nat.eqb_eq.
  rewrite bool_decide_eq_false. reflexivity.
Qed.

Lemma month_rollover_not_due (name : string) (df : DataFrame) (dt : datetime)
    (marker : option string) (w : World) :
  rollover_due marker (month_key dt) dt = false ->
  month_rollover name df dt marker w = (Ok df, w).
Proof. intros H. unfold month_rollover. rewrite H. reflexivity. Qed.

(** The rollover, when it is due: the summary of the ledger as it stands
    goes to the report of the day before the first, the expenses are reset
    and saved, the marker is written. *)
Lemma month_rollover_due (name : string) (df : DataFrame) (dt prev : datetime)
    (marker : option string) (b t r p : float) (w : World) :
  rollover_due marker (month_key dt) dt = true ->
  Date.minus_one_day (Date.replace_day dt 1) = Ok prev ->
  compute_budget_status df = Ok (b, t, r, p) ->
  month_rollover name df dt marker w
  = (Ok (Frame.loc_set (Frame.cat_ne "Budget") 0%float df),
     Fs.set_screen (fun s => (s ++ [st_warning new_month_message])%list)
       (Fs.set_last_reset (insert (reset_file_path name) (month_key dt))
          (Fs.set_user_data
             (insert (user_csv_path name)
                (to_csv (Frame.loc_set (Frame.cat_ne "Budget") 0%float df)))
             (Fs.set_monthly_reports
                (fun fs => <[report_file_path name prev :=
                               default "" (fs !! report_file_path name prev)
                               +:+ month_end_summary t r p prev]> fs) w)))).
Proof.
  intros Hdue Hprev Hst. unfold month_rollover. rewrite Hdue.
  unfold bind at 1, lift. rewrite Hprev.
  unfold bind at 1. rewrite (finalize_month_report_run name df prev b t r p w Hst).
  reflexivity.
Qed.

(** With a Budget row, [ensure_monthly_report_exists] returns. *)
Lemma ensure_returns (name : string) (dt : datetime) (w : World) (b : float) :
  Frame.budget_value (ledger_of w name) = Ok b ->
  ensure_monthly_report_exists name dt w
  = (Ok (report_file_path name dt), exec (ensure_monthly_report_exists name dt) w).
Proof.
  intros Hb. unfold exec. rewrite ensure_monthly_report_exists_run, Hb.
  destruct (monthly_reports w !! report_file_path name dt); [reflexivity | ].
  destruct (0 <? b)%float; reflexivity.
Qed.

Lemma month_handling_run (name : string) (dt : datetime) (w : World) (b : float) :
  Frame.budget_value (ledger_of w name) = Ok b ->
  month_handling name dt w
  = match month_rollover name (ledger_of w name) dt (stored_month_key w name)
            (before_rollover name dt b w) with
    | (Ok df, w') => (Ok (df, b), w')
    | (Raise e, w') => (Raise e, w')
    end.
Proof.
  intros Hb. unfold month_handling, before_rollover.
  unfold bind at 1. rewrite (load_user_data_budget name w b Hb).
  unfold bind at 1, Fs.marker_read, bind at 1, get, ret.
  unfold bind at 1, lift. rewrite Hb.
  unfold stored_month_key.
  destruct (0 <? b)%float.
  - unfold bind at 1 2. rewrite (ensure_returns name dt w b Hb).
    unfold bind.
    destruct (month_rollover _ _ _ _ _) as [[df | e] w']; reflexivity.
  - unfold bind.
    destruct (month_rollover _ _ _ _ _) as [[df | e] w']; reflexivity.
Qed.

(** What [ensure_monthly_report_exists] leaves alone. *)
Lemma ensure_frame (name : string) (dt : datetime) (w : World) :
  let w' := exec (ensure_monthly_report_exists name dt) w in
  user_data w' = user_data w /\ last_reset w' = last_reset w
  /\ users w' = users w /\ screen w' = screen w.
Proof.
  unfold exec. rewrite ensure_monthly_report_exists_run.
  destruct (monthly_reports w !! report_file_path name dt); [simpl; auto | ].
  destruct (Frame.budget_value (ledger_of w name)) as [b | e]; [ | simpl; auto].
  destruct (0 <? b)%float; simpl; auto.
Qed.

Lemma before_rollover_frame (name : string) (dt : datetime) (b : float) (w : World) :
  let w' := before_rollover name dt b w in
  user_data w' = user_data w /\ last_reset w' = last_reset w
  /\ users w' = users w /\ screen w' = screen w.
Proof.
  unfold before_rollover. destruct (0 <? b)%float; [apply ensure_frame | simpl; auto].
Qed.

(** The ledger found for a user depends on the ledger files only. *)
Lemma ledger_of_same_files (w1 w2 : World) (name : string) :
  user_data w1 = user_data w2 -> ledger_of w1 name = ledger_of w2 name.
Proof.
  intros H. unfold ledger_of, outcome, load_user_data, bind, get, ret. rewrite H.
  destruct (user_data w2 !! user_csv_path name) as [[table | ] | ]; reflexivity.
Qed.

(** A saved ledger of numbers is the ledger found afterwards. *)
Lemma ledger_of_saved (w : World) (name : string) (df : DataFrame) :
  user_data w !! user_csv_path name = Some (to_csv df) ->
  numeric df -> ledger_of w name = df.
Proof.
  intros H Hnum. rewrite (ledger_of_stored name w _ H). apply to_csv_reads_back, Hnum.
Qed.

(** Once the budget is above 0 the report of the month is there after
    [ensure_monthly_report_exists]. *)
Lemma ensure_report_there (name : string) (dt : datetime) (w : World) (b : float) :
  Frame.budget_value (ledger_of w name) = Ok b -> (0 <? b)%float = true ->
  is_Some (monthly_reports (exec (ensure_monthly_report_exists name dt) w)
             !! report_file_path name dt).
Proof.
  intros Hb Hpos. unfold exec. rewrite ensure_monthly_report_exists_run, Hb, Hpos.
  destruct (monthly_reports w !! report_file_path name dt) eqn:E; simpl.
  - rewrite E. eauto.
  - rewrite lookup_insert_eq. eauto.
Qed.

(** When the report is there, [ensure_monthly_report_exists] changes nothing. *)
Lemma ensure_noop (name : string) (dt : datetime) (w : World) :
  is_Some (monthly_reports w !! report_file_path name dt) ->
  exec (ensure_monthly_report_exists name dt) w = w.
Proof.
  intros [c Hc]. unfold exec. rewrite ensure_monthly_report_exists_run, Hc. reflexivity.
Qed.

Lemma snoc_not_same {A : Type} (l : list A) (x : A) : l <> (l ++ [x])%list.
Proof.
  intros H. apply (f_equal (@length A)) in H. rewrite length_app in H. simpl in H. lia.
Qed.

(** The budget the evaluator returns is the one the lookup finds. *)
Lemma status_budget (df : DataFrame) (b t r p : float) :
  compute_budget_status df = Ok (b, t, r, p) -> Frame.budget_value df = Ok b.
Proof.
  unfold compute_budget_status.
  destruct (Frame.budget_value df) as [b' | e]; simpl; [ | discriminate].
  destruct (0 <? b')%float; simpl; [ | intros [= -> _ _ _]; reflexivity].
  destruct (truediv _ b'); simpl; [intros [= -> _ _ _]; reflexivity | discriminate].
Qed.

(** C2. When the rollover fires, the month finalized is that of the first
    day of the current month minus one day, the last day of the previous
    month, and the summary appended to that month's report is computed
    from the ledger as it was before the reset.  Rollover on 2025-12-01
    with marker 2025-11 and ledger [{Food:1050, Travel:100, Budget:1000}]
    appends to the November report the summary with total expenses
    1150.00, remaining -150.00, percent used 115.00 and status Exceeded,
    leaves the ledger [{Food:0, Travel:0, Budget:1000}] and sets the marker
    to 2025-12. *)
Theorem C2_finalize_previous_month (w : World) (name : string) (dt prev : datetime)
    (budget total remaining percent_used : float) :
  stored_month_key w name <> Some (month_key dt) ->
  Date.day dt = 1 ->
  Date.minus_one_day (Date.replace_day dt 1) = Ok prev ->
  compute_budget_status (ledger_of w name)
  = Ok (budget, total, remaining, percent_used) ->
  let before := before_rollover name dt budget w in
  let w' := exec (month_handling name dt) w in
  (Date.day prev = Date.days_in_month (Date.year prev) (Date.month prev)
   /\ ((Date.month dt <= 1 /\ Date.month prev = 12 /\ Date.year prev = Date.year dt - 1)
       \/ (1 < Date.month dt /\ Date.month prev = Date.month dt - 1
           /\ Date.year prev = Date.year dt)))
  /\ monthly_reports w'
     = <[report_file_path name prev :=
           default "" (monthly_reports before !! report_file_path name prev)
           +:+ month_end_summary total remaining percent_used prev]>
         (monthly_reports before)
  /\ ledger_of w' name = Frame.loc_set (Frame.cat_ne "Budget") 0%float (ledger_of w name)
  /\ (let after := exec (main (look_at_summary "asha" dec_1)) world_end_of_november in
      monthly_reports after !! "monthly_reports/asha_November_2025.txt"
      = Some "
---- Month End Summary ----
Total Expenses: ₹1150.00
Remaining: ₹-150.00
Percent Used: 115.00%
Status: Budget Exceeded
Closed on: 30-11-2025
"
      /\ user_data after !! "user_data/asha.csv"
         = Some (Csv [("Food", Number 0); ("Travel", Number 0); ("Budget", Number 1000)])
      /\ last_reset after !! "last_reset/asha.txt" = Some "2025-12"
      /\ compute_budget_status ledger_exceeded
         = Ok (1000, 1150, -150, 1150 / 1000 * 100)%float
      /\ tier_of (1150 / 1000 * 100) = Exceeded).
Proof.
  intros Hmarker Hday Hprev Hst before w'. subst before w'.
  assert (Hb := status_budget _ _ _ _ _ Hst).
  assert (Hdue := proj2 (rollover_due_iff _ _) (conj Hmarker Hday)).
  unfold exec. rewrite (month_handling_run name dt w budget Hb).
  rewrite (month_rollover_due name _ dt prev _ _ _ _ _ _ Hdue Hprev Hst).
  simpl. split; [ | split; [reflexivity | split]].
  - destruct (day_before_first dt prev Hprev) as (Hlast & _ & _ & Hmonth). auto.
  - apply ledger_of_saved.
    + simpl. apply lookup_insert_eq.
    + apply numeric_loc_set; [reflexivity | apply ledger_of_numeric].
  - vm_compute. repeat split; reflexivity.
Qed.

Lemma C2_finalize_previous_month_witness :
  monthly_reports (exec (month_handling "asha" dec_1) world_end_of_november)
    !! "monthly_reports/asha_November_2025.txt"
  = Some (month_end_summary 1150 (-150) (1150 / 1000 * 100) nov_30_morning).
Proof.
  destruct (C2_finalize_previous_month world_end_of_november "asha" dec_1
              nov_30_morning 1000 1150 (-150) (1150 / 1000 * 100))
    as (_ & Hreports & _).
  - intros E. vm_compute in E. discriminate E.
  - reflexivity.
  - reflexivity.
  - reflexivity.
  - rewrite Hreports. reflexivity.
Defined.

(** C1. On an interaction the month rollover fires if and only if the
    stored marker's month key differs from the current month key and the
    day of the month is 1.  Right after it has fired every category other
    than Budget stands at exactly 0.0 in the saved ledger, the Budget total
    is what it was, and the marker file holds the new month key; running
    the check again in that state finalizes and resets nothing: the world
    stays as it is. *)
Theorem C1_rollover_fires_once (w : World) (name : string) (dt : datetime)
    (budget : float) :
  Frame.budget_value (ledger_of w name) = Ok budget ->
  1 < Date.year dt ->
  let due := stored_month_key w name <> Some (month_key dt) /\ Date.day dt = 1 in
  let w' := exec (month_handling name dt) w in
  (screen w' = (screen w ++ [st_warning new_month_message])%list <-> due)
  /\ (~ due -> w' = before_rollover name dt budget w)
  /\ (due ->
      outcome (month_handling name dt) w = Ok (ledger_of w' name, budget)
      /\ List.map Categories (ledger_of w' name) = List.map Categories (ledger_of w name)
      /\ (forall r, In r (ledger_of w' name) -> Categories r <> "Budget" ->
                    Total r = 0%float)
      /\ List.filter (Frame.cat_eq "Budget") (ledger_of w' name)
         = List.filter (Frame.cat_eq "Budget") (ledger_of w name)
      /\ Frame.budget_value (ledger_of w' name) = Ok budget
      /\ last_reset w' !! reset_file_path name = Some (month_key dt)
      /\ stored_month_key w' name = Some (month_key dt)
      /\ exec (month_handling name dt) w' = w').
Proof.
  intros Hb Hyear due w'. subst due w'.
  destruct (before_rollover_frame name dt budget w) as (Hdata & Hreset & _ & Hscreen).
  unfold exec, outcome. rewrite (month_handling_run name dt w budget Hb).
  destruct (rollover_due (stored_month_key w name) (month_key dt) dt) eqn:Hdue.
  - (* the rollover is due *)
    assert (Hd := proj1 (rollover_due_iff _ _) Hdue).
    destruct (day_before_first_exists dt Hyear) as [prev Hprev].
    assert (Hst := compute_budget_status_ok _ _ Hb).
    rewrite (month_rollover_due name _ dt prev _ _ _ _ _ _ Hdue Hprev Hst).
    set (df' := Frame.loc_set (Frame.cat_ne "Budget") 0%float (ledger_of w name)).
    assert (Hnum : numeric df')
      by (apply numeric_loc_set; [reflexivity | apply ledger_of_numeric]).
    match goal with |- context [(Ok (df', budget), ?x)] => set (w' := x) end.
    assert (Hsaved : user_data w' !! user_csv_path name = Some (to_csv df'))
      by (subst w'; simpl; apply lookup_insert_eq).
    assert (Hledger : ledger_of w' name = df') by exact (ledger_of_saved w' name df' Hsaved Hnum).
    assert (Hmarker : last_reset w' !! reset_file_path name = Some (month_key dt))
      by (subst w'; simpl; apply lookup_insert_eq).
    assert (Hkey : stored_month_key w' name = Some (month_key dt))
      by (unfold stored_month_key; rewrite Hmarker; simpl; rewrite strip_month_key;
          reflexivity).
    assert (Hb' : Frame.budget_value (ledger_of w' name) = Ok budget)
      by (rewrite Hledger; subst df'; rewrite reset_keeps_budget_value; exact Hb).
    simpl. split; [ | split; [intros Hnot; contradiction | ]].
    + split; [intros _; exact Hd | intros _].
      subst w'. simpl. rewrite Hscreen. reflexivity.
    + intros _. rewrite Hledger. repeat split; try assumption.
      * subst df'. apply loc_set_categories.
      * subst df'. apply reset_zeroes_expenses.
      * subst df'. apply reset_keeps_budget_rows.
      * rewrite <- Hledger. exact Hb'.
      * (* the second run *)
        rewrite (month_handling_run name dt w' budget Hb').
        assert (Hbefore : before_rollover name dt budget w' = w').
        { unfold before_rollover. destruct (0 <? budget)%float eqn:Hpos; [ | reflexivity].
          apply ensure_noop. subst w'. simpl.
          apply lookup_insert_is_Some'. right.
          unfold before_rollover. rewrite Hpos.
          apply (ensure_report_there name dt w budget Hb Hpos). }
        rewrite Hbefore, month_rollover_not_due; [reflexivity | ].
        unfold rollover_due. rewrite Hkey, bool_decide_eq_true_2; reflexivity.
  - (* the rollover is not due *)
    rewrite (month_rollover_not_due name _ dt _ _ Hdue). simpl.
    assert (Hnd : ~ (stored_month_key w name <> Some (month_key dt) /\ Date.day dt = 1)).
    { intros Hd. apply rollover_due_iff in Hd. congruence. }
    split; [ | split; [reflexivity | intros Hd; contradiction]].
    rewrite Hscreen. split; [intros H; destruct (snoc_not_same _ _ H) | intros Hd; contradiction].
Qed.

Lemma C1_rollover_fires_once_witness :
  Frame.budget_value
    (ledger_of (exec (month_handling "asha" dec_1) world_end_of_november) "asha")
  = Ok 1000%float
  /\ stored_month_key (exec (month_handling "asha" dec_1) world_end_of_november) "asha"
     = Some "2025-12"
  /\ exec (month_handling "asha" dec_1)
       (exec (month_handling "asha" dec_1) world_end_of_november)
     = exec (month_handling "asha" dec_1) world_end_of_november.
Proof.
  destruct (C1_rollover_fires_once world_end_of_november "asha" dec_1 1000%float
              eq_refl ltac:(simpl; lia)) as (_ & _ & H).
  destruct H as (_ & _ & _ & _ & Hb & _ & Hk & Hagain).
  { split; [intros E; vm_compute in E; discriminate E | reflexivity]. }
  exact (conj Hb (conj Hk Hagain)).
Defined.

(* ===================================================================== *)
(** ** Properties that every step of a computation keeps                  *)
(* ===================================================================== *)

Section Preserves.

Variable I : World -> Prop.
Variable allowed : exn -> Prop.

Lemma preserves_ret {A : Type} (post : A -> Prop) (a : A) :
  post a -> preserves I post allowed (ret a).
Proof. intros Ha w Hw. split; [exact Hw | exact Ha]. Qed.

Lemma preserves_lift {A : Type} (post : A -> Prop) (r : result A) :
  match r with Ok a => post a | Raise e => allowed e end ->
  preserves I post allowed (lift r).
Proof. intros Hr w Hw. split; [exact Hw | exact Hr]. Qed.

Lemma preserves_raise {A : Type} (post : A -> Prop) (e : exn) :
  allowed e -> preserves I post allowed (raise e).
Proof. intros He w Hw. split; [exact Hw | exact He]. Qed.

Lemma preserves_bind {A B : Type} (mid : A -> Prop) (post : B -> Prop)
    (c : M A) (k : A -> M B) :
  preserves I mid allowed c -> (forall a, mid a -> preserves I post allowed (k a)) ->
  preserves I post allowed (bind c k).
Proof.
  intros Hc Hk w Hw. destruct (Hc w Hw) as [Hw' Ha].
  unfold exec, outcome, bind in *. destruct (c w) as [[a | e] w']; simpl in *.
  - apply (Hk a Ha w' Hw').
  - split; [exact Hw' | exact Ha].
Qed.

Lemma preserves_modify (f : World -> World) :
  (forall w, I w -> I (f w)) -> preserves I (fun _ => True) allowed (modify f).
Proof. intros Hf w Hw. split; [apply Hf, Hw | exact Logic.I]. Qed.

(** A computation that only reads. *)
Lemma preserves_reading {A : Type} (c : M A) (f : World -> A) :
  (forall w, c w = (Ok (f w), w)) -> preserves I (fun _ => True) allowed c.
Proof.
  intros Hc w Hw. unfold exec, outcome. rewrite Hc. split; [exact Hw | exact Logic.I].
Qed.

End Preserves.

(* ===================================================================== *)
(** ** Reports only grow                                                  *)
(* ===================================================================== *)

Lemma extends_refl (s : string) : extends s s.
Proof. exists "". symmetry. apply TextFacts.append_nil_r. Qed.

Lemma extends_append (old new text : string) :
  extends old new -> extends old (new +:+ text).
Proof.
  intros [suffix ->]. exists (suffix +:+ text). apply TextFacts.append_assoc.
Qed.

Lemma extends_length (old new : string) :
  extends old new -> String.length old <= String.length new.
Proof. intros [suffix ->]. rewrite TextFacts.length_append. lia. Qed.

Section Kept.

Variable skip : string -> Prop.
Variable w0 : World.

Let K : World -> Prop := reports_kept_but skip w0.

Lemma kept_start : K w0.
Proof. intros path old _ H. exists old. split; [exact H | apply extends_refl]. Qed.

Lemma kept_same_reports (w w' : World) :
  monthly_reports w' = monthly_reports w -> K w -> K w'.
Proof. intros Heq Hw path old Hs H. rewrite Heq. apply (Hw path old Hs H). Qed.

Lemma kept_append (p text : string) (w : World) :
  K w ->
  K (Fs.set_monthly_reports (fun fs => <[p := default "" (fs !! p) +:+ text]> fs) w).
Proof.
  intros Hw path old Hs H. destruct (Hw path old Hs H) as (new & Hnew & Hext). simpl.
  destruct (decide (p = path)) as [-> | Hne].
  - rewrite lookup_insert_eq, Hnew. simpl. eexists. split; [reflexivity | ].
    apply extends_append, Hext.
  - rewrite lookup_insert_ne by exact Hne. eauto.
Qed.

Lemma kept_create (p text : string) (w : World) :
  monthly_reports w !! p = None -> K w -> K (Fs.set_monthly_reports (insert p text) w).
Proof.
  intros Hnone Hw path old Hs H. destruct (Hw path old Hs H) as (new & Hnew & Hext). simpl.
  destruct (decide (p = path)) as [-> | Hne]; [congruence | ].
  rewrite lookup_insert_ne by exact Hne. eauto.
Qed.

Lemma kept_rewrite_skipped (p text : string) (w : World) :
  skip p -> K w -> K (Fs.set_monthly_reports (insert p text) w).
Proof.
  intros Hskip Hw path old Hs H. destruct (Hw path old Hs H) as (new & Hnew & Hext). simpl.
  destruct (decide (p = path)) as [-> | Hne]; [contradiction | ].
  rewrite lookup_insert_ne by exact Hne. eauto.
Qed.

Lemma kept_emit (m : Msg) : preserves K (fun _ => True) anything (Fs.emit m).
Proof. apply preserves_modify. intros w. apply kept_same_reports. reflexivity. Qed.

Lemma kept_save (name : string) (df : DataFrame) :
  preserves K (fun _ => True) anything (save_user_data name df).
Proof. apply preserves_modify. intros w. apply kept_same_reports. reflexivity. Qed.

Lemma kept_marker_write (path text : string) :
  preserves K (fun _ => True) anything (Fs.marker_write path text).
Proof. apply preserves_modify. intros w. apply kept_same_reports. reflexivity. Qed.

Lemma kept_add_user (name : string) : preserves K (fun _ => True) anything (add_user name).
Proof. apply preserves_modify. intros w. apply kept_same_reports. reflexivity. Qed.

Lemma kept_get_all_users : preserves K (fun _ => True) anything get_all_users.
Proof. apply (preserves_reading _ _ _ (users)). reflexivity. Qed.

Lemma kept_load (name : string) : preserves K (fun _ => True) anything (load_user_data name).
Proof.
  intros w Hw. unfold exec, outcome. rewrite load_user_data_run. simpl.
  split; [exact Hw | ].
  destruct (user_data w !! user_csv_path name) as [[table | ] | ]; exact Logic.I.
Qed.

Lemma kept_marker_read (path : string) : preserves K (fun _ => True) anything (Fs.marker_read path).
Proof. apply (preserves_reading _ _ _ (fun w => last_reset w !! path)). reflexivity. Qed.

Lemma kept_report_exists (path : string) :
  preserves K (fun _ => True) anything (Fs.report_exists path).
Proof. apply (preserves_reading _ _ _ (fun w => match monthly_reports w !! path with Some _ => true | None => false end)). reflexivity. Qed.

Lemma kept_report_read (path : string) : preserves K (fun _ => True) anything (Fs.report_read path).
Proof. apply (preserves_reading _ _ _ (fun w => default "" (monthly_reports w !! path))). reflexivity. Qed.

Lemma kept_charts (name : string) (df : DataFrame) (dt : datetime) :
  preserves K (fun _ => True) anything (create_and_save_charts name df dt).
Proof. apply (preserves_reading _ _ _ (fun _ => tt)). reflexivity. Qed.

Lemma kept_report_append (path text : string) :
  preserves K (fun _ => True) anything (Fs.report_append path text).
Proof. apply preserves_modify. intros w. apply kept_append. Qed.

Lemma kept_ensure (name : string) (dt : datetime) :
  preserves K (fun _ => True) anything (ensure_monthly_report_exists name dt).
Proof.
  intros w Hw. unfold exec, outcome.
  rewrite ensure_monthly_report_exists_run.
  destruct (monthly_reports w !! report_file_path name dt) eqn:E;
    [split; [exact Hw | exact Logic.I] | ].
  destruct (Frame.budget_value (ledger_of w name)) as [b | e];
    [ | split; [exact Hw | exact Logic.I]].
  destruct (0 <? b)%float; [ | split; [exact Hw | exact Logic.I]].
  split; [ | exact Logic.I]. simpl. apply kept_create; assumption.
Qed.

End Kept.

Create HintDb kept.
#[local] Hint Resolve kept_emit kept_save kept_marker_write kept_add_user
  kept_get_all_users kept_load kept_marker_read kept_report_exists kept_report_read
  kept_charts kept_report_append kept_ensure : kept.

(** Walks through a computation, one bind at a time. *)
Ltac keep_going :=
  repeat first
    [ progress intros
    | solve [eauto with kept]
    | apply preserves_ret; exact Logic.I
    | apply preserves_raise; exact Logic.I
    | apply preserves_lift;
      match goal with |- match ?r with _ => _ end => destruct r end; exact Logic.I
    | apply (preserves_bind _ _ (fun _ => True))
    | match goal with
      | |- preserves _ _ _ (if ?b then _ else _) => destruct b
      | |- preserves _ _ _ (match ?x with _ => _ end) => destruct x
      end ].

Lemma kept_finalize (skip : string -> Prop) (w0 : World) (name : string)
    (df : DataFrame) (dt : datetime) :
  preserves (reports_kept_but skip w0) (fun _ => True) anything (finalize_month_report name df dt).
Proof. unfold finalize_month_report. keep_going. Qed.

Lemma kept_append_expense (skip : string -> Prop) (w0 : World) (name category : string)
    (amount : float) (dt : datetime) :
  preserves (reports_kept_but skip w0) (fun _ => True) anything
    (append_expense_to_report name category amount dt).
Proof. unfold append_expense_to_report. keep_going. Qed.

Lemma kept_show_budget_summary (skip : string -> Prop) (w0 : World) (df : DataFrame) :
  preserves (reports_kept_but skip w0) (fun _ => True) anything (show_budget_summary df).
Proof. unfold show_budget_summary. keep_going. Qed.

#[local] Hint Resolve kept_finalize kept_append_expense kept_show_budget_summary : kept.

Lemma kept_month_rollover (skip : string -> Prop) (w0 : World) (name : string)
    (df : DataFrame) (dt : datetime) (marker : option string) :
  preserves (reports_kept_but skip w0) (fun _ => True) anything (month_rollover name df dt marker).
Proof. unfold month_rollover. keep_going. Qed.

#[local] Hint Resolve kept_month_rollover : kept.

Lemma kept_month_handling (skip : string -> Prop) (w0 : World) (name : string)
    (dt : datetime) :
  preserves (reports_kept_but skip w0) (fun _ => True) anything (month_handling name dt).
Proof. unfold month_handling. keep_going. Qed.

Lemma kept_new_user_screen (skip : string -> Prop) (w0 : World) (i : Input)
    (df : DataFrame) :
  preserves (reports_kept_but skip w0) (fun _ => True) anything (new_user_screen i df).
Proof. unfold new_user_screen. keep_going. Qed.

Lemma kept_add_expense (skip : string -> Prop) (w0 : World) (i : Input) (df : DataFrame) :
  preserves (reports_kept_but skip w0) (fun _ => True) anything (add_expense i df).
Proof. unfold add_expense. keep_going. Qed.

(** A budget update rewrites the report of the month and nothing else. *)
Lemma kept_modify_budget (skip : string -> Prop) (w0 : World) (i : Input)
    (df : DataFrame) :
  (pressed i Update_Budget = true -> skip (report_file_path (in_name i) (in_now i))) ->
  preserves (reports_kept_but skip w0) (fun _ => True) anything (modify_budget i df).
Proof.
  intros Hskip. unfold modify_budget.
  apply (preserves_bind _ _ (fun _ => True)); [keep_going | intros current_budget _].
  destruct (pressed i Update_Budget); [ | keep_going].
  apply (preserves_bind _ _ (fun _ => True)); [keep_going | intros _ _].
  apply (preserves_bind _ _ (fun _ => True)); [keep_going | intros present _].
  apply (preserves_bind _ _ (fun _ => True)); [ | keep_going].
  destruct present; [ | keep_going].
  apply (preserves_bind _ _ (fun _ => True)); [keep_going | intros old _].
  apply preserves_modify. intros w. apply kept_rewrite_skipped. auto.
Qed.

#[local] Hint Resolve kept_month_handling kept_new_user_screen kept_add_expense
  kept_modify_budget : kept.

Lemma kept_existing_user_screen (skip : string -> Prop) (w0 : World) (i : Input)
    (df : DataFrame) :
  (pressed i Update_Budget = true -> skip (report_file_path (in_name i) (in_now i))) ->
  preserves (reports_kept_but skip w0) (fun _ => True) anything (existing_user_screen i df).
Proof. intros Hskip. unfold existing_user_screen. keep_going. Qed.

#[local] Hint Resolve kept_existing_user_screen : kept.

Lemma kept_main (skip : string -> Prop) (w0 : World) (i : Input) :
  (pressed i Update_Budget = true -> skip (report_file_path (in_name i) (in_now i))) ->
  preserves (reports_kept_but skip w0) (fun _ => True) anything (main i).
Proof. intros Hskip. unfold main. keep_going. Qed.

(** What a budget update writes: the title line, the line of the new
    budget, then the third line of the old file. *)
Lemma modify_budget_rewrites (i : Input) (df : DataFrame) (b : float) (old : string)
    (w : World) :
  Frame.budget_value df = Ok b ->
  pressed i Update_Budget = true ->
  monthly_reports w !! report_file_path (in_name i) (in_now i) = Some old ->
  monthly_reports (exec (modify_budget i df) w)
  = <[report_file_path (in_name i) (in_now i) :=
        report_title (in_name i) (in_now i) +:+ report_budget_line (in_new_budget i)
        +:+ (if (2 <? length (Text.splitlines old))%nat
             then default "" (Text.splitlines old !! 2) else "")]>
      (monthly_reports w).
Proof.
  intros Hb Hp Hold. unfold exec, modify_budget, bind at 1, lift. rewrite Hb, Hp.
  unfold bind at 1, save_user_data, modify.
  unfold bind at 1, Fs.report_exists, bind at 1, get, ret. simpl. rewrite Hold.
  unfold bind at 1 2, Fs.report_read, bind at 1, get, ret. simpl. rewrite Hold.
  reflexivity.
Qed.

Lemma extends_trans (a b c : string) : extends a b -> extends b c -> extends a c.
Proof. intros Hab [suffix ->]. apply extends_append, Hab. Qed.

Lemma reports_kept_trans (w1 w2 w3 : World) :
  reports_kept w1 w2 -> reports_kept w2 w3 -> reports_kept w1 w3.
Proof.
  intros H12 H23 path old Hs H. destruct (H12 path old Hs H) as (mid & Hmid & Hext).
  destruct (H23 path mid Hs Hmid) as (new & Hnew & Hext'). exists new.
  split; [exact Hnew | exact (extends_trans _ _ _ Hext Hext')].
Qed.

(** Runs without a budget update keep every report, however many. *)
Lemma reports_kept_run_all (inputs : list Input) :
  Forall (fun i => pressed i Update_Budget = false) inputs ->
  forall w, reports_kept w (run_all inputs w).
Proof.
  unfold run_all. induction 1 as [ | i inputs Hi _ IH]; intros w; simpl.
  - apply kept_start.
  - apply (reports_kept_trans w (exec (main i) (Fs.set_screen (fun _ => []) w))); [ | apply IH].
    apply (kept_main (fun _ => False) w i).
    + rewrite Hi. discriminate.
    + apply (kept_same_reports _ w w); [reflexivity | apply kept_start].
Qed.

(** C3, as amended. Once a monthly report exists, [ensure_monthly_report_exists],
    [append_expense_to_report], [finalize_month_report] and every run of the
    script keep its prior content in front of what they add, with one
    exception: a budget update rewrites the report of the current month,
    which then starts with the title line and the line of the new budget.
    So over any number of runs without a budget update every report keeps
    all it held. *)
Theorem C3_reports_only_grow (w : World) :
  (forall name dt, reports_kept w (exec (ensure_monthly_report_exists name dt) w))
  /\ (forall name category amount dt,
        reports_kept w (exec (append_expense_to_report name category amount dt) w))
  /\ (forall name ledger dt,
        reports_kept w (exec (finalize_month_report name ledger dt) w))
  /\ (forall i,
        reports_kept_but
          (fun path => pressed i Update_Budget = true
                       /\ path = report_file_path (in_name i) (in_now i))
          w (exec (main i) w))
  /\ (forall i ledger budget old,
        Frame.budget_value ledger = Ok budget ->
        pressed i Update_Budget = true ->
        monthly_reports w !! report_file_path (in_name i) (in_now i) = Some old ->
        exists rest,
          monthly_reports (exec (modify_budget i ledger) w)
            !! report_file_path (in_name i) (in_now i)
          = Some ("Expense Report for " +:+ in_name i +:+ " - "
                    +:+ Date.strftime "%B %Y" (in_now i) +:+ "
" +:+ "Budget: ₹" +:+ PyFloat.format_2f (in_new_budget i) +:+ "
" +:+ rest))
  /\ (forall inputs,
        Forall (fun i => pressed i Update_Budget = false) inputs ->
        reports_kept w (run_all inputs w)).
Proof.
  repeat split; [ | | | | | intros inputs Hin; apply reports_kept_run_all, Hin].
  - intros name dt. apply (kept_ensure _ w name dt w (kept_start _ w)).
  - intros name category amount dt.
    apply (kept_append_expense _ w name category amount dt w (kept_start _ w)).
  - intros name ledger dt. apply (kept_finalize _ w name ledger dt w (kept_start _ w)).
  - intros i. apply (kept_main _ w i); [auto | apply kept_start].
  - intros i ledger budget old Hb Hp Hold.
    rewrite (modify_budget_rewrites i ledger budget old w Hb Hp Hold).
    rewrite lookup_insert_eq. eexists.
    unfold report_title, report_budget_line. rewrite !TextFacts.append_assoc.
    reflexivity.
Qed.

Lemma C3_reports_only_grow_witness :
  exists rest,
    monthly_reports
      (exec (modify_budget raise_budget_1500 ledger_within)
         (exec (main add_food_850) (world_with_ledger ledger_within)))
      !! "monthly_reports/asha_November_2025.txt"
    = Some ("Expense Report for asha - November 2025
Budget: ₹1500.00
" +:+ rest).
Proof.
  exact (proj1 (proj2 (proj2 (proj2 (proj2
           (C3_reports_only_grow (exec (main add_food_850) (world_with_ledger ledger_within)))))))
           raise_budget_1500 ledger_within 1000%float _ eq_refl eq_refl eq_refl).
Defined.

(** C3, as stated, fails at a budget update: the expense line appended
    before it is gone afterwards. *)
Lemma C3_counterexample_budget_update :
  monthly_reports (exec (main add_food_850) (world_with_ledger ledger_within))
    !! "monthly_reports/asha_November_2025.txt"
  = Some "Expense Report for asha - November 2025
Budget: ₹1000.00
Timestamp | Category | Amount
30-11-2025 18:45 | Food | ₹850.0
"
  /\ monthly_reports
       (exec (main raise_budget_1500)
          (exec (main add_food_850) (world_with_ledger ledger_within)))
       !! "monthly_reports/asha_November_2025.txt"
     = Some "Expense Report for asha - November 2025
Budget: ₹1500.00
Timestamp | Category | Amount
"
  /\ ~ reports_kept
         (exec (main add_food_850) (world_with_ledger ledger_within))
         (exec (main raise_budget_1500)
            (exec (main add_food_850) (world_with_ledger ledger_within))).
Proof.
  assert (Hold : monthly_reports (exec (main add_food_850) (world_with_ledger ledger_within))
                   !! "monthly_reports/asha_November_2025.txt"
                 = Some "Expense Report for asha - November 2025
Budget: ₹1000.00
Timestamp | Category | Amount
30-11-2025 18:45 | Food | ₹850.0
") by (vm_compute; reflexivity).
  assert (Hnew : monthly_reports
                   (exec (main raise_budget_1500)
                      (exec (main add_food_850) (world_with_ledger ledger_within)))
                   !! "monthly_reports/asha_November_2025.txt"
                 = Some "Expense Report for asha - November 2025
Budget: ₹1500.00
Timestamp | Category | Amount
") by (vm_compute; reflexivity).
  split; [exact Hold | split; [exact Hnew | ]].
  intros Hkept.
  destruct (Hkept _ _ (fun F : False => F) Hold) as (new & Hlook & Hext).
  rewrite Hnew in Hlook. injection Hlook as <-.
  apply extends_length in Hext. vm_compute in Hext. lia.
Qed.

(* ===================================================================== *)
(** ** Exactly one Budget row                                             *)
(* ===================================================================== *)

Lemma budget_rows_loc_set (mask : Row -> bool) (v : float) (df : DataFrame) :
  budget_rows (Frame.loc_set mask v df) = budget_rows df.
Proof. rewrite !budget_rows_categories, loc_set_categories. reflexivity. Qed.

Lemma budget_rows_loc_add (mask : Row -> bool) (v : float) (df : DataFrame) :
  budget_rows (Frame.loc_add mask v df) = budget_rows df.
Proof. rewrite !budget_rows_categories, loc_add_categories. reflexivity. Qed.

(** With one Budget row the lookup of the budget returns. *)
Lemma one_budget_value (df : DataFrame) :
  budget_rows df = 1 -> exists b, Frame.budget_value df = Ok b.
Proof.
  unfold budget_rows, Frame.budget_value, Frame.loc_values.
  destruct (List.filter (Frame.cat_eq "Budget") df); simpl; [discriminate | eauto].
Qed.

Lemma one_budget_status (df : DataFrame) :
  budget_rows df = 1 -> exists st, compute_budget_status df = Ok st.
Proof.
  intros H. destruct (one_budget_value df H) as [b Hb].
  rewrite (compute_budget_status_ok df b Hb). eauto.
Qed.

Lemma budget_rows_normalized (table : list (string * cell)) :
  budget_rows (List.map (fun e => row (fst e) (normalized (snd e))) table)
  = budget_rows_stored table.
Proof.
  unfold budget_rows, budget_rows_stored, Frame.cat_eq.
  induction table as [ | [c t] table IH]; [reflexivity | ]. simpl.
  destruct (String.eqb c "Budget"); simpl; rewrite IH; reflexivity.
Qed.

(** Where every ledger file has one Budget row, so has the ledger found
    for any user. *)
Lemma ledger_of_one_budget (w : World) (name : string) :
  one_budget_each w -> budget_rows (ledger_of w name) = 1.
Proof.
  intros Hw. destruct (user_data w !! user_csv_path name) as [file | ] eqn:E.
  - destruct (Hw _ _ E) as (table & -> & Hone).
    rewrite (ledger_of_stored name w table E), budget_rows_normalized. exact Hone.
  - rewrite (ledger_of_missing name w E). reflexivity.
Qed.

(** Where every ledger file has one Budget row, every ledger file can be
    read. *)
Lemma one_budget_readable (w : World) (name : string) :
  one_budget_each w -> readable name w.
Proof. intros Hw E. destruct (Hw _ _ E) as (table & Hfile & _). discriminate Hfile. Qed.

Lemma one_budget_same_files (w w' : World) :
  user_data w' = user_data w -> one_budget_each w -> one_budget_each w'.
Proof. intros Heq Hw path table. rewrite Heq. apply Hw. Qed.

Lemma one_budget_saved (name : string) (df : DataFrame) (w : World) :
  budget_rows df = 1 -> one_budget_each w ->
  one_budget_each (Fs.set_user_data (insert (user_csv_path name) (to_csv df)) w).
Proof.
  intros Hdf Hw path file. simpl.
  destruct (decide (user_csv_path name = path)) as [<- | Hne].
  - rewrite lookup_insert_eq. intros [= <-]. exists (csv_rows df).
    split; [reflexivity | ]. rewrite budget_rows_stored_to_csv. exact Hdf.
  - rewrite lookup_insert_ne by exact Hne. apply Hw.
Qed.

Lemma minus_one_day_no_index_error (dt : datetime) :
  match Date.minus_one_day dt with
  | Ok _ => True
  | Raise e => not_index_error e
  end.
Proof.
  unfold Date.minus_one_day.
  destruct (1 <? Date.day dt)%nat; [exact Logic.I | ].
  destruct (1 <? Date.month dt)%nat; [exact Logic.I | ].
  destruct (1 <? Date.year dt)%nat; [exact Logic.I | discriminate].
Qed.

Section OneBudget.

Let J : World -> Prop := one_budget_each.
Let one (df : DataFrame) : Prop := budget_rows df = 1.

Lemma ob_changing_no_ledger (f : World -> World) :
  (forall w, user_data (f w) = user_data w) ->
  preserves J (fun _ => True) not_index_error (modify f).
Proof.
  intros Hf. apply preserves_modify. intros w. apply one_budget_same_files, Hf.
Qed.

Lemma ob_emit (m : Msg) : preserves J (fun _ => True) not_index_error (Fs.emit m).
Proof. apply ob_changing_no_ledger. reflexivity. Qed.

Lemma ob_marker_write (path text : string) :
  preserves J (fun _ => True) not_index_error (Fs.marker_write path text).
Proof. apply ob_changing_no_ledger. reflexivity. Qed.

Lemma ob_add_user (name : string) :
  preserves J (fun _ => True) not_index_error (add_user name).
Proof. apply ob_changing_no_ledger. reflexivity. Qed.

Lemma ob_report_append (path text : string) :
  preserves J (fun _ => True) not_index_error (Fs.report_append path text).
Proof. apply ob_changing_no_ledger. reflexivity. Qed.

Lemma ob_report_write (path text : string) :
  preserves J (fun _ => True) not_index_error (Fs.report_write path text).
Proof. apply ob_changing_no_ledger. reflexivity. Qed.

Lemma ob_get_all_users : preserves J (fun _ => True) not_index_error get_all_users.
Proof. apply (preserves_reading _ _ _ users). reflexivity. Qed.

Lemma ob_marker_read (path : string) :
  preserves J (fun _ => True) not_index_error (Fs.marker_read path).
Proof. apply (preserves_reading _ _ _ (fun w => last_reset w !! path)). reflexivity. Qed.

Lemma ob_report_exists (path : string) :
  preserves J (fun _ => True) not_index_error (Fs.report_exists path).
Proof.
  apply (preserves_reading _ _ _
           (fun w => match monthly_reports w !! path with Some _ => true | None => false end)).
  reflexivity.
Qed.

Lemma ob_report_read (path : string) :
  preserves J (fun _ => True) not_index_error (Fs.report_read path).
Proof.
  apply (preserves_reading _ _ _ (fun w => default "" (monthly_reports w !! path))).
  reflexivity.
Qed.

Lemma ob_charts (name : string) (df : DataFrame) (dt : datetime) :
  preserves J (fun _ => True) not_index_error (create_and_save_charts name df dt).
Proof. apply (preserves_reading _ _ _ (fun _ => tt)). reflexivity. Qed.

(** Loading finds a ledger with one Budget row. *)
Lemma ob_load (name : string) : preserves J one not_index_error (load_user_data name).
Proof.
  intros w Hw. unfold exec, outcome.
  rewrite (load_user_data_readable name w (one_budget_readable w name Hw)). simpl.
  split; [exact Hw | apply ledger_of_one_budget, Hw].
Qed.

Lemma ob_save (name : string) (df : DataFrame) :
  one df -> preserves J (fun _ => True) not_index_error (save_user_data name df).
Proof. intros Hdf. apply preserves_modify. intros w. apply one_budget_saved, Hdf. Qed.

Lemma ob_budget_value (df : DataFrame) :
  one df -> preserves J (fun _ => True) not_index_error (lift (Frame.budget_value df)).
Proof.
  intros Hdf. apply preserves_lift. destruct (one_budget_value df Hdf) as [b ->].
  exact Logic.I.
Qed.

Lemma ob_status (df : DataFrame) :
  one df ->
  preserves J (fun _ => True) not_index_error (lift (compute_budget_status df)).
Proof.
  intros Hdf. apply preserves_lift. destruct (one_budget_status df Hdf) as [st ->].
  exact Logic.I.
Qed.

Lemma ob_minus_one_day (dt : datetime) :
  preserves J (fun _ => True) not_index_error (lift (Date.minus_one_day dt)).
Proof. apply preserves_lift, minus_one_day_no_index_error. Qed.

Lemma ob_ensure (name : string) (dt : datetime) :
  preserves J (fun _ => True) not_index_error (ensure_monthly_report_exists name dt).
Proof.
  intros w Hw. destruct (ensure_frame name dt w) as (Hdata & _).
  split; [exact (one_budget_same_files _ _ Hdata Hw) | ].
  destruct (one_budget_value _ (ledger_of_one_budget w name Hw)) as [b Hb].
  unfold outcome. rewrite (ensure_returns name dt w b Hb). exact Logic.I.
Qed.

End OneBudget.

Create HintDb one_budget.
#[local] Hint Resolve ob_emit ob_marker_write ob_add_user ob_report_append
  ob_report_write ob_get_all_users ob_marker_read ob_report_exists ob_report_read
  ob_charts ob_load ob_save ob_budget_value ob_status ob_minus_one_day ob_ensure
  : one_budget.

Lemma rerun_allowed : not_index_error RerunException.
Proof. discriminate. Qed.

(** Walks through a computation, carrying the count of Budget rows. *)
Ltac carry :=
  repeat first
    [ progress (intros; cbv beta in * )
    | solve [eauto with one_budget]
    | apply preserves_ret; first [exact Logic.I | assumption]
    | apply preserves_raise; exact rerun_allowed
    | match goal with
      | |- preserves _ _ _ (if ?b then _ else _) => destruct b
      | |- preserves _ _ _ (match ?x with _ => _ end) => destruct x
      end
    | apply (preserves_bind _ _ (fun _ => True)) ].

Lemma one_loc_set (mask : Row -> bool) (v : float) (df : DataFrame) :
  budget_rows df = 1 -> budget_rows (Frame.loc_set mask v df) = 1.
Proof. rewrite budget_rows_loc_set. trivial. Qed.

Lemma one_loc_add (mask : Row -> bool) (v : float) (df : DataFrame) :
  budget_rows df = 1 -> budget_rows (Frame.loc_add mask v df) = 1.
Proof. rewrite budget_rows_loc_add. trivial. Qed.

#[local] Hint Resolve one_loc_set one_loc_add : one_budget.

(** One bind whose first computation the hints know. *)
Ltac step :=
  eapply preserves_bind; [solve [eauto with one_budget] | intros; cbv beta in * ].

Lemma ob_finalize (name : string) (df : DataFrame) (dt : datetime) :
  budget_rows df = 1 ->
  preserves one_budget_each (fun _ => True) not_index_error
    (finalize_month_report name df dt).
Proof. intros Hdf. unfold finalize_month_report. carry. Qed.

Lemma ob_append_expense (name category : string) (amount : float) (dt : datetime) :
  preserves one_budget_each (fun _ => True) not_index_error
    (append_expense_to_report name category amount dt).
Proof. unfold append_expense_to_report. carry. Qed.

Lemma ob_show_budget_summary (df : DataFrame) :
  budget_rows df = 1 ->
  preserves one_budget_each (fun _ => True) not_index_error (show_budget_summary df).
Proof. intros Hdf. unfold show_budget_summary. carry. Qed.

#[local] Hint Resolve ob_finalize ob_append_expense ob_show_budget_summary : one_budget.

Lemma ob_month_rollover (name : string) (df : DataFrame) (dt : datetime)
    (marker : option string) :
  budget_rows df = 1 ->
  preserves one_budget_each (fun df' => budget_rows df' = 1) not_index_error
    (month_rollover name df dt marker).
Proof.
  intros Hdf. unfold month_rollover.
  destruct (rollover_due marker (month_key dt) dt); [ | apply preserves_ret, Hdf].
  do 5 step. apply preserves_ret. apply one_loc_set, Hdf.
Qed.

#[local] Hint Resolve ob_month_rollover : one_budget.

Lemma ob_month_handling (name : string) (dt : datetime) :
  preserves one_budget_each (fun r => budget_rows (fst r) = 1) not_index_error
    (month_handling name dt).
Proof.
  unfold month_handling. do 3 step.
  apply (preserves_bind _ _ (fun _ => True)); [carry | intros _ _].
  step. apply preserves_ret. assumption.
Qed.

Lemma ob_new_user_screen (i : Input) (df : DataFrame) :
  budget_rows df = 1 ->
  preserves one_budget_each (fun df' => budget_rows df' = 1) not_index_error
    (new_user_screen i df).
Proof.
  intros Hdf. unfold new_user_screen.
  destruct (pressed i Save_Budget); [ | apply preserves_ret, Hdf].
  do 4 step. apply preserves_raise, rerun_allowed.
Qed.

Lemma ob_add_expense (i : Input) (df : DataFrame) :
  budget_rows df = 1 ->
  preserves one_budget_each (fun df' => budget_rows df' = 1) not_index_error
    (add_expense i df).
Proof.
  intros Hdf. unfold add_expense. step.
  destruct (pressed i Add_Expense_Button); [ | apply preserves_ret, Hdf].
  do 5 step.
  match goal with
  | |- preserves _ _ _ (match ?st with _ => _ end) =>
      destruct st as [[[budget_val total_exp] remaining] perc]
  end.
  apply (preserves_bind _ _ (fun _ => True)); [carry | intros _ _].
  step. apply preserves_ret. apply one_loc_add, Hdf.
Qed.

Lemma ob_modify_budget (i : Input) (df : DataFrame) :
  budget_rows df = 1 ->
  preserves one_budget_each (fun df' => budget_rows df' = 1) not_index_error
    (modify_budget i df).
Proof.
  intros Hdf. unfold modify_budget. step.
  destruct (pressed i Update_Budget); [ | apply preserves_ret, Hdf].
  do 2 step.
  apply (preserves_bind _ _ (fun _ => True)); [carry | intros _ _].
  do 2 step. apply preserves_ret. apply one_loc_set, Hdf.
Qed.

#[local] Hint Resolve ob_month_handling ob_new_user_screen ob_add_expense
  ob_modify_budget : one_budget.

Lemma ob_existing_user_screen (i : Input) (df : DataFrame) :
  budget_rows df = 1 ->
  preserves one_budget_each (fun df' => budget_rows df' = 1) not_index_error
    (existing_user_screen i df).
Proof.
  intros Hdf. unfold existing_user_screen.
  destruct (in_menu i); try solve [eauto with one_budget];
    step; apply preserves_ret, Hdf.
Qed.

#[local] Hint Resolve ob_existing_user_screen : one_budget.

(** A run of the script keeps one Budget row in every ledger file and
    never raises [IndexError]. *)
Lemma ob_main (i : Input) :
  preserves one_budget_each (fun _ => True) not_index_error (main i).
Proof.
  unfold main. destruct (String.eqb (in_name i) ""); [apply preserves_ret; exact Logic.I | ].
  step.
  apply (preserves_bind _ _ (fun _ => True)); [carry | intros is_new_user _].
  eapply preserves_bind; [apply ob_month_handling | intros [df budget_val] Hdf].
  simpl in Hdf.
  apply (preserves_bind _ _ (fun df' => budget_rows df' = 1)).
  - destruct (is_new_user && (budget_val =? 0)%float); eauto with one_budget.
  - intros df' Hdf'. carry.
Qed.

Lemma reachable_one_budget (w : World) : reachable w -> one_budget_each w.
Proof.
  induction 1 as [ | w i _ IH].
  - intros path table H. simpl in H. rewrite lookup_empty in H. discriminate H.
  - apply (ob_main i). apply (one_budget_same_files w); [reflexivity | exact IH].
Qed.

(** C9. Every ledger holds exactly one "Budget" entry: the fresh ledger
    has one; adding an expense, setting or modifying the budget, the
    rollover reset and saving keep the number of Budget rows; so in every
    world the script can bring about each ledger file, and the ledger
    loaded for any user, has exactly one Budget row, the evaluator returns
    on it, and no run of the script raises [IndexError] at a lookup of the
    Budget row. *)
Theorem C9_exactly_one_budget (w : World) :
  reachable w ->
  one_budget_each w
  /\ (forall name,
        budget_rows (ledger_of w name) = 1
        /\ exists status, compute_budget_status (ledger_of w name) = Ok status)
  /\ (forall i,
        one_budget_each (exec (main i) w)
        /\ outcome (main i) w <> Raise IndexError)
  /\ budget_rows fresh_ledger = 1
  /\ (forall ledger mask v,
        budget_rows ledger = 1 ->
        budget_rows (Frame.loc_add mask v ledger) = 1
        /\ budget_rows (Frame.loc_set mask v ledger) = 1
        /\ budget_rows_stored (csv_rows ledger) = 1).
Proof.
  intros Hreach. assert (Hw := reachable_one_budget w Hreach).
  split; [exact Hw | split; [ | split; [ | split; [reflexivity | ]]]].
  - intros name. assert (Hone := ledger_of_one_budget w name Hw).
    split; [exact Hone | apply one_budget_status, Hone].
  - intros i. destruct (ob_main i w Hw) as [Hkeep Hout]. split; [exact Hkeep | ].
    destruct (outcome (main i) w) as [a | e]; [discriminate | ].
    intros [= ->]. apply Hout. reflexivity.
  - intros ledger mask v Hone.
    rewrite budget_rows_loc_add, budget_rows_loc_set, budget_rows_stored_to_csv. auto.
Qed.

Lemma C9_exactly_one_budget_witness :
  one_budget_each (exec (main add_food_850) (Fs.set_screen (fun _ => []) empty_world))
  /\ budget_rows
       (ledger_of (exec (main add_food_850) (Fs.set_screen (fun _ => []) empty_world))
          "asha") = 1.
Proof.
  destruct (C9_exactly_one_budget _ (reachable_run empty_world add_food_850 reachable_start))
    as (Hfiles & Hledger & _).
  exact (conj Hfiles (proj1 (Hledger "asha"))).
Defined.

(* ===================================================================== *)
(** ** Further properties of the code.  Paths                             *)
(* ===================================================================== *)

Lemma append_cancel_r (a b s : string) : a +:+ s = b +:+ s -> a = b.
Proof.
  revert b. induction a as [ | x a IH]; intros [ | y b] H.
  - reflexivity.
  - apply (f_equal String.length) in H. rewrite !TextFacts.length_append in H.
    simpl in H. lia.
  - apply (f_equal String.length) in H. rewrite !TextFacts.length_append in H.
    simpl in H. lia.
  - change (String x (a +:+ s) = String y (b +:+ s)) in H.
    injection H as -> H. f_equal. apply IH, H.
Qed.

Lemma prefix_cons (a b : ascii) (s1 s2 : string) :
  String.prefix (String a s1) (String b s2)
  = if ascii_dec a b then String.prefix s1 s2 else false.
Proof. reflexivity. Qed.

(** Joining a folder with two file names gives one path only for one
    file name, when the folder does not begin with a slash. *)
Lemma path_join_inj (c : ascii) (folder f1 f2 : string) :
  c <> "/"%char ->
  Fs.path_join (String c folder) f1 = Fs.path_join (String c folder) f2 -> f1 = f2.
Proof.
  intros Hc. unfold Fs.path_join.
  assert (Hno : forall f, String.prefix "/" (String c folder +:+ "/" +:+ f) = false).
  { intros f. change (String c folder +:+ "/" +:+ f) with (String c (folder +:+ "/" +:+ f)).
    rewrite prefix_cons. destruct (ascii_dec "/" c) as [E | _]; [congruence | reflexivity]. }
  destruct (String.prefix "/" f1) eqn:E1, (String.prefix "/" f2) eqn:E2; intros H.
  - exact H.
  - rewrite H, Hno in E1. discriminate E1.
  - rewrite <- H, Hno in E2. discriminate E2.
  - apply (String.app_inj (String c folder)) in H. apply (String.app_inj "/") in H.
    exact H.
Qed.

Lemma user_csv_path_inj (name1 name2 : string) :
  user_csv_path name1 = user_csv_path name2 -> name1 = name2.
Proof.
  unfold user_csv_path, DATA_FOLDER. intros H.
  apply path_join_inj in H; [ | discriminate]. apply (append_cancel_r _ _ _ H).
Qed.

Lemma reset_file_path_inj (name1 name2 : string) :
  reset_file_path name1 = reset_file_path name2 -> name1 = name2.
Proof.
  unfold reset_file_path, RESET_FOLDER. intros H.
  apply path_join_inj in H; [ | discriminate]. apply (append_cancel_r _ _ _ H).
Qed.

Lemma plain_name_append (a b : string) :
  plain_name (a +:+ b) = plain_name a && plain_name b.
Proof.
  induction a as [ | c a IH]; [reflexivity | ].
  change (negb (Ascii.eqb c "/") && plain_name (a +:+ b)
          = negb (Ascii.eqb c "/") && plain_name a && plain_name b).
  rewrite IH. apply andb_assoc.
Qed.

(** A file name without "/" is put behind the folder. *)
Lemma path_join_plain (folder file : string) :
  plain_name file = true -> Fs.path_join folder file = folder +:+ "/" +:+ file.
Proof.
  unfold Fs.path_join. destruct file as [ | c file]; [reflexivity | ].
  intros H. rewrite prefix_cons.
  destruct (ascii_dec "/" c) as [<- | _]; [discriminate H | reflexivity].
Qed.

(** X1. For names without "/", the ledger file of a name is the file
    [name.csv] directly inside [user_data] and its rollover marker file the
    file [name.txt] directly inside [last_reset]; two such users share a
    ledger file, or a marker file, only if they are the same user. *)
Theorem X1_one_file_per_user (name1 name2 : string) :
  plain_name name1 = true ->
  plain_name name2 = true ->
  user_csv_path name1 = "user_data/" +:+ name1 +:+ ".csv"
  /\ reset_file_path name1 = "last_reset/" +:+ name1 +:+ ".txt"
  /\ plain_name (name1 +:+ ".csv") = true
  /\ plain_name (name1 +:+ ".txt") = true
  /\ (user_csv_path name1 = user_csv_path name2 <-> name1 = name2)
  /\ (reset_file_path name1 = reset_file_path name2 <-> name1 = name2).
Proof.
  intros H1 H2.
  assert (Hcsv : plain_name (name1 +:+ ".csv") = true)
    by (rewrite plain_name_append, H1; reflexivity).
  assert (Htxt : plain_name (name1 +:+ ".txt") = true)
    by (rewrite plain_name_append, H1; reflexivity).
  split; [unfold user_csv_path; rewrite (path_join_plain _ _ Hcsv); reflexivity | ].
  split; [unfold reset_file_path; rewrite (path_join_plain _ _ Htxt); reflexivity | ].
  split; [exact Hcsv | split; [exact Htxt | ]].
  split; (split; [ | intros ->; reflexivity]).
  - apply user_csv_path_inj.
  - apply reset_file_path_inj.
Qed.

Lemma X1_one_file_per_user_witness :
  user_csv_path "asha" = "user_data/asha.csv"
  /\ reset_file_path "asha" = "last_reset/asha.txt"
  /\ (user_csv_path "asha" = user_csv_path "ravi" <-> "asha" = "ravi").
Proof.
  destruct (X1_one_file_per_user "asha" "ravi" eq_refl eq_refl) as (H1 & H2 & _ & _ & H3 & _).
  split; [exact H1 | split; [exact H2 | exact H3]].
Defined.

(* ===================================================================== *)
(** ** Saving and loading                                                 *)
(* ===================================================================== *)

Lemma normalized_to_csv (df : DataFrame) :
  List.map (fun e => row (fst e) (normalized (snd e))) (csv_rows df)
  = List.map (fun r => row (Categories r) (Frame.nan_to_zero (Total r))) df.
Proof.
  unfold csv_rows. rewrite List.map_map. apply map_ext. intros r. simpl.
  unfold Frame.nan_to_zero. destruct (is_nan (Total r)) eqn:E; simpl; [reflexivity | ].
  rewrite E. reflexivity.
Qed.

(** The ledger found for a user depends on that user's file only. *)
Lemma ledger_of_same_file (w1 w2 : World) (name : string) :
  user_data w1 !! user_csv_path name = user_data w2 !! user_csv_path name ->
  ledger_of w1 name = ledger_of w2 name.
Proof.
  intros H. unfold ledger_of, outcome, load_user_data, bind, get, ret. rewrite H.
  destruct (user_data w2 !! user_csv_path name) as [[table | ] | ]; reflexivity.
Qed.



(* ===================================================================== *)
(** ** What a run can touch                                               *)
(* ===================================================================== *)

Lemma bind_assoc {A B C : Type} (c : M A) (k : A -> M B) (h : B -> M C) (w : World) :
  bind (bind c k) h w = bind c (fun a => bind (k a) h) w.
Proof. unfold bind. destruct (c w) as [[a | e] w']; reflexivity. Qed.

(** A run is the registration of the name, then the rest. *)
Lemma main_run (i : Input) (w : World) :
  main i w
  = if String.eqb (in_name i) "" then (Ok tt, w)
    else bind (register (in_name i)) (run_registered i) w.
Proof.
  unfold main. destruct (String.eqb (in_name i) ""); [reflexivity | ].
  unfold register. rewrite bind_assoc. reflexivity.
Qed.

(** The evaluator raises what the lookup of the budget raises. *)
Lemma compute_budget_status_raises (df : DataFrame) :
  match Frame.budget_value df with
  | Ok _ => exists st, compute_budget_status df = Ok st
  | Raise e => compute_budget_status df = Raise e
  end.
Proof.
  destruct (Frame.budget_value df) as [b | e] eqn:Hb.
  - rewrite (compute_budget_status_ok df b Hb). eauto.
  - unfold compute_budget_status. rewrite Hb. reflexivity.
Qed.

Create HintDb footprint.

Section Footprint.

Variable i : Input.
Variable I : World -> Prop.
Variable good : DataFrame -> Prop.
Variable allowed : exn -> Prop.

Hypothesis H_screen : forall f w, I w -> I (Fs.set_screen f w).
Hypothesis H_reports : forall f w, I w -> I (Fs.set_monthly_reports f w).
Hypothesis H_marker :
  forall w, I w ->
    I (Fs.set_last_reset (insert (reset_file_path (in_name i)) (month_key (in_now i))) w).
Hypothesis H_save :
  forall df w, good df -> I w ->
    I (Fs.set_user_data (insert (user_csv_path (in_name i)) (to_csv df)) w).
Hypothesis H_load : forall w, I w -> good (ledger_of w (in_name i)).
Hypothesis H_set : forall mask v df, good df -> good (Frame.loc_set mask v df).
Hypothesis H_add : forall mask v df, good df -> good (Frame.loc_add mask v df).
Hypothesis H_budget :
  forall df, good df ->
    match Frame.budget_value df with Ok _ => True | Raise e => allowed e end.
Hypothesis H_rerun : allowed RerunException.
Hypothesis H_unreadable : allowed EmptyDataError.
Hypothesis H_day :
  match Date.minus_one_day (Date.replace_day (in_now i) 1) with
  | Ok _ => True
  | Raise e => allowed e
  end.

Lemma fp_emit (m : Msg) : preserves I (fun _ => True) allowed (Fs.emit m).
Proof. apply preserves_modify. intros w. apply H_screen. Qed.

Lemma fp_report_append (path text : string) :
  preserves I (fun _ => True) allowed (Fs.report_append path text).
Proof. apply preserves_modify. intros w. apply H_reports. Qed.

Lemma fp_report_write (path text : string) :
  preserves I (fun _ => True) allowed (Fs.report_write path text).
Proof. apply preserves_modify. intros w. apply H_reports. Qed.

Lemma fp_marker_write :
  preserves I (fun _ => True) allowed
    (Fs.marker_write (reset_file_path (in_name i)) (month_key (in_now i))).
Proof. apply preserves_modify. intros w. apply H_marker. Qed.

Lemma fp_save (df : DataFrame) :
  good df -> preserves I (fun _ => True) allowed (save_user_data (in_name i) df).
Proof. intros Hdf. apply preserves_modify. intros w. apply H_save, Hdf. Qed.

Lemma fp_marker_read (path : string) :
  preserves I (fun _ => True) allowed (Fs.marker_read path).
Proof. apply (preserves_reading _ _ _ (fun w => last_reset w !! path)). reflexivity. Qed.

Lemma fp_report_exists (path : string) :
  preserves I (fun _ => True) allowed (Fs.report_exists path).
Proof.
  apply (preserves_reading _ _ _
           (fun w => match monthly_reports w !! path with Some _ => true | None => false end)).
  reflexivity.
Qed.

Lemma fp_report_read (path : string) :
  preserves I (fun _ => True) allowed (Fs.report_read path).
Proof.
  apply (preserves_reading _ _ _ (fun w => default "" (monthly_reports w !! path))).
  reflexivity.
Qed.

Lemma fp_charts (df : DataFrame) (dt : datetime) :
  preserves I (fun _ => True) allowed (create_and_save_charts (in_name i) df dt).
Proof. apply (preserves_reading _ _ _ (fun _ => tt)). reflexivity. Qed.

Lemma fp_load : preserves I good allowed (load_user_data (in_name i)).
Proof.
  intros w Hw. unfold exec, outcome. rewrite load_user_data_run. simpl.
  split; [exact Hw | ].
  destruct (user_data w !! user_csv_path (in_name i)) as [[table | ] | ];
    [apply H_load, Hw | exact H_unreadable | apply H_load, Hw].
Qed.

Lemma fp_budget_value (df : DataFrame) :
  good df -> preserves I (fun _ => True) allowed (lift (Frame.budget_value df)).
Proof.
  intros Hdf. apply preserves_lift. generalize (H_budget df Hdf).
  destruct (Frame.budget_value df); trivial.
Qed.

Lemma fp_status (df : DataFrame) :
  good df -> preserves I (fun _ => True) allowed (lift (compute_budget_status df)).
Proof.
  intros Hdf. apply preserves_lift.
  generalize (H_budget df Hdf) (compute_budget_status_raises df).
  destruct (Frame.budget_value df) as [b | e].
  - intros _ [st ->]. exact Logic.I.
  - intros He ->. exact He.
Qed.

Lemma fp_minus_one_day :
  preserves I (fun _ => True) allowed
    (lift (Date.minus_one_day (Date.replace_day (in_now i) 1))).
Proof.
  apply preserves_lift. generalize H_day.
  destruct (Date.minus_one_day _); trivial.
Qed.

Lemma fp_ensure (dt : datetime) :
  preserves I (fun _ => True) allowed (ensure_monthly_report_exists (in_name i) dt).
Proof.
  intros w Hw. unfold exec, outcome. rewrite ensure_monthly_report_exists_run.
  destruct (monthly_reports w !! report_file_path (in_name i) dt);
    [split; [exact Hw | exact Logic.I] | ].
  generalize (H_budget _ (H_load w Hw)).
  destruct (Frame.budget_value (ledger_of w (in_name i))) as [b | e].
  - intros _.
    destruct (0 <? b)%float; (split; [ | exact Logic.I]); [apply H_reports, Hw | exact Hw].
  - intros He. split; [exact Hw | ]. unfold load_error.
    destruct (user_data w !! user_csv_path (in_name i)) as [[table | ] | ];
      [exact He | exact H_unreadable | exact He].
Qed.

#[local] Hint Resolve fp_emit fp_report_append fp_report_write fp_marker_write fp_save
  fp_marker_read fp_report_exists fp_report_read fp_charts fp_load fp_budget_value
  fp_status fp_minus_one_day fp_ensure : footprint.

Ltac fp_step :=
  eapply preserves_bind; [solve [eauto with footprint] | intros; cbv beta in * ].

Ltac fp_walk :=
  repeat first
    [ progress (intros; cbv beta in * )
    | solve [eauto with footprint]
    | apply preserves_ret; first [exact Logic.I | assumption]
    | apply preserves_raise; assumption
    | match goal with
      | |- preserves _ _ _ (if ?b then _ else _) => destruct b
      | |- preserves _ _ _ (match ?x with _ => _ end) => destruct x
      end
    | apply (preserves_bind _ _ (fun _ => True)) ].

Lemma fp_finalize (df : DataFrame) (dt : datetime) :
  good df ->
  preserves I (fun _ => True) allowed (finalize_month_report (in_name i) df dt).
Proof. intros Hdf. unfold finalize_month_report. fp_walk. Qed.

Lemma fp_append_expense (category : string) (amount : float) (dt : datetime) :
  preserves I (fun _ => True) allowed
    (append_expense_to_report (in_name i) category amount dt).
Proof. unfold append_expense_to_report. fp_walk. Qed.

Lemma fp_show_budget_summary (df : DataFrame) :
  good df -> preserves I (fun _ => True) allowed (show_budget_summary df).
Proof. intros Hdf. unfold show_budget_summary. fp_walk. Qed.

#[local] Hint Resolve fp_finalize fp_append_expense fp_show_budget_summary : footprint.

Lemma fp_month_rollover (df : DataFrame) (marker : option string) :
  good df ->
  preserves I good allowed (month_rollover (in_name i) df (in_now i) marker).
Proof.
  intros Hdf. unfold month_rollover.
  destruct (rollover_due marker (month_key (in_now i)) (in_now i));
    [ | apply preserves_ret, Hdf].
  do 5 fp_step. apply preserves_ret. apply H_set, Hdf.
Qed.

#[local] Hint Resolve fp_month_rollover : footprint.

Lemma fp_month_handling :
  preserves I (fun r => good (fst r)) allowed (month_handling (in_name i) (in_now i)).
Proof.
  unfold month_handling. do 3 fp_step.
  apply (preserves_bind _ _ (fun _ => True)); [fp_walk | intros _ _].
  fp_step. apply preserves_ret. assumption.
Qed.

Lemma fp_new_user_screen (df : DataFrame) :
  good df -> preserves I good allowed (new_user_screen i df).
Proof.
  intros Hdf. unfold new_user_screen.
  destruct (pressed i Save_Budget); [ | apply preserves_ret, Hdf].
  do 4 fp_step. apply preserves_raise, H_rerun.
Qed.

Lemma fp_add_expense (df : DataFrame) :
  good df -> preserves I good allowed (add_expense i df).
Proof.
  intros Hdf. unfold add_expense. fp_step.
  destruct (pressed i Add_Expense_Button); [ | apply preserves_ret, Hdf].
  do 5 fp_step.
  match goal with
  | |- preserves _ _ _ (match ?st with _ => _ end) =>
      destruct st as [[[budget_val total_exp] remaining] perc]
  end.
  apply (preserves_bind _ _ (fun _ => True)); [fp_walk | intros _ _].
  fp_step. apply preserves_ret. apply H_add, Hdf.
Qed.

Lemma fp_modify_budget (df : DataFrame) :
  good df -> preserves I good allowed (modify_budget i df).
Proof.
  intros Hdf. unfold modify_budget. fp_step.
  destruct (pressed i Update_Budget); [ | apply preserves_ret, Hdf].
  do 2 fp_step.
  apply (preserves_bind _ _ (fun _ => True)); [fp_walk | intros _ _].
  do 2 fp_step. apply preserves_ret. apply H_set, Hdf.
Qed.

#[local] Hint Resolve fp_month_handling fp_new_user_screen fp_add_expense
  fp_modify_budget : footprint.

Lemma fp_existing_user_screen (df : DataFrame) :
  good df -> preserves I good allowed (existing_user_screen i df).
Proof.
  intros Hdf. unfold existing_user_screen.
  destruct (in_menu i); try solve [eauto with footprint];
    fp_step; apply preserves_ret, Hdf.
Qed.

#[local] Hint Resolve fp_existing_user_screen : footprint.

(** The rest of a run keeps [I]. *)
Lemma fp_run_registered (is_new_user : bool) :
  preserves I (fun _ => True) allowed (run_registered i is_new_user).
Proof.
  unfold run_registered.
  eapply preserves_bind; [apply fp_month_handling | intros [df budget_val] Hdf].
  simpl in Hdf.
  apply (preserves_bind _ _ good).
  - destruct (is_new_user && (budget_val =? 0)%float); eauto with footprint.
  - intros df' Hdf'. fp_walk.
Qed.

Hypothesis H_users :
  forall w, I w -> I (Fs.set_users (fun us => {[ in_name i ]} ∪ us) w).

(** A whole run keeps [I]. *)
Lemma fp_main : preserves I (fun _ => True) allowed (main i).
Proof.
  intros w Hw. unfold exec, outcome. rewrite main_run.
  destruct (String.eqb (in_name i) ""); [split; [exact Hw | exact Logic.I] | ].
  apply (preserves_bind I allowed (fun _ => True)); [ | intros b _; apply fp_run_registered | exact Hw].
  unfold register.
  apply (preserves_bind _ _ (fun _ => True)).
  - apply (preserves_reading _ _ _ users). reflexivity.
  - intros all_users _. destruct (bool_decide (in_name i ∈ all_users)).
    + apply preserves_ret. exact Logic.I.
    + apply (preserves_bind _ _ (fun _ => True)).
      * apply preserves_modify. exact H_users.
      * intros _ _. apply preserves_ret. exact Logic.I.
Qed.

End Footprint.

(* ===================================================================== *)
(** ** The users table                                                    *)
(* ===================================================================== *)

(** After the registration step nothing touches the users table. *)
Lemma run_registered_users (i : Input) (is_new_user : bool) (w : World) :
  users (exec (run_registered i is_new_user) w) = users w.
Proof.
  refine (proj1 (fp_run_registered i (fun w' => users w' = users w) (fun _ => True)
                   anything _ _ _ _ _ _ _ _ _ _ _ is_new_user w _));
    try reflexivity; try (intros; exact Logic.I); try (intros; assumption).
  - intros df _. destruct (Frame.budget_value df); exact Logic.I.
  - destruct (Date.minus_one_day _); exact Logic.I.
Qed.

(** X3. A run registers the name it is given, and only that name: after a
    run for a non-empty name the users table is the table before with the
    name added (the same table when the name was there), and a run for the
    empty name leaves the whole world as it is.  No user is ever removed. *)
Theorem X3_run_registers_name (i : Input) (w : World) :
  users (exec (main i) w)
  = (if String.eqb (in_name i) "" then users w else {[ in_name i ]} ∪ users w)
  /\ (String.eqb (in_name i) "" = true -> main i w = (Ok tt, w))
  /\ users w ⊆ users (exec (main i) w).
Proof.
  assert (Heq : users (exec (main i) w)
                = (if String.eqb (in_name i) "" then users w else {[ in_name i ]} ∪ users w)).
  { unfold exec. rewrite main_run.
    destruct (String.eqb (in_name i) ""); [reflexivity | ].
    unfold bind at 1, register, bind at 1, get_all_users, bind at 1, get, ret.
    destruct (bool_decide (in_name i ∈ users w)) eqn:E.
    - apply bool_decide_eq_true in E.
      change (users (exec (run_registered i false) w) = {[in_name i]} ∪ users w).
      rewrite run_registered_users. symmetry. apply subseteq_union_1_L.
      apply singleton_subseteq_l, E.
    - unfold bind at 1, add_user, modify. simpl.
      match goal with
      | |- users (snd (run_registered i true ?w1)) = _ =>
          change (users (exec (run_registered i true) w1) = {[in_name i]} ∪ users w)
      end.
      rewrite run_registered_users. reflexivity. }
  split; [exact Heq | split].
  - intros E. rewrite main_run, E. reflexivity.
  - rewrite Heq. destruct (String.eqb (in_name i) ""); [reflexivity | ].
    apply union_subseteq_r.
Qed.

(* ===================================================================== *)
(** ** What a run raises                                                  *)
(* ===================================================================== *)

Lemma budget_value_rows (df : DataFrame) :
  match Frame.budget_value df with
  | Ok _ => 0 < budget_rows df
  | Raise e => e = IndexError /\ budget_rows df = 0
  end.
Proof.
  unfold Frame.budget_value, Frame.loc_values, budget_rows.
  destruct (List.filter (Frame.cat_eq "Budget") df); simpl; [auto | lia].
Qed.

Lemma registered_ledger (name n : string) (w : World) :
  ledger_of (registered n w) name = ledger_of w name.
Proof.
  unfold registered. destruct (bool_decide (n ∈ users w)); [reflexivity | ].
  apply ledger_of_same_files. reflexivity.
Qed.

Lemma register_run (name : string) (w : World) :
  register name w = (Ok (negb (bool_decide (name ∈ users w))), registered name w).
Proof.
  unfold register, registered, bind at 1, get_all_users, bind at 1, get, ret.
  destruct (bool_decide (name ∈ users w)); reflexivity.
Qed.

(** Saving a ledger keeps its number of Budget rows in what is loaded. *)
Lemma saved_budget_rows (name : string) (df : DataFrame) (w : World) :
  budget_rows
    (ledger_of (Fs.set_user_data (insert (user_csv_path name) (to_csv df)) w) name)
  = budget_rows df.
Proof.
  rewrite (ledger_of_stored name _ (csv_rows df)) by (simpl; apply lookup_insert_eq).
  rewrite budget_rows_normalized. apply budget_rows_stored_to_csv.
Qed.

Lemma minus_one_day_overflow (dt : datetime) :
  match Date.minus_one_day (Date.replace_day dt 1) with
  | Ok _ => True
  | Raise e => rerun_or_overflow dt e
  end.
Proof.
  unfold Date.minus_one_day. simpl.
  destruct (1 <? Date.month dt)%nat; [exact Logic.I | ].
  destruct (1 <? Date.year dt)%nat eqn:E; [exact Logic.I | ].
  right. split; [reflexivity | ]. apply Nat.ltb_ge in E. exact E.
Qed.

Lemma registered_file (n : string) (w : World) :
  user_data (registered n w) = user_data w.
Proof. unfold registered. destruct (bool_decide (n ∈ users w)); reflexivity. Qed.

(** A run stops at the lookup of the budget when there is none to find, or
    before, at the load, when the file cannot be read: the name is
    registered and nothing else is written. *)
Lemma main_no_budget (i : Input) (w : World) (e : exn) :
  String.eqb (in_name i) "" = false ->
  Frame.budget_value (ledger_of w (in_name i)) = Raise e ->
  main i w = (Raise (load_error (in_name i) w e), registered (in_name i) w).
Proof.
  intros Hname Hb. rewrite main_run, Hname. unfold bind at 1. rewrite register_run.
  unfold run_registered, bind at 1, month_handling, bind at 1.
  rewrite load_user_data_run, registered_ledger, registered_file. unfold load_error.
  destruct (user_data w !! user_csv_path (in_name i)) as [[table | ] | ];
    try reflexivity;
    unfold bind at 1, Fs.marker_read, bind at 1, get, ret;
    unfold bind at 1, lift; rewrite Hb; reflexivity.
Qed.

(** X4. What a run for a non-empty name raises.  When the user's ledger
    file holds a table of Categories and Total without a Budget row, the
    run registers the name and then fails with [IndexError] before it
    writes anything else; when the file is without a byte in it, it fails
    in the same way with the [EmptyDataError] of [read_csv].  When the
    ledger has a Budget row, the run never fails with [IndexError] nor with
    [ZeroDivisionError], and it fails with [OverflowError] only with the
    clock in year 1. *)
Theorem X4_what_a_run_raises (i : Input) (w : World) :
  String.eqb (in_name i) "" = false ->
  (readable (in_name i) w -> budget_rows (ledger_of w (in_name i)) = 0 ->
   main i w = (Raise IndexError, registered (in_name i) w))
  /\ (user_data w !! user_csv_path (in_name i) = Some Empty_file ->
      main i w = (Raise EmptyDataError, registered (in_name i) w))
  /\ (0 < budget_rows (ledger_of w (in_name i)) ->
      outcome (main i) w <> Raise IndexError
      /\ outcome (main i) w <> Raise ZeroDivisionError
      /\ (outcome (main i) w = Raise OverflowError -> Date.year (in_now i) <= 1)).
Proof.
  intros Hname. split; [ | split].
  - intros Hread Hrows.
    generalize (budget_value_rows (ledger_of w (in_name i))).
    destruct (Frame.budget_value (ledger_of w (in_name i))) as [b | e] eqn:Hb.
    + intros H. lia.
    + intros [-> _]. rewrite (main_no_budget i w IndexError Hname Hb).
      unfold load_error. unfold readable in Hread.
      destruct (user_data w !! user_csv_path (in_name i)) as [[table | ] | ];
        [reflexivity | destruct (Hread eq_refl) | reflexivity].
  - intros Hfile.
    assert (Hb : Frame.budget_value (ledger_of w (in_name i)) = Raise IndexError)
      by (rewrite (ledger_of_empty_file _ w Hfile); reflexivity).
    rewrite (main_no_budget i w IndexError Hname Hb). unfold load_error.
    rewrite Hfile. reflexivity.
  - intros Hrows.
    assert (H : match outcome (main i) w with
                | Ok _ => True
                | Raise e => rerun_or_overflow (in_now i) e \/ e = EmptyDataError
                end).
    { refine (proj2 (fp_main i (fun w' => 0 < budget_rows (ledger_of w' (in_name i)))
                       (fun df => 0 < budget_rows df)
                       (fun e => rerun_or_overflow (in_now i) e \/ e = EmptyDataError)
                       _ _ _ _ _ _ _ _ _ _ _ _ w Hrows)).
      + intros f w' H. rewrite (ledger_of_same_files _ w') by reflexivity. exact H.
      + intros f w' H. rewrite (ledger_of_same_files _ w') by reflexivity. exact H.
      + intros w' H. rewrite (ledger_of_same_files _ w') by reflexivity. exact H.
      + intros df w' Hdf _. rewrite saved_budget_rows. exact Hdf.
      + intros w' H. exact H.
      + intros mask v df H. rewrite budget_rows_loc_set. exact H.
      + intros mask v df H. rewrite budget_rows_loc_add. exact H.
      + intros df Hdf. generalize (budget_value_rows df).
        destruct (Frame.budget_value df); [trivial | intros [_ H]; lia].
      + left. left. reflexivity.
      + right. reflexivity.
      + generalize (minus_one_day_overflow (in_now i)).
        destruct (Date.minus_one_day _); [trivial | intros H; left; exact H].
      + intros w' H. rewrite (ledger_of_same_files _ w') by reflexivity. exact H. }
    destruct (outcome (main i) w) as [u | e]; [repeat split; discriminate | ].
    destruct H as [[-> | [-> Hy]] | ->]; repeat split; try discriminate.
    intros _. exact Hy.
Qed.

Lemma X4_what_a_run_raises_witness :
  main (look_at_summary "asha" dec_1)
    (Fs.set_user_data (insert (user_csv_path "asha") (Csv [("Food", Number 5)])) empty_world)
  = (Raise IndexError,
     registered "asha"
       (Fs.set_user_data (insert (user_csv_path "asha") (Csv [("Food", Number 5)]))
          empty_world)).
Proof.
  assert (Hr : readable "asha"
                 (Fs.set_user_data (insert (user_csv_path "asha") (Csv [("Food", Number 5)]))
                    empty_world)) by (vm_compute; discriminate).
  exact (proj1 (X4_what_a_run_raises (look_at_summary "asha" dec_1)
                  (Fs.set_user_data (insert (user_csv_path "asha") (Csv [("Food", Number 5)]))
                     empty_world) eq_refl) Hr eq_refl).
Defined.

(* ===================================================================== *)
(** ** What every reachable world keeps                                   *)
(* ===================================================================== *)

Lemma to_csv_categories (df : DataFrame) :
  List.map fst (csv_rows df) = List.map Categories df.
Proof. unfold csv_rows. rewrite List.map_map. reflexivity. Qed.

Lemma ledger_of_categories (w : World) (name : string) :
  fresh_rows_each w -> List.map Categories (ledger_of w name) = CATEGORIES.
Proof.
  intros Hw. destruct (user_data w !! user_csv_path name) as [file | ] eqn:E.
  - destruct (Hw _ _ E) as (table & -> & Hrows).
    rewrite (ledger_of_stored name w table E), List.map_map. simpl. exact Hrows.
  - rewrite (ledger_of_missing name w E). reflexivity.
Qed.

Lemma main_keeps_rows (i : Input) (w : World) :
  fresh_rows_each w -> fresh_rows_each (exec (main i) w).
Proof.
  intros Hw.
  refine (proj1 (fp_main i fresh_rows_each (fun df => List.map Categories df = CATEGORIES)
                   anything _ _ _ _ _ _ _ _ _ _ _ _ w Hw)).
  - intros f w' H. exact H.
  - intros f w' H. exact H.
  - intros w' H. exact H.
  - intros df w' Hdf H path file. simpl.
    destruct (decide (user_csv_path (in_name i) = path)) as [<- | Hne].
    + rewrite lookup_insert_eq. intros [= <-]. exists (csv_rows df).
      split; [reflexivity | ]. rewrite to_csv_categories. exact Hdf.
    + rewrite lookup_insert_ne by exact Hne. apply H.
  - intros w' H. apply ledger_of_categories, H.
  - intros mask v df H. rewrite loc_set_categories. exact H.
  - intros mask v df H. rewrite loc_add_categories. exact H.
  - intros df _. destruct (Frame.budget_value df); exact Logic.I.
  - exact Logic.I.
  - exact Logic.I.
  - destruct (Date.minus_one_day _); exact Logic.I.
  - intros w' H. exact H.
Qed.

Lemma main_keeps_month_keys (i : Input) (w : World) :
  month_key_each w -> month_key_each (exec (main i) w).
Proof.
  intros Hw.
  refine (proj1 (fp_main i month_key_each (fun _ => True) anything
                   _ _ _ _ _ _ _ _ _ _ _ _ w Hw)); try (intros; exact Logic.I).
  - intros f w' H. exact H.
  - intros f w' H. exact H.
  - intros w' H path content. simpl.
    destruct (decide (reset_file_path (in_name i) = path)) as [<- | Hne].
    + rewrite lookup_insert_eq. intros [= <-]. eauto.
    + rewrite lookup_insert_ne by exact Hne. apply H.
  - intros df w' _ H. exact H.
  - intros df _. destruct (Frame.budget_value df); exact Logic.I.
  - destruct (Date.minus_one_day _); exact Logic.I.
  - intros w' H. exact H.
Qed.

(** X5. In every world the script can bring about, each ledger file, and
    the ledger loaded for any user, has exactly the rows Food, Travel,
    Loans, Entertainment, Shopping, Others, Budget, in this order: no run
    adds, removes, renames or reorders a row.  The categories offered for
    an expense are therefore always the first six. *)
Theorem X5_rows_never_change (w : World) :
  reachable w ->
  fresh_rows_each w
  /\ forall name,
       List.map Categories (ledger_of w name)
       = ["Food"; "Travel"; "Loans"; "Entertainment"; "Shopping"; "Others"; "Budget"]
       /\ List.map Categories (Frame.select (Frame.cat_ne "Budget") (ledger_of w name))
          = ["Food"; "Travel"; "Loans"; "Entertainment"; "Shopping"; "Others"].
Proof.
  intros Hreach.
  assert (Hw : fresh_rows_each w).
  { induction Hreach as [ | w i _ IH].
    - intros path table H. simpl in H. rewrite lookup_empty in H. discriminate H.
    - apply main_keeps_rows. exact IH. }
  split; [exact Hw | ]. intros name.
  assert (Hcats := ledger_of_categories w name Hw). split; [exact Hcats | ].
  revert Hcats. generalize (ledger_of w name). intros df.
  destruct df as [ | r1 [ | r2 [ | r3 [ | r4 [ | r5 [ | r6 [ | r7 [ | r8 df]]]]]]]];
    try discriminate.
  intros [= H1 H2 H3 H4 H5 H6 H7]. unfold Frame.select, Frame.cat_ne. simpl.
  rewrite H1, H2, H3, H4, H5, H6, H7. simpl. congruence.
Qed.

Lemma X5_rows_never_change_witness :
  List.map Categories
    (ledger_of (exec (main add_food_850) (Fs.set_screen (fun _ => []) empty_world)) "asha")
  = ["Food"; "Travel"; "Loans"; "Entertainment"; "Shopping"; "Others"; "Budget"].
Proof.
  exact (proj1 (proj2 (X5_rows_never_change _
                         (reachable_run empty_world add_food_850 reachable_start)) "asha")).
Defined.

(** X6. In every world the script can bring about, each rollover marker
    file holds the month key, year and month, of the clock of some run;
    reading it with [strip] gives its content unchanged. *)
Theorem X6_markers_hold_month_keys (w : World) :
  reachable w ->
  forall name content,
    last_reset w !! reset_file_path name = Some content ->
    (exists dt, content = Date.strftime "%Y-%m" dt)
    /\ stored_month_key w name = Some content.
Proof.
  intros Hreach.
  assert (Hw : month_key_each w).
  { induction Hreach as [ | w i _ IH].
    - intros path content H. simpl in H. rewrite lookup_empty in H. discriminate H.
    - apply main_keeps_month_keys. exact IH. }
  intros name content H. destruct (Hw _ _ H) as [dt ->].
  split; [exists dt; reflexivity | ].
  unfold stored_month_key. rewrite H. simpl. rewrite strip_month_key. reflexivity.
Qed.

Lemma X6_markers_hold_month_keys_witness :
  stored_month_key
    (exec (main (look_at_summary "asha" dec_1)) (Fs.set_screen (fun _ => []) empty_world))
    "asha"
  = Some "2025-12".
Proof.
  exact (proj2 (X6_markers_hold_month_keys _
                  (reachable_run empty_world (look_at_summary "asha" dec_1) reachable_start)
                  "asha" "2025-12" eq_refl)).
Defined.

(* ===================================================================== *)
(** ** The report of the month and the report of the month before         *)
(* ===================================================================== *)

Lemma append_cancel_l (a x y : string) : a +:+ x = a +:+ y -> x = y.
Proof.
  induction a as [ | c a IH]; intros H; [exact H | ].
  apply IH. change (String c (a +:+ x) = String c (a +:+ y)) in H. congruence.
Qed.

Lemma month_label_parts (dt : datetime) :
  month_label dt
  = Date.month_name (Date.month dt)
    +:+ String "_" (Text.zpad 4 (N.of_nat (Date.year dt)) +:+ "").
Proof. reflexivity. Qed.

Lemma month_name_differs (m : nat) (s1 s2 : string) :
  1 <= m <= 12 ->
  Date.month_name (if (1 <? m)%nat then m - 1 else 12) +:+ String "_" s1
  <> Date.month_name m +:+ String "_" s2.
Proof.
  intros Hm H.
  apply (f_equal (String.substring 0 3)) in H.
  do 13 (destruct m as [ | m]; [try lia; try (lazy in H; discriminate H) | ]).
  lia.
Qed.

Lemma path_join_same_name (folder name f1 f2 : string) :
  Fs.path_join folder (name +:+ f1) = Fs.path_join folder (name +:+ f2) ->
  (name = "" -> String.prefix "/" f1 = String.prefix "/" f2) ->
  f1 = f2.
Proof.
  unfold Fs.path_join. intros H Hempty.
  assert (Hp : String.prefix "/" (name +:+ f1) = String.prefix "/" (name +:+ f2)).
  { destruct name as [ | c n]; [apply Hempty; reflexivity | ].
    change (String.prefix "/" (String c (n +:+ f1))
            = String.prefix "/" (String c (n +:+ f2))).
    rewrite !prefix_cons. destruct (ascii_dec "/" c); [ | reflexivity].
    destruct (n +:+ f1), (n +:+ f2); reflexivity. }
  rewrite Hp in H. destruct (String.prefix "/" (name +:+ f2)).
  - apply append_cancel_l in H. exact H.
  - apply append_cancel_l in H. apply append_cancel_l in H.
    apply append_cancel_l in H. exact H.
Qed.

Lemma previous_report_differs (name : string) (dt prev : datetime) :
  1 <= Date.month dt <= 12 ->
  Date.minus_one_day (Date.replace_day dt 1) = Ok prev ->
  report_file_path name prev <> report_file_path name dt.
Proof.
  intros Hm Hprev H. unfold report_file_path in H.
  apply path_join_same_name in H; [ | reflexivity].
  injection H as H. rewrite !month_label_parts in H.
  rewrite !TextFacts.append_assoc in H.
  assert (Hpm : Date.month prev = if (1 <? Date.month dt)%nat then Date.month dt - 1 else 12).
  { revert Hprev. unfold Date.minus_one_day. simpl.
    destruct (1 <? Date.month dt)%nat; [intros [= <-]; reflexivity | ].
    destruct (1 <? Date.year dt)%nat; [intros [= <-]; reflexivity | discriminate]. }
  rewrite Hpm in H.
  change (?a +:+ String "_" ?b +:+ ?c) with (a +:+ String "_" (b +:+ c)) in H.
  exact (month_name_differs _ _ _ Hm H).
Qed.

(** X7. The month rollover never writes into the report of the month that
    starts: for a valid month, the report of the day before the first has
    another path than the report of the month, so that after month handling
    the report of the month is what [ensure_monthly_report_exists] left
    there; when there was none it is the three header lines for a budget
    above 0 and still missing otherwise, with or without a rollover. *)
Theorem X7_rollover_spares_the_new_month (w : World) (name : string) (dt : datetime)
    (budget : float) :
  1 <= Date.month dt <= 12 ->
  Frame.budget_value (ledger_of w name) = Ok budget ->
  let rpt := report_file_path name dt in
  let w' := exec (month_handling name dt) w in
  (forall prev, Date.minus_one_day (Date.replace_day dt 1) = Ok prev ->
     report_file_path name prev <> rpt)
  /\ monthly_reports w' !! rpt = monthly_reports (before_rollover name dt budget w) !! rpt
  /\ (monthly_reports w !! rpt = None ->
      monthly_reports w' !! rpt
      = if (0 <? budget)%float
        then Some (report_title name dt +:+ report_budget_line budget +:+ report_columns)
        else None).
Proof.
  intros Hm Hb rpt w'.
  assert (Hdiff : forall prev, Date.minus_one_day (Date.replace_day dt 1) = Ok prev ->
                    report_file_path name prev <> rpt)
    by (intros prev Hprev; exact (previous_report_differs name dt prev Hm Hprev)).
  assert (Hsame : monthly_reports w' !! rpt
                  = monthly_reports (before_rollover name dt budget w) !! rpt).
  { subst w'. unfold exec. rewrite (month_handling_run name dt w budget Hb).
    destruct (rollover_due (stored_month_key w name) (month_key dt) dt) eqn:Hdue.
    - destruct (Date.minus_one_day (Date.replace_day dt 1)) as [prev | e] eqn:Hprev.
      + assert (Hst := compute_budget_status_ok _ _ Hb).
        rewrite (month_rollover_due name _ dt prev _ _ _ _ _ _ Hdue Hprev Hst). simpl.
        apply lookup_insert_ne. exact (previous_report_differs name dt prev Hm Hprev).
      + unfold month_rollover. rewrite Hdue. unfold bind at 1, lift. rewrite Hprev.
        reflexivity.
    - rewrite (month_rollover_not_due name _ dt _ _ Hdue). reflexivity. }
  split; [exact Hdiff | split; [exact Hsame | ]].
  intros Hnone. rewrite Hsame. unfold before_rollover.
  destruct (0 <? budget)%float eqn:Hpos; [ | exact Hnone].
  unfold exec. rewrite ensure_monthly_report_exists_run. fold rpt. rewrite Hnone, Hb, Hpos.
  simpl. apply lookup_insert_eq.
Qed.

Lemma X7_rollover_spares_the_new_month_witness :
  monthly_reports (exec (month_handling "asha" dec_1) world_end_of_november)
    !! report_file_path "asha" dec_1
  = Some (report_title "asha" dec_1 +:+ report_budget_line 1000 +:+ report_columns).
Proof.
  exact (proj2 (proj2 (X7_rollover_spares_the_new_month world_end_of_november "asha" dec_1
                         1000%float ltac:(simpl; lia) eq_refl)) eq_refl).
Defined.

(* ===================================================================== *)
(** ** The welcome screen                                                 *)
(* ===================================================================== *)

Lemma main_users (i : Input) (w : World) :
  String.eqb (in_name i) "" = false ->
  users (exec (main i) w) = {[ in_name i ]} ∪ users w.
Proof.
  intros Hname. unfold exec. rewrite main_run, Hname.
  unfold bind at 1. rewrite register_run.
  match goal with
  | |- users (snd (run_registered i ?b ?w1)) = _ =>
      change (users (exec (run_registered i b) w1) = {[in_name i]} ∪ users w)
  end.
  rewrite run_registered_users. unfold registered.
  destruct (bool_decide (in_name i ∈ users w)) eqn:E; [ | reflexivity].
  apply bool_decide_eq_true in E. symmetry. apply subseteq_union_1_L.
  apply singleton_subseteq_l, E.
Qed.

Lemma bind_ext {A B : Type} (c : M A) (k k' : A -> M B) (w : World) :
  (forall a w', k a w' = k' a w') -> bind c k w = bind c k' w.
Proof. intros H. unfold bind. destruct (c w) as [[a | e] w']; [apply H | reflexivity]. Qed.

Lemma save_budget_ignored (i : Input) (w : World) :
  in_name i ∈ users w ->
  main (click (Some Save_Budget) i) w = main (click None i) w.
Proof.
  intros Hin. rewrite !main_run. simpl.
  destruct (String.eqb (in_name i) ""); [reflexivity | ].
  unfold bind. rewrite register_run. rewrite bool_decide_eq_true_2 by exact Hin.
  simpl. unfold run_registered. simpl.
  apply bind_ext. intros [df b] w'.
  unfold existing_user_screen. simpl.
  destruct (in_menu i); reflexivity.
Qed.

(** X8. The "Save Budget" button acts in the first run of a name only:
    once any run has been made for a name, the name is registered, the
    welcome screen is not shown again, and a run with "Save Budget" clicked
    does exactly what the same run without a click does. *)
Theorem X8_save_budget_only_for_a_new_name (i j : Input) (w : World) :
  String.eqb (in_name i) "" = false ->
  in_name j = in_name i ->
  let w' := exec (main j) w in
  in_name i ∈ users w'
  /\ main (click (Some Save_Budget) i) w' = main (click None i) w'.
Proof.
  intros Hname Hj w'.
  assert (Hin : in_name i ∈ users w').
  { subst w'. rewrite main_users by (rewrite Hj; exact Hname).
    rewrite Hj. apply elem_of_union_l, elem_of_singleton. reflexivity. }
  split; [exact Hin | apply save_budget_ignored, Hin].
Qed.

(* ===================================================================== *)
(** ** Runs without a click                                               *)
(* ===================================================================== *)

Lemma same_disk_refl (w : World) : same_disk w w.
Proof. repeat split. Qed.

Lemma same_disk_screen (f : list Msg -> list Msg) (w : World) :
  same_disk (Fs.set_screen f w) w.
Proof. repeat split. Qed.

Lemma same_disk_trans (w1 w2 w3 : World) :
  same_disk w1 w2 -> same_disk w2 w3 -> same_disk w1 w3.
Proof.
  intros (A1 & A2 & A3 & A4) (B1 & B2 & B3 & B4).
  repeat split; congruence.
Qed.

Lemma settled_ensure (name : string) (dt : datetime) (w : World) (b : float) :
  Frame.budget_value (ledger_of w name) = Ok b -> settled name dt w ->
  ensure_monthly_report_exists name dt w = (Ok (report_file_path name dt), w).
Proof.
  intros Hb Hs. rewrite ensure_monthly_report_exists_run.
  destruct (monthly_reports w !! report_file_path name dt) eqn:E; [reflexivity | ].
  destruct Hs as [[c Hc] | (b' & Hb' & Hpos)]; [congruence | ].
  rewrite Hb'. rewrite Hpos. reflexivity.
Qed.

Lemma settled_same_disk (name : string) (dt : datetime) (w1 w2 : World) :
  same_disk w1 w2 -> settled name dt w2 -> settled name dt w1.
Proof.
  intros (Hd & Hr & _ & _) [Hs | (b & Hb & Hpos)].
  - left. rewrite Hr. exact Hs.
  - right. exists b. rewrite (ledger_of_same_files w1 w2 name Hd). auto.
Qed.

Lemma before_rollover_settled (name : string) (dt : datetime) (w : World) (b : float) :
  Frame.budget_value (ledger_of w name) = Ok b ->
  settled name dt (before_rollover name dt b w).
Proof.
  intros Hb. unfold before_rollover.
  destruct (0 <? b)%float eqn:Hpos.
  - left. apply (ensure_report_there name dt w b Hb Hpos).
  - right. eauto.
Qed.

Lemma before_rollover_fixed (name : string) (dt : datetime) (w : World) (b : float) :
  Frame.budget_value (ledger_of w name) = Ok b ->
  settled name dt w -> before_rollover name dt b w = w.
Proof.
  intros Hb Hs. unfold before_rollover. destruct (0 <? b)%float; [ | reflexivity].
  unfold exec. rewrite (settled_ensure name dt w b Hb Hs). reflexivity.
Qed.

Lemma registered_fixed (name : string) (w : World) :
  name ∈ users w -> registered name w = w.
Proof. intros H. unfold registered. rewrite bool_decide_eq_true_2 by exact H. reflexivity. Qed.

Lemma registered_same_disk (name : string) (w : World) :
  user_data (registered name w) = user_data w
  /\ monthly_reports (registered name w) = monthly_reports w
  /\ last_reset (registered name w) = last_reset w
  /\ name ∈ users (registered name w).
Proof.
  unfold registered. destruct (bool_decide (name ∈ users w)) eqn:E.
  - apply bool_decide_eq_true in E. auto.
  - simpl. repeat split. apply elem_of_union_l, elem_of_singleton. reflexivity.
Qed.

Lemma pressed_none (i : Input) (b : Button) : in_clicked i = None -> pressed i b = false.
Proof. intros H. unfold pressed. rewrite H. reflexivity. Qed.

(** The screens when nothing is clicked: the ledger comes back as it was
    and nothing on disk changes. *)
Lemma screen_without_click (i : Input) (df : DataFrame) (b : float) (new : bool) (w : World) :
  in_clicked i = None ->
  Frame.budget_value df = Ok b ->
  Frame.budget_value (ledger_of w (in_name i)) = Ok b ->
  settled (in_name i) (in_now i) w ->
  outcome (if new then new_user_screen i df else existing_user_screen i df) w = Ok df
  /\ same_disk (exec (if new then new_user_screen i df else existing_user_screen i df) w) w.
Proof.
  intros Hc Hb Hl Hs. unfold outcome, exec. destruct new.
  - unfold new_user_screen. rewrite (pressed_none i _ Hc). split; [reflexivity | apply same_disk_refl].
  - unfold existing_user_screen. destruct (in_menu i).
    + unfold bind. rewrite (show_budget_summary_run df _ _ _ _ w (compute_budget_status_ok df b Hb)).
      split; [reflexivity | apply same_disk_screen].
    + unfold add_expense. rewrite (pressed_none i _ Hc).
      split; [reflexivity | apply same_disk_screen].
    + unfold modify_budget, bind, lift. rewrite Hb. rewrite (pressed_none i _ Hc).
      split; [reflexivity | apply same_disk_refl].
    + unfold bind. rewrite (settled_ensure _ _ w b Hl Hs).
      split; [reflexivity | apply same_disk_refl].
    + split; [reflexivity | apply same_disk_refl].
Qed.

Lemma stored_month_key_same (w1 w2 : World) (name : string) :
  last_reset w1 = last_reset w2 -> stored_month_key w1 name = stored_month_key w2 name.
Proof. intros H. unfold stored_month_key. rewrite H. reflexivity. Qed.

(** What month handling leaves behind, for a ledger with a Budget row. *)
Lemma month_handling_result (name : string) (dt : datetime) (w : World) (b : float) :
  Frame.budget_value (ledger_of w name) = Ok b ->
  let wm := exec (month_handling name dt) w in
  settled name dt wm
  /\ Frame.budget_value (ledger_of wm name) = Ok b
  /\ users wm = users w
  /\ match outcome (month_handling name dt) w with
     | Ok (df, b') =>
         b' = b /\ Frame.budget_value df = Ok b
         /\ rollover_due (stored_month_key wm name) (month_key dt) dt = false
     | Raise e =>
         rollover_due (stored_month_key wm name) (month_key dt) dt = true
         /\ Date.minus_one_day (Date.replace_day dt 1) = Raise e
     end.
Proof.
  intros Hb wm. subst wm.
  destruct (before_rollover_frame name dt b w) as (Hdata & Hreset & Husers & _).
  assert (Hsettled := before_rollover_settled name dt w b Hb).
  assert (Hledger : ledger_of (before_rollover name dt b w) name = ledger_of w name)
    by (apply ledger_of_same_files, Hdata).
  assert (Hkey : stored_month_key (before_rollover name dt b w) name = stored_month_key w name)
    by (apply stored_month_key_same, Hreset).
  unfold exec, outcome. rewrite (month_handling_run name dt w b Hb).
  destruct (rollover_due (stored_month_key w name) (month_key dt) dt) eqn:Hdue.
  - destruct (Date.minus_one_day (Date.replace_day dt 1)) as [prev | e] eqn:Hprev.
    + assert (Hst := compute_budget_status_ok _ _ Hb).
      rewrite (month_rollover_due name _ dt prev _ _ _ _ _ _ Hdue Hprev Hst).
      set (df' := Frame.loc_set (Frame.cat_ne "Budget") 0%float (ledger_of w name)).
      assert (Hnum : numeric df')
        by (apply numeric_loc_set; [reflexivity | apply ledger_of_numeric]).
      assert (Hb' : Frame.budget_value df' = Ok b)
        by (subst df'; rewrite reset_keeps_budget_value; exact Hb).
      match goal with |- context [(Ok (df', b), ?x)] => set (w' := x) end.
      assert (Hl' : ledger_of w' name = df')
        by (apply ledger_of_saved; [subst w'; simpl; apply lookup_insert_eq | exact Hnum]).
      simpl. rewrite Hl'. repeat split; try assumption.
      * destruct Hsettled as [Hthere | (b0 & Hb0 & Hpos)].
        -- left. subst w'. simpl. apply lookup_insert_is_Some'. right. exact Hthere.
        -- right. exists b. rewrite Hl'. split; [exact Hb' | ].
           rewrite Hledger, Hb in Hb0. congruence.
      * unfold rollover_due, stored_month_key. subst w'. simpl.
        rewrite lookup_insert_eq. simpl. rewrite strip_month_key.
        rewrite bool_decide_eq_true_2; reflexivity.
    + unfold month_rollover. rewrite Hdue. unfold bind at 1, lift. rewrite Hprev. simpl.
      rewrite Hledger, Hkey. auto 10.
  - rewrite (month_rollover_not_due name _ dt _ _ Hdue). simpl.
    rewrite Hledger, Hkey. auto 10.
Qed.

(** Month handling on a disk it has left: nothing to do. *)
Lemma month_handling_again (name : string) (dt : datetime) (w w1 : World) (b : float) :
  Frame.budget_value (ledger_of w name) = Ok b ->
  same_disk w1 (exec (month_handling name dt) w) ->
  month_handling name dt w1
  = match outcome (month_handling name dt) w with
    | Ok _ => (Ok (ledger_of w1 name, b), w1)
    | Raise e => (Raise e, w1)
    end.
Proof.
  intros Hb Hsame.
  destruct (month_handling_result name dt w b Hb) as (Hs & Hb1 & _ & Hout).
  assert (Hs1 := settled_same_disk name dt w1 _ Hsame Hs).
  destruct Hsame as (Hdata & _ & Hreset & _).
  rewrite <- (ledger_of_same_files w1 _ name Hdata) in Hb1.
  rewrite <- (stored_month_key_same w1 _ name Hreset) in Hout.
  rewrite (month_handling_run name dt w1 b Hb1).
  rewrite (before_rollover_fixed name dt w1 b Hb1 Hs1).
  destruct (outcome (month_handling name dt) w) as [[df b'] | e].
  - destruct Hout as (_ & _ & Hdue). rewrite (month_rollover_not_due _ _ _ _ _ Hdue). reflexivity.
  - destruct Hout as (Hdue & Hprev). unfold month_rollover. rewrite Hdue.
    unfold bind at 1, lift. rewrite Hprev. reflexivity.
Qed.

(** A run without a click is month handling, then a screen that changes
    nothing on disk. *)
Lemma look_is_month_handling (i : Input) (w : World) (b : float) :
  in_clicked i = None ->
  String.eqb (in_name i) "" = false ->
  Frame.budget_value (ledger_of w (in_name i)) = Ok b ->
  let w0 := registered (in_name i) w in
  same_disk (exec (main i) w) (exec (month_handling (in_name i) (in_now i)) w0)
  /\ outcome (main i) w
     = match outcome (month_handling (in_name i) (in_now i)) w0 with
       | Ok _ => Ok tt
       | Raise e => Raise e
       end.
Proof.
  intros Hc Hname Hb w0.
  assert (Hb0 : Frame.budget_value (ledger_of w0 (in_name i)) = Ok b)
    by (subst w0; rewrite registered_ledger; exact Hb).
  destruct (month_handling_result _ (in_now i) w0 b Hb0) as (Hs & Hb1 & _ & Hout).
  unfold exec, outcome in *.
  destruct (main i w) as [o w1] eqn:Hm.
  rewrite main_run, Hname in Hm. unfold bind at 1 in Hm. rewrite register_run in Hm.
  fold w0 in Hm. unfold run_registered, bind at 1 in Hm.
  destruct (month_handling (in_name i) (in_now i) w0) as [[[df b'] | e] wm]; simpl in *.
  - destruct Hout as (-> & Hdf & _).
    destruct (screen_without_click i df b
                (negb (bool_decide (in_name i ∈ users w)) && (b =? 0)%float) wm
                Hc Hdf Hb1 Hs) as [Ho He].
    unfold outcome, exec in Ho, He. unfold bind at 1 in Hm.
    destruct ((if negb (bool_decide (in_name i ∈ users w)) && (b =? 0)%float
               then new_user_screen i df else existing_user_screen i df) wm)
      as [[df2 | e2] w2]; simpl in *; [ | discriminate].
    rewrite (pressed_none i _ Hc) in Hm. injection Hm as <- <-. auto.
  - injection Hm as <- <-. split; [apply same_disk_refl | reflexivity].
Qed.

(** X9. Looking is idempotent: when a run without a click is made again
    with the same input, the second run changes no file and no user, and
    it ends as the first one did (it returns, or raises the same
    exception), whatever the menu entry and whether or not the first run
    registered the name, created the report or rolled the month over. *)
Theorem X9_looking_twice (i : Input) (w : World) :
  in_clicked i = None ->
  let w1 := exec (main i) w in
  same_disk (exec (main i) w1) w1
  /\ outcome (main i) w1 = outcome (main i) w.
Proof.
  intros Hc w1.
  destruct (String.eqb (in_name i) "") eqn:Hname.
  { assert (H : forall w', main i w' = (Ok tt, w'))
      by (intros w'; rewrite main_run, Hname; reflexivity).
    subst w1. unfold exec, outcome. rewrite !H. simpl.
    split; [apply same_disk_refl | reflexivity]. }
  destruct (registered_same_disk (in_name i) w) as (Rd & Rr & Rm & Ru).
  destruct (Frame.budget_value (ledger_of w (in_name i))) as [b | e] eqn:Hb.
  - destruct (look_is_month_handling i w b Hc Hname Hb) as [Hsame Hout]. fold w1 in Hsame.
    assert (Hb0 : Frame.budget_value (ledger_of (registered (in_name i) w) (in_name i)) = Ok b)
      by (rewrite registered_ledger; exact Hb).
    destruct (month_handling_result _ (in_now i) _ b Hb0) as (_ & Hbm & Hum & _).
    assert (Hb1 : Frame.budget_value (ledger_of w1 (in_name i)) = Ok b)
      by (rewrite (ledger_of_same_files w1 _ _ (proj1 Hsame)); exact Hbm).
    assert (Hin : in_name i ∈ users w1).
    { destruct Hsame as (_ & _ & _ & Hu). rewrite Hu, Hum. exact Ru. }
    destruct (look_is_month_handling i w1 b Hc Hname Hb1) as [Hsame2 Hout2].
    rewrite (registered_fixed _ _ Hin) in Hsame2, Hout2.
    assert (Hagain := month_handling_again _ (in_now i) _ w1 b Hb0 Hsame).
    unfold exec, outcome in Hsame2, Hout2. rewrite Hagain in Hsame2, Hout2.
    unfold exec, outcome. unfold outcome in Hout. rewrite Hout.
    unfold outcome in Hout2. rewrite Hout2. clear Hagain Hout Hout2.
    unfold outcome in Hsame2.
    destruct (month_handling (in_name i) (in_now i) (registered (in_name i) w)) as [[h | e] wm];
      simpl in *; auto.
  - set (e' := load_error (in_name i) w e).
    assert (H1 : main i w = (Raise e', registered (in_name i) w))
      by (apply main_no_budget; assumption).
    assert (Hw1 : w1 = registered (in_name i) w) by (subst w1; unfold exec; rewrite H1; reflexivity).
    assert (H2 : main i w1 = (Raise e', w1)).
    { rewrite (main_no_budget i w1 e Hname).
      - rewrite registered_fixed by (rewrite Hw1; exact Ru).
        subst e'. unfold load_error. rewrite Hw1, registered_file. reflexivity.
      - rewrite Hw1, registered_ledger. exact Hb. }
    unfold exec, outcome. rewrite H2. fold (exec (main i) w). fold w1. rewrite H1.
    split; [apply same_disk_refl | reflexivity].
Qed.

Lemma X9_looking_twice_witness :
  same_disk
    (exec (main (look_at_summary "asha" dec_1))
       (exec (main (look_at_summary "asha" dec_1)) world_end_of_november))
    (exec (main (look_at_summary "asha" dec_1)) world_end_of_november)
  /\ outcome (main (look_at_summary "asha" dec_1))
       (exec (main (look_at_summary "asha" dec_1)) world_end_of_november)
     = outcome (main (look_at_summary "asha" dec_1)) world_end_of_november.
Proof.
  exact (X9_looking_twice (look_at_summary "asha" dec_1) world_end_of_november eq_refl).
Defined.

Lemma X8_save_budget_only_for_a_new_name_witness :
  "asha" ∈ users (exec (main (look_at_summary "asha" dec_1)) empty_world)
  /\ main (click (Some Save_Budget) (look_at_summary "asha" dec_1))
       (exec (main (look_at_summary "asha" dec_1)) empty_world)
     = main (click None (look_at_summary "asha" dec_1))
         (exec (main (look_at_summary "asha" dec_1)) empty_world).
Proof.
  exact (X8_save_budget_only_for_a_new_name (look_at_summary "asha" dec_1)
           (look_at_summary "asha" dec_1) empty_world eq_refl eq_refl).
Defined.

(* ===================================================================== *)
(** ** Adding an expense                                                  *)
(* ===================================================================== *)

Lemma selectbox_in (options : list string) (choice : nat) (c : string) :
  selectbox options choice = Some c -> In c options.
Proof.
  unfold selectbox. destruct (options !! choice) as [c' | ] eqn:E.
  - intros [= <-]. apply list_elem_of_In. apply (list_elem_of_lookup_2 _ _ _ E).
  - destruct options as [ | c' rest]; [discriminate | ]. intros [= <-]. left. reflexivity.
Qed.

Lemma selectbox_none (options : list string) (choice : nat) :
  selectbox options choice = None -> options = [].
Proof.
  unfold selectbox. destruct (options !! choice); [discriminate | ].
  destruct options; [reflexivity | discriminate].
Qed.

(** The category of an expense is never "Budget". *)
Lemma expense_category_not_budget (df : DataFrame) (choice : nat) :
  default "None"
    (selectbox (List.map Categories (Frame.select (Frame.cat_ne "Budget") df)) choice)
  <> "Budget".
Proof.
  destruct (selectbox _ choice) as [c | ] eqn:E; simpl; [ | discriminate].
  apply selectbox_in in E. apply in_map_iff in E. destruct E as (r & <- & Hr).
  unfold Frame.select in Hr. apply filter_In in Hr. destruct Hr as [_ Hr].
  unfold Frame.cat_ne in Hr. apply negb_true_iff in Hr. apply String.eqb_neq in Hr. exact Hr.
Qed.

Lemma loc_add_ext (m1 m2 : Row -> bool) (v : float) (df : DataFrame) :
  (forall r, In r df -> m1 r = m2 r) -> Frame.loc_add m1 v df = Frame.loc_add m2 v df.
Proof.
  intros H. unfold Frame.loc_add. apply map_ext_in. intros r Hr. rewrite (H r Hr). reflexivity.
Qed.

(** The mask the "Add Expense" branch uses is the mask of the category it
    names, also when there is no category to choose. *)
Lemma expense_mask (df : DataFrame) (choice : nat) (v : float) :
  let picked := selectbox (List.map Categories (Frame.select (Frame.cat_ne "Budget") df)) choice in
  Frame.loc_add (match picked with Some c => Frame.cat_eq c | None => fun _ => false end) v df
  = Frame.loc_add (Frame.cat_eq (default "None" picked)) v df.
Proof.
  intros picked. destruct picked as [c | ] eqn:E; [reflexivity | ]. simpl.
  apply loc_add_ext. intros r Hr. unfold Frame.cat_eq.
  destruct (String.eqb (Categories r) "None") eqn:En; [ | reflexivity].
  apply selectbox_none in E. apply map_eq_nil in E.
  assert (Hin : In r (Frame.select (Frame.cat_ne "Budget") df)).
  { apply filter_In. split; [exact Hr | ]. unfold Frame.cat_ne.
    apply String.eqb_eq in En. rewrite En. reflexivity. }
  rewrite E in Hin. destruct Hin.
Qed.

Lemma budget_filter_loc_add (c : string) (v : float) (df : DataFrame) :
  c <> "Budget" ->
  List.filter (Frame.cat_eq "Budget") (Frame.loc_add (Frame.cat_eq c) v df)
  = List.filter (Frame.cat_eq "Budget") df.
Proof.
  intros Hc. unfold Frame.loc_add, Frame.cat_eq.
  induction df as [ | r df IH]; [reflexivity | ].
  simpl. rewrite IH.
  destruct (String.eqb (Categories r) c) eqn:E; [ | reflexivity].
  simpl. apply String.eqb_eq in E.
  destruct (String.eqb (Categories r) "Budget") eqn:E2; [ | reflexivity].
  apply String.eqb_eq in E2. congruence.
Qed.

Lemma budget_value_loc_add (c : string) (v : float) (df : DataFrame) :
  c <> "Budget" ->
  Frame.budget_value (Frame.loc_add (Frame.cat_eq c) v df) = Frame.budget_value df.
Proof.
  intros Hc. unfold Frame.budget_value, Frame.loc_values.
  rewrite (budget_filter_loc_add c v df Hc). reflexivity.
Qed.

(** The budget that is read back from a saved ledger. *)
Lemma budget_value_read_back (df : DataFrame) :
  Frame.budget_value
    (List.map (fun r => row (Categories r) (Frame.nan_to_zero (Total r))) df)
  = match Frame.budget_value df with
    | Ok b => Ok (Frame.nan_to_zero b)
    | Raise e => Raise e
    end.
Proof.
  unfold Frame.budget_value, Frame.loc_values.
  induction df as [ | r df IH]; [reflexivity | ].
  simpl. unfold Frame.cat_eq in *. simpl.
  destruct (String.eqb (Categories r) "Budget"); [reflexivity | exact IH].
Qed.

Lemma budget_value_saved (name : string) (df : DataFrame) (b : float) (w : World) :
  Frame.budget_value df = Ok b ->
  Frame.budget_value
    (ledger_of (Fs.set_user_data (insert (user_csv_path name) (to_csv df)) w) name)
  = Ok (Frame.nan_to_zero b).
Proof.
  intros Hb.
  rewrite (ledger_of_stored name _ (csv_rows df)) by (simpl; apply lookup_insert_eq).
  rewrite normalized_to_csv, budget_value_read_back, Hb. reflexivity.
Qed.

Lemma numeric_budget (df : DataFrame) (b : float) :
  numeric df -> Frame.budget_value df = Ok b -> is_nan b = false.
Proof.
  unfold numeric, Frame.budget_value, Frame.loc_values.
  induction 1 as [ | r df Hr _ IH]; [discriminate | ].
  simpl. destruct (Frame.cat_eq "Budget" r); [ | exact IH].
  simpl. intros [= <-]. exact Hr.
Qed.

(** "Add Expense", clicked, step by step. *)
Lemma add_expense_run (i : Input) (df : DataFrame) (b : float) (w : World) :
  in_clicked i = Some Add_Expense_Button ->
  Frame.budget_value df = Ok b ->
  is_nan b = false ->
  let name := in_name i in
  let dt := in_now i in
  let rpt := report_file_path name dt in
  let c := default "None"
             (selectbox (List.map Categories (Frame.select (Frame.cat_ne "Budget") df))
                        (in_category i)) in
  let df' := Frame.loc_add (Frame.cat_eq c) (in_amount i) df in
  let w0 := Fs.set_screen (fun s => (s ++ [st_write "Add an expense to a category:"])%list) w in
  let ws := Fs.set_user_data (insert (user_csv_path name) (to_csv df')) w0 in
  let we := exec (ensure_monthly_report_exists name dt) ws in
  let wa := Fs.set_monthly_reports
              (fun fs => <[rpt := default "" (fs !! rpt) +:+ expense_line c (in_amount i) dt]> fs)
              we in
  let p := (if (0 <? b)%float
            then (Frame.sum_total (Frame.select (Frame.cat_ne "Budget") df') / b * 100)%float
            else 0%float) in
  add_expense i df w
  = (Ok df',
     exec (Fs.emit (st_success ("✅ Added ₹" +:+ PyFloat.repr (in_amount i) +:+ " to " +:+ c)))
       (exec (if (100 <=? p)%float then Fs.emit (st_error "🚨 ALERT: Budget exceeded!")
              else if (80 <=? p)%float then
                Fs.emit (st_warning ("⚠️ WARNING: Budget used " +:+ PyFloat.format_2f p +:+ "%"))
              else ret tt) wa)).
Proof.
  intros Hc Hb Hnan name dt rpt c df' w0 ws we wa p.
  assert (Hcat : c <> "Budget") by apply expense_category_not_budget.
  assert (Hb' : Frame.budget_value df' = Ok b)
    by (subst df'; rewrite budget_value_loc_add by exact Hcat; exact Hb).
  assert (Hst := compute_budget_status_ok df' b Hb').
  assert (Hbs : Frame.budget_value (ledger_of ws name) = Ok b).
  { subst ws. rewrite (budget_value_saved name df' b w0 Hb').
    rewrite (nan_to_zero_numeric b Hnan). reflexivity. }
  assert (Hbe : Frame.budget_value (ledger_of we name) = Ok b).
  { rewrite (ledger_of_same_files we ws); [exact Hbs | ]. apply (ensure_frame name dt ws). }
  assert (Hse : settled name dt we).
  { destruct (0 <? b)%float eqn:Hpos.
    - left. apply (ensure_report_there name dt ws b Hbs Hpos).
    - right. exists b. auto. }
  unfold add_expense. unfold bind at 1.
  change (Fs.emit (st_write "Add an expense to a category:") w) with (Ok tt, w0).
  cbv iota beta. unfold pressed. rewrite Hc.
  rewrite expense_mask. fold name dt c df'.
  unfold bind at 1, save_user_data, modify. fold ws.
  unfold bind at 1. rewrite (ensure_returns name dt ws b Hbs). fold we.
  unfold bind at 1. rewrite append_expense_to_report_run.
  rewrite (settled_ensure name dt we b Hbe Hse).
  unfold bind at 1, create_and_save_charts, ret.
  unfold bind at 1, lift. rewrite Hst.
  unfold bind at 1. simpl. fold rpt wa p.
  destruct (100 <=? p)%float; [reflexivity | ].
  destruct (80 <=? p)%float; reflexivity.
Qed.



(* ===================================================================== *)
(** ** Lines of a report                                                  *)
(* ===================================================================== *)

Lemma splitlines_byte (c : ascii) (s : string) :
  line_byte c = true ->
  Text.splitlines (String c s) = Text.prepend_to_first c (Text.splitlines s).
Proof.
  intros H.
  destruct c as [[] [] [] [] [] [] [] []]; try discriminate H; reflexivity.
Qed.

Lemma splitlines_line (a s : string) :
  unbroken a = true ->
  Text.splitlines (a +:+ String "010" s) = (a +:+ String "010" "") :: Text.splitlines s.
Proof.
  induction a as [ | c a IH]; intros H; [reflexivity | ].
  simpl in H. apply andb_true_iff in H. destruct H as [Hc Ha].
  change (Text.splitlines (String c (a +:+ String "010" s))
          = String c (a +:+ String "010" "") :: Text.splitlines s).
  rewrite (splitlines_byte c _ Hc), (IH Ha). reflexivity.
Qed.

Lemma unbroken_append (a b : string) : unbroken (a +:+ b) = unbroken a && unbroken b.
Proof.
  induction a as [ | x a IH]; [reflexivity | ].
  change (line_byte x && unbroken (a +:+ b) = line_byte x && unbroken a && unbroken b).
  rewrite IH. apply andb_assoc.
Qed.

Lemma line_byte_digit (x : N) : line_byte (pretty_N_char x) = true.
Proof. unfold pretty_N_char. repeat case_match; reflexivity. Qed.

Lemma unbroken_pretty_go (x : N) :
  forall s, unbroken s = true -> unbroken (pretty_N_go x s) = true.
Proof.
  induction (N.lt_wf_0 x) as [x _ IH]. intros s Hs.
  destruct (decide (0 < x)%N) as [Hpos | Hzero].
  - rewrite pretty_N_go_step by exact Hpos. apply IH.
    + apply N.div_lt; [exact Hpos | reflexivity].
    + simpl. rewrite line_byte_digit. exact Hs.
  - assert (x = 0%N) as -> by lia. exact Hs.
Qed.

Lemma unbroken_dec (n : N) : unbroken (Text.dec n) = true.
Proof.
  unfold Text.dec, pretty, pretty_N.
  destruct (decide (n = 0%N)); [reflexivity | ]. apply unbroken_pretty_go. reflexivity.
Qed.

Lemma unbroken_zeros (n : nat) : unbroken (Text.zeros n) = true.
Proof. induction n as [ | n IH]; [reflexivity | exact IH]. Qed.

Lemma unbroken_zpad (w : nat) (n : N) : unbroken (Text.zpad w n) = true.
Proof.
  unfold Text.zpad. rewrite unbroken_append, unbroken_zeros, unbroken_dec. reflexivity.
Qed.

Lemma unbroken_format_2f (x : float) : unbroken (PyFloat.format_2f x) = true.
Proof.
  unfold PyFloat.format_2f.
  destruct (Prim2SF x) as [s | s | | s m e]; try (destruct s; reflexivity); [reflexivity | ].
  rewrite !unbroken_append, unbroken_dec, unbroken_zpad. destruct s; reflexivity.
Qed.

Lemma unbroken_month_name (m : nat) : unbroken (Date.month_name m) = true.
Proof. do 13 (destruct m as [ | m]; [reflexivity | ]). reflexivity. Qed.

Lemma unbroken_title (name : string) (dt : datetime) :
  unbroken name = true ->
  unbroken ("Expense Report for " +:+ name +:+ " - " +:+ Date.strftime "%B %Y" dt) = true.
Proof.
  intros H.
  change (Date.strftime "%B %Y" dt)
    with (Date.month_name (Date.month dt)
          +:+ String " " (Text.zpad 4 (N.of_nat (Date.year dt)) +:+ "")).
  rewrite !unbroken_append, H, unbroken_month_name.
  change (unbroken (String " " (Text.zpad 4 (N.of_nat (Date.year dt)) +:+ "")))
    with (unbroken (Text.zpad 4 (N.of_nat (Date.year dt)) +:+ "")).
  rewrite unbroken_append, unbroken_zpad. reflexivity.
Qed.

Lemma splitlines_title (name : string) (dt : datetime) (s : string) :
  unbroken name = true ->
  Text.splitlines (report_title name dt +:+ s) = report_title name dt :: Text.splitlines s.
Proof.
  intros H. unfold report_title.
  rewrite <- !TextFacts.append_assoc.
  rewrite (TextFacts.append_assoc _ "
" s).
  change ("
" +:+ s) with (String "010" s).
  rewrite splitlines_line; [reflexivity | ].
  rewrite !TextFacts.append_assoc. apply unbroken_title, H.
Qed.

Lemma splitlines_budget_line (b : float) (s : string) :
  Text.splitlines (report_budget_line b +:+ s) = report_budget_line b :: Text.splitlines s.
Proof.
  unfold report_budget_line.
  rewrite !TextFacts.append_assoc.
  change ("
" +:+ s) with (String "010" s).
  change ("Budget: ₹" +:+ PyFloat.format_2f b +:+ String "010" s)
    with (String "B" (String "u" (String "d" (String "g" (String "e" (String "t"
           (String ":" (String " " (String "226" (String "130" (String "185"
              (PyFloat.format_2f b +:+ String "010" s)))))))))))).
  rewrite !splitlines_byte by reflexivity.
  change (Text.splitlines (String "226" (String "130" (String "185"
            (PyFloat.format_2f b +:+ String "010" s)))))
    with (Text.prepend_to_first "226" (Text.prepend_to_first "130" (Text.prepend_to_first "185"
            (Text.splitlines (PyFloat.format_2f b +:+ String "010" s))))).
  rewrite splitlines_line by apply unbroken_format_2f.
  reflexivity.
Qed.

Lemma splitlines_columns (s : string) :
  Text.splitlines (report_columns +:+ s) = report_columns :: Text.splitlines s.
Proof.
  change (report_columns +:+ s) with ("Timestamp | Category | Amount" +:+ String "010" s).
  rewrite splitlines_line by reflexivity. reflexivity.
Qed.

(** The lines of a report that starts with the header. *)
Lemma splitlines_header (name : string) (dt : datetime) (b : float) (rest : string) :
  unbroken name = true ->
  Text.splitlines (report_title name dt +:+ report_budget_line b +:+ report_columns +:+ rest)
  = report_title name dt :: report_budget_line b :: report_columns :: Text.splitlines rest.
Proof.
  intros H. rewrite (splitlines_title name dt _ H), splitlines_budget_line, splitlines_columns.
  reflexivity.
Qed.

Lemma budget_value_loc_set (v : float) (df : DataFrame) (b : float) :
  Frame.budget_value df = Ok b ->
  Frame.budget_value (Frame.loc_set (Frame.cat_eq "Budget") v df) = Ok v.
Proof.
  unfold Frame.budget_value, Frame.loc_values, Frame.loc_set.
  induction df as [ | r df IH]; [discriminate | ].
  simpl. destruct (Frame.cat_eq "Budget" r) eqn:E.
  - intros _. unfold Frame.cat_eq in *. simpl. rewrite E. reflexivity.
  - rewrite E. exact IH.
Qed.

(** X11. A budget update resets a report that starts with the header: for
    a name without line boundaries, when the report of the month holds the
    title line, a budget line and the column line, followed by anything,
    "Update Budget" leaves exactly the three header lines with the new
    budget; every line recorded below the header is gone.  The table saved
    as the ledger file is the ledger with its Budget row set to the new
    budget, which is then the budget of that table, and
    [ensure_monthly_report_exists] has nothing left to do. *)
Theorem X11_budget_update_resets_report (i : Input) (df : DataFrame) (b b0 : float)
    (rest : string) (w : World) :
  in_clicked i = Some Update_Budget ->
  unbroken (in_name i) = true ->
  Frame.budget_value df = Ok b ->
  let name := in_name i in
  let dt := in_now i in
  let rpt := report_file_path name dt in
  monthly_reports w !! rpt
  = Some (report_title name dt +:+ report_budget_line b0 +:+ report_columns +:+ rest) ->
  let w' := exec (modify_budget i df) w in
  let df' := Frame.loc_set (Frame.cat_eq "Budget") (in_new_budget i) df in
  monthly_reports w'
  = <[rpt := report_title name dt +:+ report_budget_line (in_new_budget i)
             +:+ report_columns]> (monthly_reports w)
  /\ user_data w' = <[user_csv_path name := to_csv df']> (user_data w)
  /\ Frame.budget_value df' = Ok (in_new_budget i)
  /\ ensure_monthly_report_exists name dt w' = (Ok rpt, w').
Proof.
  intros Hc Hname Hb name dt rpt Hold w' df'.
  assert (Hp : pressed i Update_Budget = true) by (unfold pressed; rewrite Hc; reflexivity).
  assert (Hrep := modify_budget_rewrites i df b _ w Hb Hp Hold).
  fold name dt rpt w' in Hrep.
  rewrite (splitlines_header name dt b0 rest Hname) in Hrep. simpl in Hrep.
  assert (Hdata : user_data w' = <[user_csv_path name := to_csv df']> (user_data w)).
  { subst w' df'. unfold exec, modify_budget, bind at 1, lift. rewrite Hb, Hp.
    unfold bind at 1, save_user_data, modify.
    unfold bind at 1, Fs.report_exists, bind at 1, get, ret. simpl. fold name dt rpt.
    rewrite Hold. reflexivity. }
  split; [exact Hrep | ].
  split; [exact Hdata | ].
  split; [exact (budget_value_loc_set _ df b Hb) | ].
  rewrite ensure_monthly_report_exists_run. fold rpt. rewrite Hrep, lookup_insert_eq.
  reflexivity.
Qed.

Lemma X11_budget_update_resets_report_witness :
  monthly_reports (exec (modify_budget raise_budget_1500 ledger_within) world_with_report)
    !! "monthly_reports/asha_November_2025.txt"
  = Some "Expense Report for asha - November 2025
Budget: ₹1500.00
Timestamp | Category | Amount
".
Proof.
  assert (Hold : monthly_reports world_with_report !! report_file_path "asha" nov_30
                 = Some (report_title "asha" nov_30 +:+ report_budget_line 1000
                         +:+ report_columns +:+ "30-11-2025 18:45 | Food | ₹850.0
")) by (vm_compute; reflexivity).
  rewrite (proj1 (X11_budget_update_resets_report raise_budget_1500 ledger_within 1000 1000
                    _ world_with_report eq_refl eq_refl eq_refl Hold)).
  vm_compute. reflexivity.
Defined.

(* ===================================================================== *)
(** ** One user at a time                                                 *)
(* ===================================================================== *)

Lemma main_others_untouched (i : Input) (w : World) :
  others_untouched (in_name i) w (exec (main i) w).
Proof.
  refine (proj1 (fp_main i (others_untouched (in_name i) w) (fun _ => True) anything
                   _ _ _ _ _ _ _ _ _ _ _ _ w _)); try (intros; exact Logic.I).
  - intros f w' H. exact H.
  - intros f w' H. exact H.
  - intros w' [Hd Hm]. split; [exact Hd | ]. intros path Hne. simpl.
    rewrite lookup_insert_ne by (intros E; apply Hne; symmetry; exact E). apply Hm, Hne.
  - intros df w' _ [Hd Hm]. split; [ | exact Hm]. intros path Hne. simpl.
    rewrite lookup_insert_ne by (intros E; apply Hne; symmetry; exact E). apply Hd, Hne.
  - intros df _. destruct (Frame.budget_value df); exact Logic.I.
  - destruct (Date.minus_one_day _); exact Logic.I.
  - intros w' H. exact H.
  - split; reflexivity.
Qed.

(** X13. A run for one user leaves every other user alone.  For names
    without "/" (each then has files of its own): the ledger file and the
    marker file of any other name are as before, so the ledger loaded for
    the other user and the month key read for them are the same, and the
    other name is registered after the run exactly when it was before. *)
Theorem X13_other_users_untouched (i : Input) (w : World) (other : string) :
  plain_name (in_name i) = true ->
  plain_name other = true ->
  other <> in_name i ->
  let w' := exec (main i) w in
  user_data w' !! user_csv_path other = user_data w !! user_csv_path other
  /\ last_reset w' !! reset_file_path other = last_reset w !! reset_file_path other
  /\ ledger_of w' other = ledger_of w other
  /\ stored_month_key w' other = stored_month_key w other
  /\ (other ∈ users w' <-> other ∈ users w).
Proof.
  intros _ _ Hne w'. destruct (main_others_untouched i w) as [Hd Hm]. fold w' in Hd, Hm.
  assert (H1 : user_data w' !! user_csv_path other = user_data w !! user_csv_path other).
  { apply Hd. intros E. apply Hne. apply user_csv_path_inj, E. }
  assert (H2 : last_reset w' !! reset_file_path other = last_reset w !! reset_file_path other).
  { apply Hm. intros E. apply Hne. apply reset_file_path_inj, E. }
  split; [exact H1 | split; [exact H2 | split; [ | split]]].
  - apply ledger_of_same_file, H1.
  - unfold stored_month_key. rewrite H2. reflexivity.
  - subst w'. destruct (String.eqb (in_name i) "") eqn:Hname.
    + unfold exec. rewrite main_run, Hname. reflexivity.
    + rewrite (main_users i w Hname). rewrite elem_of_union, elem_of_singleton.
      split; [intros [E | H]; [contradiction | exact H] | auto].
Qed.

Lemma X13_other_users_untouched_witness :
  user_data (exec (main add_food_850) world_of_two_users) !! "user_data/ravi.csv"
  = Some (to_csv ledger_exceeded)
  /\ stored_month_key (exec (main add_food_850) world_of_two_users) "ravi" = Some "2025-11".
Proof.
  assert (Hne : "ravi" <> in_name add_food_850) by discriminate.
  destruct (X13_other_users_untouched add_food_850 world_of_two_users "ravi"
              eq_refl eq_refl Hne) as (H1 & _ & _ & H2 & _).
  split.
  - etransitivity; [exact H1 | ]. vm_compute. reflexivity.
  - etransitivity; [exact H2 | ]. vm_compute. reflexivity.
Defined.

(* ===================================================================== *)
(** ** Who changes the budget                                             *)
(* ===================================================================== *)

Lemma pressed_clicked (i : Input) (b : Button) :
  pressed i b = true -> in_clicked i = Some b.
Proof.
  unfold pressed. destruct (in_clicked i) as [[] | ], b; intros H;
    try discriminate H; reflexivity.
Qed.

(** The screens keep the budget, unless a budget button is clicked. *)
Lemma screen_keeps_budget (i : Input) (df : DataFrame) (b : float) (new : bool) (w : World) :
  in_clicked i <> Some Save_Budget ->
  in_clicked i <> Some Update_Budget ->
  Frame.budget_value df = Ok b ->
  is_nan b = false ->
  Frame.budget_value (ledger_of w (in_name i)) = Ok b ->
  let c := if new then new_user_screen i df else existing_user_screen i df in
  Frame.budget_value (ledger_of (exec c w) (in_name i)) = Ok b
  /\ match outcome c w with
     | Ok df' => Frame.budget_value df' = Ok b
     | Raise _ => True
     end.
Proof.
  intros Hsave Hupdate Hb Hnan Hl c. subst c. unfold exec, outcome.
  assert (Hps : pressed i Save_Budget = false).
  { destruct (pressed i Save_Budget) eqn:E; [ | reflexivity].
    destruct (Hsave (pressed_clicked _ _ E)). }
  assert (Hpu : pressed i Update_Budget = false).
  { destruct (pressed i Update_Budget) eqn:E; [ | reflexivity].
    destruct (Hupdate (pressed_clicked _ _ E)). }
  destruct new.
  - unfold new_user_screen. rewrite Hps. simpl. auto.
  - unfold existing_user_screen. destruct (in_menu i).
    + unfold bind. rewrite (show_budget_summary_run df _ _ _ _ w (compute_budget_status_ok df b Hb)).
      simpl. split; [ | exact Hb].
      rewrite (ledger_of_same_files _ w) by reflexivity. exact Hl.
    + destruct (pressed i Add_Expense_Button) eqn:Hp.
      * rewrite (add_expense_run i df b w (pressed_clicked _ _ Hp) Hb Hnan).
        cbv zeta. cbn [fst snd].
        assert (Hcat := expense_category_not_budget df (in_category i)).
        set (c := default "None" _) in *.
        assert (Hb' : Frame.budget_value (Frame.loc_add (Frame.cat_eq c) (in_amount i) df) = Ok b)
          by (rewrite budget_value_loc_add by exact Hcat; exact Hb).
        split; [ | exact Hb'].
        match goal with
        | |- Frame.budget_value (ledger_of ?wf _) = _ =>
            rewrite (ledger_of_same_files wf
                       (Fs.set_user_data
                          (insert (user_csv_path (in_name i))
                             (to_csv (Frame.loc_add (Frame.cat_eq c) (in_amount i) df))) w))
        end.
        -- rewrite (budget_value_saved _ _ b w Hb'), (nan_to_zero_numeric b Hnan). reflexivity.
        -- destruct (100 <=? _)%float; [ | destruct (80 <=? _)%float]; simpl;
             apply (ensure_frame (in_name i) (in_now i)).
      * unfold add_expense. rewrite Hp. simpl. split; [ | exact Hb].
        rewrite (ledger_of_same_files _ w) by reflexivity. exact Hl.
    + unfold modify_budget, bind, lift. rewrite Hb, Hpu. simpl. auto.
    + unfold bind. rewrite (ensure_returns _ (in_now i) w b Hl). simpl.
      split; [ | exact Hb].
      rewrite (ledger_of_same_files _ w); [exact Hl | ].
      apply (ensure_frame (in_name i) (in_now i) w).
    + simpl. auto.
Qed.

(** X14. The budget changes only through its two buttons: a run in which
    neither "Save Budget" nor "Update Budget" is clicked leaves the budget
    of the user's ledger as it was (and a ledger without a Budget row
    without one), whatever else the run does: the month rollover, an
    expense, "Save data now". *)
Theorem X14_budget_changes_only_by_its_buttons (i : Input) (w : World) :
  in_clicked i <> Some Save_Budget ->
  in_clicked i <> Some Update_Budget ->
  Frame.budget_value (ledger_of (exec (main i) w) (in_name i))
  = Frame.budget_value (ledger_of w (in_name i)).
Proof.
  intros Hsave Hupdate.
  destruct (String.eqb (in_name i) "") eqn:Hname.
  { unfold exec. rewrite main_run, Hname. reflexivity. }
  destruct (Frame.budget_value (ledger_of w (in_name i))) as [b | e] eqn:Hb.
  2:{ unfold exec. rewrite (main_no_budget i w e Hname Hb). simpl.
      rewrite registered_ledger. exact Hb. }
  assert (Hnan : is_nan b = false)
    by (apply (numeric_budget _ b (ledger_of_numeric (in_name i) w) Hb)).
  set (w0 := registered (in_name i) w).
  assert (Hb0 : Frame.budget_value (ledger_of w0 (in_name i)) = Ok b)
    by (subst w0; rewrite registered_ledger; exact Hb).
  destruct (month_handling_result _ (in_now i) w0 b Hb0) as (_ & Hbm & _ & Hout).
  unfold exec, outcome in *. rewrite main_run, Hname.
  unfold bind at 1. rewrite register_run. fold w0.
  unfold run_registered, bind at 1.
  destruct (month_handling (in_name i) (in_now i) w0) as [[[df b'] | e] wm]; simpl in *;
    [ | exact Hbm].
  destruct Hout as (-> & Hdf & _).
  destruct (screen_keeps_budget i df b
              (negb (bool_decide (in_name i ∈ users w)) && (b =? 0)%float) wm
              Hsave Hupdate Hdf Hnan Hbm) as [Hl Ho].
  unfold exec, outcome in Hl, Ho. unfold bind at 1.
  destruct ((if negb (bool_decide (in_name i ∈ users w)) && (b =? 0)%float
             then new_user_screen i df else existing_user_screen i df) wm)
    as [[df2 | e2] w2]; simpl in *; [ | exact Hl].
  destruct (pressed i Save_Data_Now); simpl; [ | exact Hl].
  rewrite (ledger_of_same_files _
             (Fs.set_user_data (insert (user_csv_path (in_name i)) (to_csv df2)) w2))
    by reflexivity.
  rewrite (budget_value_saved _ _ b w2 Ho), (nan_to_zero_numeric b Hnan). reflexivity.
Qed.

Lemma X14_budget_changes_only_by_its_buttons_witness :
  Frame.budget_value
    (ledger_of (exec (main add_food_850) (world_with_ledger ledger_within)) "asha")
  = Frame.budget_value (ledger_of (world_with_ledger ledger_within) "asha").
Proof.
  assert (H1 : in_clicked add_food_850 <> Some Save_Budget) by discriminate.
  assert (H2 : in_clicked add_food_850 <> Some Update_Budget) by discriminate.
  exact (X14_budget_changes_only_by_its_buttons add_food_850
           (world_with_ledger ledger_within) H1 H2).
Defined.

(* ===================================================================== *)
(** ** Files and the users table                                          *)
(* ===================================================================== *)

Lemma main_keeps_no_orphans (i : Input) (w : World) :
  no_orphans w -> no_orphans (exec (main i) w).
Proof.
  intros Hw. unfold exec. rewrite main_run.
  destruct (String.eqb (in_name i) "") eqn:Hname; [exact Hw | ].
  unfold bind at 1. rewrite register_run.
  assert (H0 : no_orphans (registered (in_name i) w)
               /\ in_name i ∈ users (registered (in_name i) w)).
  { destruct (registered_same_disk (in_name i) w) as (_ & _ & _ & Hin).
    split; [ | exact Hin].
    unfold registered in *. destruct (bool_decide (in_name i ∈ users w)); [exact Hw | ].
    destruct Hw as (Hd & Hm & He). simpl. repeat split.
    - intros path Hp. destruct (Hd path Hp) as (n & Hn & ->).
      exists n. split; [apply elem_of_union_r, Hn | reflexivity].
    - intros path Hp. destruct (Hm path Hp) as (n & Hn & ->).
      exists n. split; [apply elem_of_union_r, Hn | reflexivity].
    - intros E. apply elem_of_union in E. destruct E as [E | E]; [ | exact (He E)].
      apply elem_of_singleton in E. rewrite <- E in Hname. discriminate Hname. }
  refine (proj1 (proj1 (fp_run_registered i
                   (fun w' => no_orphans w' /\ in_name i ∈ users w') (fun _ => True) anything
                   _ _ _ _ _ _ _ _ _ _ _ _ _ H0))); try (intros; exact Logic.I).
  - intros f w' H. exact H.
  - intros f w' H. exact H.
  - intros w' [(Hd & Hm & He) Hin]. split; [ | exact Hin]. repeat split; try assumption.
    intros path. simpl.
    destruct (decide (reset_file_path (in_name i) = path)) as [<- | Hne].
    + intros _. eauto.
    + rewrite lookup_insert_ne by exact Hne. apply Hm.
  - intros df w' _ [(Hd & Hm & He) Hin]. split; [ | exact Hin]. repeat split; try assumption.
    intros path. simpl.
    destruct (decide (user_csv_path (in_name i) = path)) as [<- | Hne].
    + intros _. eauto.
    + rewrite lookup_insert_ne by exact Hne. apply Hd.
  - intros df _. destruct (Frame.budget_value df); exact Logic.I.
  - destruct (Date.minus_one_day _); exact Logic.I.
Qed.

(** X15. The files belong to registered users.  In every world the script
    can bring about, each ledger file is the ledger file of a registered
    name and each marker file the marker file of a registered name, and the
    empty name is never registered. *)
Theorem X15_files_belong_to_users (w : World) :
  reachable w ->
  (forall path, is_Some (user_data w !! path) ->
     exists name, name ∈ users w /\ path = user_csv_path name)
  /\ (forall path, is_Some (last_reset w !! path) ->
        exists name, name ∈ users w /\ path = reset_file_path name)
  /\ ("" ∉ users w).
Proof.
  intros Hreach.
  induction Hreach as [ | w i _ IH].
  - repeat split.
    + intros path [x H]. simpl in H. rewrite lookup_empty in H. discriminate H.
    + intros path [x H]. simpl in H. rewrite lookup_empty in H. discriminate H.
    + apply not_elem_of_empty.
  - apply main_keeps_no_orphans. exact IH.
Qed.

Lemma X15_files_belong_to_users_witness :
  is_Some (user_data world_after_first_run !! "user_data/asha.csv")
  /\ exists name,
       name ∈ users world_after_first_run /\ "user_data/asha.csv" = user_csv_path name.
Proof.
  assert (Hfile : is_Some (user_data world_after_first_run !! "user_data/asha.csv"))
    by (eexists; vm_compute; reflexivity).
  split; [exact Hfile | ].
  exact (proj1 (X15_files_belong_to_users world_after_first_run
                  (reachable_run empty_world (look_at_summary "asha" dec_1) reachable_start))
           "user_data/asha.csv" Hfile).
Defined.
